(** * Connection pumps of the central event system

  A shallow embedding of the two connection pumps of the repository:

  - package [hubconnection]: the receiver's link to the hub, with its
    read pump, write pump and retry supervisor;
  - package [repeater]: the short-lived peer link ([PumpingStation]),
    with its read pump, write pump and liveness supervisor.

  Every goroutine is embedded as a function over the fields of the
  connection it shares with its siblings.  What the goroutine asks of
  its environment (the next frame of the socket, the outcome of a dial,
  the branch taken by a [select], the instant read off the clock) is
  handed to it as an explicit input; what it does to the environment
  (calls on the socket, sleeps, goroutines spawned, log lines, channel
  operations) is recorded, in program order, in a trace of actions. *)

From Stdlib Require Import ZArith List String Ascii Bool Lia.
From Stdlib Require Import Strings.Byte.
Import ListNotations.

Local Open Scope Z_scope.
Local Open Scope list_scope.

(** ** Time

  [time.Duration] counts nanoseconds; an instant is a number of
  nanoseconds since some epoch. *)

Definition Duration : Type := Z.
Definition Time : Type := Z.

Definition Second : Duration := 1000000000.

Definition time_Add (t : Time) (d : Duration) : Time := t + d.

(** [t.After(u)] *)
Definition time_After (t u : Time) : bool := u <? t.

(** ** The websocket library, as far as the pumps use it *)

Module websocket.

Definition TextMessage : Z := 1.
Definition BinaryMessage : Z := 2.
Definition CloseMessage : Z := 8.
Definition PingMessage : Z := 9.
Definition PongMessage : Z := 10.

Definition CloseNormalClosure : Z := 1000.
Definition CloseGoingAway : Z := 1001.
Definition CloseNoStatusReceived : Z := 1005.

(** The errors a read or a write on the socket hands back: a close frame
    of the peer ([*CloseError]), an error of the network layer
    ([net.Error], with its [Timeout()] answer), or anything else. *)
Inductive error : Type :=
| CloseError (code : Z) (text : string)
| NetError (timeout : bool) (msg : string)
| OtherError (msg : string).

(** [IsUnexpectedCloseError(err, expectedCodes...)]: a close error whose
    code is none of the expected ones. *)
Definition IsUnexpectedCloseError (err : error) (expected : list Z) : bool :=
  match err with
  | CloseError code _ => negb (existsb (Z.eqb code) expected)
  | _ => false
  end.

(** [netErr, ok := err.(net.Error); ok && netErr.Timeout()] *)
Definition isTimeout (err : error) : bool :=
  match err with
  | NetError timeout _ => timeout
  | _ => false
  end.

Definition byte_of_Z (z : Z) : byte :=
  match Byte.of_N (Z.to_N (z mod 256)) with
  | Some b => b
  | None => x00
  end.

(** [FormatCloseMessage(closeCode, text)]: the code, big endian on two
    bytes, followed by the text; empty for [CloseNoStatusReceived]. *)
Definition FormatCloseMessage (closeCode : Z) (text : string) : list byte :=
  if closeCode =? CloseNoStatusReceived then []
  else byte_of_Z (Z.shiftr closeCode 8) :: byte_of_Z closeCode
         :: list_byte_of_string text.

End websocket.

(** ** Package [base]: the shared data model *)

Module base.

Record EventWrapper : Type := mkEventWrapper {
  Room : string;
  Event : list byte
}.

End base.

(** ** Package [nerr]: errors with a type tag *)

Module nerr.

Record E : Type := mkE {
  Message : string;
  Type_ : string
}.

Definition Create (msg : string) (ty : string) : E := mkE msg ty.

End nerr.

(** ** Logging

  A log line is recorded with its level and the format string of the
  call. *)

Inductive Level : Type := Debug | Info | Warn | Error.

(** ** Package [hubconnection] *)

Module hubconnection.

Import base.

(** Interval to wait between retry attempts *)
Definition retryInterval : Duration := 3 * Second.

Definition ConnId : Type := nat.

(** A Go channel, as the goroutines of one connection see it: the
    values queued in it, oldest first, whether it was closed, and the
    capacity it was made with.  The channels of a [HubConnection] are
    made by a constructor that is not part of this package's file, so
    the capacity is whatever that constructor chose. *)
Record chan (A : Type) : Type := mkChan {
  buf : list A;
  closed : bool;
  cap : nat
}.
Arguments mkChan {A} _ _ _.
Arguments buf {A} _.
Arguments closed {A} _.
Arguments cap {A} _.

(** [ch <- v]: queues [v] when there is room, blocks ([None]) when the
    channel is full. *)
Definition chan_send {A} (c : chan A) (v : A) : option (chan A) :=
  if Nat.ltb (List.length (buf c)) (cap c)
  then Some (mkChan (buf c ++ [v]) (closed c) (cap c))
  else None.

Record HubConnection : Type := mkHub {
  ID : string;
  ConnectionType : string;
  writeChannel : chan EventWrapper;
  readChannel : chan EventWrapper;
  conn : option ConnId;
  hubAddr : string;
  readDone : chan bool;
  writeDone : chan bool;
  lastPingTime : Time;
  state : string
}.

Definition set_state (s : string) (h : HubConnection) : HubConnection :=
  mkHub (ID h) (ConnectionType h) (writeChannel h) (readChannel h) (conn h)
        (hubAddr h) (readDone h) (writeDone h) (lastPingTime h) s.

Definition set_conn (c : option ConnId) (h : HubConnection) : HubConnection :=
  mkHub (ID h) (ConnectionType h) (writeChannel h) (readChannel h) c
        (hubAddr h) (readDone h) (writeDone h) (lastPingTime h) (state h).

Definition set_hubAddr (a : string) (h : HubConnection) : HubConnection :=
  mkHub (ID h) (ConnectionType h) (writeChannel h) (readChannel h) (conn h)
        a (readDone h) (writeDone h) (lastPingTime h) (state h).

Definition set_readDone (c : chan bool) (h : HubConnection) : HubConnection :=
  mkHub (ID h) (ConnectionType h) (writeChannel h) (readChannel h) (conn h)
        (hubAddr h) c (writeDone h) (lastPingTime h) (state h).

Definition set_writeDone (c : chan bool) (h : HubConnection) : HubConnection :=
  mkHub (ID h) (ConnectionType h) (writeChannel h) (readChannel h) (conn h)
        (hubAddr h) (readDone h) c (lastPingTime h) (state h).

Definition set_readChannel (c : chan EventWrapper) (h : HubConnection)
  : HubConnection :=
  mkHub (ID h) (ConnectionType h) (writeChannel h) c (conn h)
        (hubAddr h) (readDone h) (writeDone h) (lastPingTime h) (state h).

Definition set_writeChannel (c : chan EventWrapper) (h : HubConnection)
  : HubConnection :=
  mkHub (ID h) (ConnectionType h) c (readChannel h) (conn h)
        (hubAddr h) (readDone h) (writeDone h) (lastPingTime h) (state h).

Definition set_lastPingTime (t : Time) (h : HubConnection) : HubConnection :=
  mkHub (ID h) (ConnectionType h) (writeChannel h) (readChannel h) (conn h)
        (hubAddr h) (readDone h) (writeDone h) t (state h).

Inductive Goroutine : Type := ReadPump | WritePump | RetryConnection.

Inductive ChanName : Type :=
| ChReadDone | ChWriteDone | ChReadChannel | ChWriteChannel.

(** What a goroutine of the hub connection does to its environment. *)
Inductive Action : Type :=
| ADial (url : string)
| ASleep (d : Duration)
| AGo (g : Goroutine)
| ASetState (s : string)
| ARecv (ch : ChanName)
| ASend (ch : ChanName) (v : bool)
| ADeliver (m : EventWrapper)
| ASetReadDeadline (c : option ConnId) (t : Time)
| AWriteControl (c : option ConnId) (messageType : Z) (data : list byte)
                (deadline : Time)
| AWriteMessage (c : option ConnId) (messageType : Z) (data : list byte)
| AClose (c : option ConnId)
| ALog (l : Level) (format : string).

(** Where a goroutine stands when its trace ends: it returned, or it is
    waiting for its environment at one of its blocking points. *)
Inductive BlockPoint : Type :=
| OnReadDone | OnWriteDone | OnDial | OnReadMessage | OnSelect
| OnSend (ch : ChanName).

Inductive Status : Type :=
| Returned
| BlockedOn (p : BlockPoint).

Definition Result : Type := HubConnection * list Action * Status.

Definition emit (acts : list Action) (r : Result) : Result :=
  let '(h, tr, st) := r in (h, acts ++ tr, st).

(** The outcome of one [dialer.Dial]. *)
Inductive DialOutcome : Type :=
| DialOk (c : ConnId)
| DialErr (msg : string).

Definition connectURL (h : HubConnection) : string :=
  ("ws://" ++ hubAddr h ++ "/connect/" ++ ConnectionType h)%string.

(** [openConnection]: dial the hub; keep the socket when that works.
    The boolean is [err == nil]. *)
Definition openConnection (d : DialOutcome) (h : HubConnection)
  : HubConnection * list Action * bool :=
  match d with
  | DialErr _ => (h, [ADial (connectURL h)], false)
  | DialOk c => (set_conn (Some c) h, [ADial (connectURL h)], true)
  end.

Definition logRetryFailed : Action :=
  ALog Info "[retry] Retry failed, trying to connect to %s again in %v seconds.".

(** The end of [retryConnection], once the connection is open. *)
Definition retrySuccess (h : HubConnection) : Result :=
  (set_state "good" h,
   [ALog Info "[Retry] Retry success. Starting pumps";
    ASetState "good"; AGo ReadPump; AGo WritePump],
   Returned).

(** [for err != nil { log; time.Sleep(retryInterval); err = h.openConnection() }],
    entered with [err != nil]; [dials] are the outcomes of the dials to
    come. *)
Fixpoint retryLoop (dials : list DialOutcome) (h : HubConnection) : Result :=
  match dials with
  | [] => (h, [logRetryFailed; ASleep retryInterval], BlockedOn OnDial)
  | d :: rest =>
      let '(h', tr, ok) := openConnection d h in
      emit ([logRetryFailed; ASleep retryInterval] ++ tr)
           (if ok then retrySuccess h' else retryLoop rest h')
  end.

Definition retryConnection (dials : list DialOutcome) (h : HubConnection)
  : Result :=
  (* mark the connection as 'down' *)
  let h := set_state (state h ++ " retrying")%string h in
  emit [ASetState (state h);
        ALog Info "[retry] Retrying connection, waiting for read and write pump to close before starting."] (
  (* wait for read to say i'm done. *)
  match buf (readDone h) with
  | [] => (h, [], BlockedOn OnReadDone)
  | _ :: rd =>
      let h :=
        set_readDone (mkChan rd (closed (readDone h)) (cap (readDone h))) h in
      emit [ARecv ChReadDone; ALog Info "[retry] Read pump closed"] (
      (* wait for write to be done. *)
      match buf (writeDone h) with
      | [] => (h, [], BlockedOn OnWriteDone)
      | _ :: wd =>
          let h :=
            set_writeDone
              (mkChan wd (closed (writeDone h)) (cap (writeDone h))) h in
          emit [ARecv ChWriteDone; ALog Info "[retry] Write pump closed";
                ALog Info "[retry] Retrying connection"] (
          (* we retry *)
          match dials with
          | [] => (h, [], BlockedOn OnDial)
          | d :: rest =>
              let '(h', tr, ok) := openConnection d h in
              emit tr (if ok then retrySuccess h' else retryLoop rest h')
          end)
      end)
  end).

(** [retryConnection] from its wait for the read pump on: what the
    goroutine goes on to do when it is taken up again after having been
    held up there. *)
Definition retryAwait (dials : list DialOutcome) (h : HubConnection)
  : Result :=
  match buf (readDone h) with
  | [] => (h, [], BlockedOn OnReadDone)
  | _ :: rd =>
      let h :=
        set_readDone (mkChan rd (closed (readDone h)) (cap (readDone h))) h in
      emit [ARecv ChReadDone; ALog Info "[retry] Read pump closed"] (
      match buf (writeDone h) with
      | [] => (h, [], BlockedOn OnWriteDone)
      | _ :: wd =>
          let h :=
            set_writeDone
              (mkChan wd (closed (writeDone h)) (cap (writeDone h))) h in
          emit [ARecv ChWriteDone; ALog Info "[retry] Write pump closed";
                ALog Info "[retry] Retrying connection"] (
          match dials with
          | [] => (h, [], BlockedOn OnDial)
          | d :: rest =>
              let '(h', tr, ok) := openConnection d h in
              emit tr (if ok then retrySuccess h' else retryLoop rest h')
          end)
      end)
  end.

(** How a call ends: it returns, with its error or nil, or it is held up
    at a send. *)
Inductive CallOutcome : Type :=
| Returns (err : option nerr.E)
| Blocks (p : BlockPoint).

(** [ConnectToHub]: the first connection.  When the dial fails, both
    completion indicators are posted (each post waits for room in its
    channel) and the retry supervisor is started as a goroutine of its
    own. *)
Definition ConnectToHub (hubAddress : string) (d : DialOutcome)
  (h : HubConnection) : HubConnection * list Action * CallOutcome :=
  let h := set_hubAddr hubAddress h in
  (* open connection with router *)
  let '(h, tr, ok) := openConnection d h in
  if ok then
    (* update state to good *)
    (set_state "good" h,
     tr ++ [ASetState "good";
            ALog Info "Successfully connected to hub %s. Starting pumps...";
            (* start read/write pumps *)
            AGo ReadPump; AGo WritePump],
     Returns None)
  else
    match chan_send (readDone h) true with
    | None =>
        (h, tr ++ [ALog Warn "Opening connection to hub failed, retrying..."],
         Blocks (OnSend ChReadDone))
    | Some rd =>
        let h := set_readDone rd h in
        match chan_send (writeDone h) true with
        | None =>
            (h,
             tr ++ [ALog Warn "Opening connection to hub failed, retrying...";
                    ASend ChReadDone true],
             Blocks (OnSend ChWriteDone))
        | Some wd =>
            let h := set_writeDone wd h in
            (h,
             tr ++ [ALog Warn "Opening connection to hub failed, retrying...";
                    ASend ChReadDone true; ASend ChWriteDone true;
                    AGo RetryConnection],
             Returns
               (Some (nerr.Create
                        ("failed to open connection to hub " ++ hubAddr h
                         ++ ". retrying connection...")%string
                        "connection-error")))
        end
    end.

(** What the socket hands to the read pump, one entry per frame: a ping
    control frame (served by the ping handler inside [ReadMessage], which
    then goes on reading; the three instants are the three readings of
    the clock the handler takes), a data message with its type, or the
    error that ends the read. *)
Inductive SocketRead : Type :=
| RPing (appData : string) (t1 t2 t3 : Time)
| RMessage (t : Z) (b : list byte)
| RError (err : websocket.error).

(** What the [select] of the write pump takes: the [writeChannel] case
    (with the result [WriteMessage] will give if there is an item to
    write, and the reading of the clock if the channel turns out closed),
    or the [readDone] case. *)
Inductive WriteSelect : Type :=
| WTakeWrite (werr : option websocket.error) (now : Time)
| WTakeReadDone.

Section Pumps.

(** Package [base] frames the messages; package [incomingconnection]
    fixes the two windows.  Neither is part of this package. *)
Variable ParseMessage : list byte -> option EventWrapper.
Variable PrepareMessage : EventWrapper -> list byte.
Variable PingWait : Duration.
Variable WriteWait : Duration.

(** The handler installed with [SetPingHandler]. *)
Definition pingHandler (t1 t2 t3 : Time) (h : HubConnection)
  : HubConnection * list Action :=
  (set_lastPingTime t3 h,
   [ALog Info "[%v] Ping!";
    ASetReadDeadline (conn h) (time_Add t1 PingWait);
    AWriteControl (conn h) websocket.PongMessage []
                  (time_Add t2 WriteWait)]).

(** The [for] loop of [startReadPump]. *)
Fixpoint readLoop (evs : list SocketRead) (h : HubConnection) : Result :=
  match evs with
  | [] => (h, [], BlockedOn OnReadMessage)
  | RPing _ t1 t2 t3 :: rest =>
      let '(h', tr) := pingHandler t1 t2 t3 h in
      emit tr (readLoop rest h')
  | RError err :: _ =>
      (h,
       (if websocket.IsUnexpectedCloseError err [websocket.CloseGoingAway]
        then [ALog Error "Websocket closing: %v"] else [])
       ++ [ALog Error "Error: %v"],
       Returned)
  | RMessage t b :: rest =>
      if negb (t =? websocket.BinaryMessage) then
        emit [ALog Warn "Unknown message type %v"] (readLoop rest h)
      else
        (* parse out room name *)
        match ParseMessage b with
        | None =>
            emit [ALog Warn "Poorly formed message %s: %v"] (readLoop rest h)
        | Some m =>
            match chan_send (readChannel h) m with
            | None => (h, [], BlockedOn (OnSend ChReadChannel))
            | Some q =>
                emit [ADeliver m] (readLoop rest (set_readChannel q h))
            end
        end
  end.

(** The deferred function of [startReadPump]. *)
Definition readPumpCleanup (h : HubConnection) : Result :=
  let h' := set_state "down" h in
  match chan_send (readDone h') true with
  | None =>
      (h',
       [AClose (conn h);
        ALog Warn "Connection to hub %v is dying.";
        ASetState "down"],
       BlockedOn (OnSend ChReadDone))
  | Some rd =>
      (set_readDone rd h',
       [AClose (conn h);
        ALog Warn "Connection to hub %v is dying.";
        ASetState "down";
        ASend ChReadDone true],
       Returned)
  end.

Definition startReadPump (now : Time) (evs : list SocketRead)
  (h : HubConnection) : Result :=
  emit [ASetReadDeadline (conn h) (time_Add now PingWait)] (
  let '(h1, tr, st) := readLoop evs h in
  match st with
  | Returned => emit tr (readPumpCleanup h1)
  | BlockedOn p => (h1, tr, BlockedOn p)
  end).

(** The [for { select { ... } }] of [startWritePump]; [Returned] tells
    that the loop was left, by one of its [return]s. *)
Fixpoint writeLoop (evs : list WriteSelect) (h : HubConnection) : Result :=
  match evs with
  | [] => (h, [], BlockedOn OnSelect)
  | WTakeWrite werr now :: rest =>
      match buf (writeChannel h) with
      | [] =>
          if closed (writeChannel h) then
            (h,
             [AWriteControl (conn h) websocket.CloseMessage
                (websocket.FormatCloseMessage websocket.CloseNormalClosure "")
                (time_Add now WriteWait)],
             Returned)
          else (h, [], BlockedOn OnSelect)
      | message :: q =>
          let h' :=
            set_writeChannel
              (mkChan q (closed (writeChannel h)) (cap (writeChannel h))) h in
          let w :=
            AWriteMessage (conn h') websocket.BinaryMessage
                          (PrepareMessage message) in
          match werr with
          | Some _ =>
              (h', [w; ALog Error "Problem writing message to socket: %v"],
               Returned)
          | None => emit [w] (writeLoop rest h')
          end
      end
  | WTakeReadDone :: _ =>
      match buf (readDone h) with
      | [] => (h, [], BlockedOn OnSelect)
      | _ :: rd =>
          let h' :=
            set_readDone (mkChan rd (closed (readDone h)) (cap (readDone h)))
                         h in
          (* put it back in *)
          match chan_send (readDone h') true with
          | None => (h', [ARecv ChReadDone], BlockedOn (OnSend ChReadDone))
          | Some rd' =>
              (set_readDone rd' h',
               [ARecv ChReadDone; ASend ChReadDone true],
               Returned)
          end
      end
  end.

(** The deferred function of [startWritePump], which ends in the retry
    supervisor. *)
Definition writePumpCleanup (dials : list DialOutcome) (h : HubConnection)
  : Result :=
  let h' := set_state "down" h in
  emit [AClose (conn h);
        ALog Warn "Connection to hub %v is dying. Trying to resurrect.";
        ASetState "down"] (
  match chan_send (writeDone h') true with
  | None => (h', [], BlockedOn (OnSend ChWriteDone))
  | Some wd =>
      emit [ASend ChWriteDone true]
           (* try to reconnect *)
           (retryConnection dials (set_writeDone wd h'))
  end).

Definition startWritePump (evs : list WriteSelect) (dials : list DialOutcome)
  (h : HubConnection) : Result :=
  let '(h1, tr, st) := writeLoop evs h in
  match st with
  | Returned => emit tr (writePumpCleanup dials h1)
  | BlockedOn p => (h1, tr, BlockedOn p)
  end.

End Pumps.

(** The writes to the [state] field recorded in a trace, oldest first. *)
Definition state_writes (tr : list Action) : list string :=
  flat_map (fun a => match a with ASetState s => [s] | _ => [] end) tr.

Definition count_dials (tr : list Action) : nat :=
  List.length (filter (fun a => match a with ADial _ => true | _ => false end) tr).

Definition is_close_frame (a : Action) : bool :=
  match a with
  | AWriteControl _ t _ _ => t =? websocket.CloseMessage
  | _ => false
  end.

Definition is_pong (a : Action) : bool :=
  match a with
  | AWriteControl _ t _ _ => t =? websocket.PongMessage
  | _ => false
  end.

Definition deliveries (tr : list Action) : list EventWrapper :=
  flat_map (fun a => match a with ADeliver m => [m] | _ => [] end) tr.

(** The goroutines a trace starts. *)
Definition spawned (tr : list Action) : list Goroutine :=
  flat_map (fun a => match a with AGo g => [g] | _ => [] end) tr.

(** One more round of the retry loop against the address [url]. *)
Definition retryRound (url : string) : list Action :=
  [logRetryFailed; ASleep (3 * Second); ADial url].

(** What [retryConnection] does before its first dial, when both
    completion indicators are there to be taken. *)
Definition retryPrologue (h : HubConnection) : list Action :=
  [ASetState (state h ++ " retrying")%string;
   ALog Info "[retry] Retrying connection, waiting for read and write pump to close before starting.";
   ARecv ChReadDone; ALog Info "[retry] Read pump closed";
   ARecv ChWriteDone; ALog Info "[retry] Write pump closed";
   ALog Info "[retry] Retrying connection"].

(** What [retryConnection] does after the dial that works. *)
Definition retryEpilogue : list Action :=
  [ALog Info "[Retry] Retry success. Starting pumps";
   ASetState "good"; AGo ReadPump; AGo WritePump].

(** The pings the read loop gets to serve: those that come before the
    first read error. *)
Fixpoint pings_served (evs : list SocketRead) : nat :=
  match evs with
  | [] => 0
  | RPing _ _ _ _ :: rest => S (pings_served rest)
  | RMessage _ _ :: rest => pings_served rest
  | RError _ :: _ => 0
  end.

Definition is_socket_write (a : Action) : bool :=
  match a with
  | AWriteControl _ _ _ _ => true
  | AWriteMessage _ _ _ => true
  | _ => false
  end.

Definition hub_of (res : Result) : HubConnection := fst (fst res).
Definition trace_of (res : Result) : list Action := snd (fst res).
Definition status_of (res : Result) : Status := snd res.

(** *** The state field, read as the enumeration of the specification *)

Inductive ConnState : Type := Connecting | Active | Retrying | Down.

Fixpoint ends_with (suffix s : string) : bool :=
  (s =? suffix)%string
  || match s with
     | EmptyString => false
     | String _ s' => ends_with suffix s'
     end.

(** The values the code stores in [state], and how they read: the zero
    value before the first connection, "good", "down", and whatever
    [retryConnection] makes by appending " retrying". *)
Definition classify (s : string) : option ConnState :=
  if (s =? "")%string then Some Connecting
  else if (s =? "good")%string then Some Active
  else if (s =? "down")%string then Some Down
  else if ends_with " retrying" s then Some Retrying
  else None.

(** The machine of the specification:
    Connecting -> Active -> Retrying -> Active -> ... *)
Definition spec_edge (a b : ConnState) : bool :=
  match a, b with
  | Connecting, Active => true
  | Active, Retrying => true
  | Retrying, Active => true
  | _, _ => false
  end.

Fixpoint follows (edge : ConnState -> ConnState -> bool) (l : list ConnState)
  : bool :=
  match l with
  | a :: (b :: _) as tl => edge a b && follows edge tl
  | _ => true
  end.

(** The values of [state] over a run that starts in [h] and leaves the
    trace [tr]. *)
Definition lifetime_states (h : HubConnection) (tr : list Action)
  : list string :=
  state h :: state_writes tr.

(** The hub moves along the machine of the specification. *)
Definition moves_along_spec_machine (states : list string) : Prop :=
  exists cs, map classify states = map Some cs /\ follows spec_edge cs = true.

(** The values the code stores: "good", "down", or something that ends
    in " retrying". *)
Definition stored_ok (s : string) : Prop :=
  s = "good"%string \/ s = "down"%string
  \/ exists s0, s = (s0 ++ " retrying")%string.

(** *** Sample values *)

(** An open, empty channel with one place. *)
Definition emptyChan {A} : chan A := mkChan [] false 1.

(** A receiver just connected to the hub at [hub:7100], with event
    queues of 16 places and completion channels of one place. *)
Definition sampleHub : HubConnection :=
  mkHub "rcv1" "reciever" (mkChan [] false 16) (mkChan [] false 16)
        (Some 1%nat) "hub:7100" emptyChan emptyChan 0 "good".

(** A stand-in for the framing of package [base], to run the pumps on
    concrete frames: the room up to the first line feed, the event after
    it. *)
Fixpoint sampleParse_aux (room : list byte) (b : list byte)
  : option EventWrapper :=
  match b with
  | [] => None
  | x :: rest =>
      if Byte.eqb x x0a
      then Some (mkEventWrapper (string_of_list_byte (rev room)) rest)
      else sampleParse_aux (x :: room) rest
  end.

Definition sampleParse (b : list byte) : option EventWrapper :=
  sampleParse_aux [] b.

Definition samplePrepare (m : EventWrapper) : list byte :=
  list_byte_of_string (Room m) ++ x0a :: Event m.

(** *** The two calls of the user of a hub connection *)

(** [SendEvent] will queue an event to be sent to the central hub.  A
    send on a closed channel panics; a send on a full channel waits for
    room. *)
Inductive SendOutcome : Type :=
| Sent (h : HubConnection)
| SendWaits
| SendPanics.

Definition SendEvent (b : EventWrapper) (h : HubConnection) : SendOutcome :=
  if closed (writeChannel h) then SendPanics
  else
    match chan_send (writeChannel h) b with
    | Some q => Sent (set_writeChannel q h)
    | None => SendWaits
    end.

(** [ReadEvent] requests the next available event from the queue: the
    oldest event queued; the zero value when the queue is closed and
    drained; [None] when the call has to wait. *)
Definition ReadEvent (h : HubConnection)
  : option (EventWrapper * HubConnection) :=
  match buf (readChannel h) with
  | m :: q =>
      Some (m,
            set_readChannel
              (mkChan q (closed (readChannel h)) (cap (readChannel h))) h)
  | [] =>
      if closed (readChannel h) then Some (mkEventWrapper "" [], h) else None
  end.

(** [SendEvent] called once for each event of [ms], in order. *)
Fixpoint sendAll (ms : list EventWrapper) (h : HubConnection) : SendOutcome :=
  match ms with
  | [] => Sent h
  | m :: rest =>
      match SendEvent m h with
      | Sent h' => sendAll rest h'
      | SendWaits => SendWaits
      | SendPanics => SendPanics
      end
  end.

(** [ReadEvent] called up to [n] times, until a call has to wait. *)
Fixpoint readUpTo (n : nat) (h : HubConnection)
  : list EventWrapper * HubConnection :=
  match n with
  | O => ([], h)
  | S n' =>
      match ReadEvent h with
      | Some (m, h') => let '(l, h'') := readUpTo n' h' in (m :: l, h'')
      | None => ([], h)
      end
  end.

(** No read error among the frames. *)
Definition no_error (evs : list SocketRead) : bool :=
  forallb (fun ev => match ev with RError _ => false | _ => true end) evs.

(** The log lines of the read pump for the error that ends it. *)
Definition readErrorLogs (err : websocket.error) : list Action :=
  (if websocket.IsUnexpectedCloseError err [websocket.CloseGoingAway]
   then [ALog Error "Websocket closing: %v"] else [])
  ++ [ALog Error "Error: %v"].

Definition dial_urls (tr : list Action) : list string :=
  flat_map (fun a => match a with ADial u => [u] | _ => [] end) tr.

Definition closes (tr : list Action) : list (option ConnId) :=
  flat_map (fun a => match a with AClose c => [c] | _ => [] end) tr.

Definition data_writes (tr : list Action) : list (option ConnId * list byte) :=
  flat_map (fun a => match a with
                     | AWriteMessage c _ d => [(c, d)]
                     | _ => []
                     end) tr.

(** The events a frame decodes to: one for a binary message that
    [ParseMessage] accepts, none otherwise. *)
Definition decoded (ParseMessage : list byte -> option EventWrapper)
  (ev : SocketRead) : list EventWrapper :=
  match ev with
  | RMessage t b =>
      if t =? websocket.BinaryMessage then
        match ParseMessage b with Some m => [m] | None => [] end
      else []
  | _ => []
  end.

(** The frames up to the first read error. *)
Fixpoint before_error (evs : list SocketRead) : list SocketRead :=
  match evs with
  | [] => []
  | RError _ :: _ => []
  | ev :: rest => ev :: before_error rest
  end.

(** *** More sample values *)

Definition sampleEvent1 : EventWrapper := mkEventWrapper "r1" [x41].
Definition sampleEvent2 : EventWrapper := mkEventWrapper "r2" [x42].

(** The sample receiver with two events on its outbound queue and the
    read pump's completion indicator posted. *)
Definition sampleHubQueued : HubConnection :=
  set_readDone (mkChan [true] false 1)
    (set_writeChannel (mkChan [sampleEvent1; sampleEvent2] false 2) sampleHub).

End hubconnection.

(** ** Package [repeater] *)

Module repeater.

(** TTL . *)
Definition TTL : Duration := 5 * Second.

Definition readBufferSize : nat := 1024.
Definition writeBufferSize : nat := 1024.

(** port for the translators on the devices *)
Definition translatorport : string := "6998".

Definition ConnId : Type := nat.

(** An event of package [events]; the pumps never look inside it. *)
Definition Event : Type := list byte.

(** A buffered Go channel: the values queued in it, oldest first, and
    the capacity it was made with. *)
Record chan (A : Type) : Type := mkChan {
  buf : list A;
  cap : nat
}.
Arguments mkChan {A} _ _.
Arguments buf {A} _.
Arguments cap {A} _.

(** [make(chan A, n)] *)
Definition make {A} (n : nat) : chan A := mkChan [] n.

(** [ch <- v]: queues [v] when there is room, blocks ([None]) when the
    channel is full. *)
Definition chan_send {A} (ch : chan A) (v : A) : option (chan A) :=
  if Nat.ltb (List.length (buf ch)) (cap ch)
  then Some (mkChan (buf ch ++ [v]) (cap ch))
  else None.

(** [<-ch]: the oldest value and what stays queued; blocks ([None]) on an
    empty channel. *)
Definition chan_recv {A} (ch : chan A) : option (A * chan A) :=
  match buf ch with
  | [] => None
  | v :: q => Some (v, mkChan q (cap ch))
  end.

(** The owning registry, as far as this file uses it. *)
Record Repeater : Type := mkRepeater {
  HubSendBuffer : chan Event
}.

Record PumpingStation : Type := mkStation {
  conn : option ConnId;
  ID : string;
  Room : string;
  remoteaddr : string;
  (* internal channels *)
  readChannel : chan Event;
  writeChannel : chan Event;
  readExit : chan bool;
  writeExit : chan bool;
  errorChan : chan websocket.error;
  writeTimeout : Time;
  readTimeout : Time;
  (* external channels *)
  ReceiveChannel : chan Event;
  SendChannel : chan Event;
  r : Repeater
}.

Definition set_conn (x : option ConnId) (c : PumpingStation) : PumpingStation :=
  mkStation x (ID c) (Room c) (remoteaddr c) (readChannel c) (writeChannel c)
            (readExit c) (writeExit c) (errorChan c) (writeTimeout c)
            (readTimeout c) (ReceiveChannel c) (SendChannel c) (r c).

Definition set_remoteaddr (x : string) (c : PumpingStation) : PumpingStation :=
  mkStation (conn c) (ID c) (Room c) x (readChannel c) (writeChannel c)
            (readExit c) (writeExit c) (errorChan c) (writeTimeout c)
            (readTimeout c) (ReceiveChannel c) (SendChannel c) (r c).

Definition set_readChannel (x : chan Event) (c : PumpingStation)
  : PumpingStation :=
  mkStation (conn c) (ID c) (Room c) (remoteaddr c) x (writeChannel c)
            (readExit c) (writeExit c) (errorChan c) (writeTimeout c)
            (readTimeout c) (ReceiveChannel c) (SendChannel c) (r c).

Definition set_writeChannel (x : chan Event) (c : PumpingStation)
  : PumpingStation :=
  mkStation (conn c) (ID c) (Room c) (remoteaddr c) (readChannel c) x
            (readExit c) (writeExit c) (errorChan c) (writeTimeout c)
            (readTimeout c) (ReceiveChannel c) (SendChannel c) (r c).

Definition set_readExit (x : chan bool) (c : PumpingStation) : PumpingStation :=
  mkStation (conn c) (ID c) (Room c) (remoteaddr c) (readChannel c)
            (writeChannel c) x (writeExit c) (errorChan c) (writeTimeout c)
            (readTimeout c) (ReceiveChannel c) (SendChannel c) (r c).

Definition set_writeExit (x : chan bool) (c : PumpingStation) : PumpingStation :=
  mkStation (conn c) (ID c) (Room c) (remoteaddr c) (readChannel c)
            (writeChannel c) (readExit c) x (errorChan c) (writeTimeout c)
            (readTimeout c) (ReceiveChannel c) (SendChannel c) (r c).

Definition set_errorChan (x : chan websocket.error) (c : PumpingStation)
  : PumpingStation :=
  mkStation (conn c) (ID c) (Room c) (remoteaddr c) (readChannel c)
            (writeChannel c) (readExit c) (writeExit c) x (writeTimeout c)
            (readTimeout c) (ReceiveChannel c) (SendChannel c) (r c).

Definition set_writeTimeout (x : Time) (c : PumpingStation) : PumpingStation :=
  mkStation (conn c) (ID c) (Room c) (remoteaddr c) (readChannel c)
            (writeChannel c) (readExit c) (writeExit c) (errorChan c) x
            (readTimeout c) (ReceiveChannel c) (SendChannel c) (r c).

Definition set_readTimeout (x : Time) (c : PumpingStation) : PumpingStation :=
  mkStation (conn c) (ID c) (Room c) (remoteaddr c) (readChannel c)
            (writeChannel c) (readExit c) (writeExit c) (errorChan c)
            (writeTimeout c) x (ReceiveChannel c) (SendChannel c) (r c).

Definition set_ReceiveChannel (x : chan Event) (c : PumpingStation)
  : PumpingStation :=
  mkStation (conn c) (ID c) (Room c) (remoteaddr c) (readChannel c)
            (writeChannel c) (readExit c) (writeExit c) (errorChan c)
            (writeTimeout c) (readTimeout c) x (SendChannel c) (r c).

Definition set_SendChannel (x : chan Event) (c : PumpingStation)
  : PumpingStation :=
  mkStation (conn c) (ID c) (Room c) (remoteaddr c) (readChannel c)
            (writeChannel c) (readExit c) (writeExit c) (errorChan c)
            (writeTimeout c) (readTimeout c) (ReceiveChannel c) x (r c).

Inductive Goroutine : Type := Start | ReadPump | WritePump.

Inductive ChanName : Type :=
| ChReadChannel | ChWriteChannel | ChReadExit | ChWriteExit | ChErrorChan
| ChReceiveChannel | ChSendChannel.

(** What a goroutine of the pumping station does to its environment. *)
Inductive Action : Type :=
| AGetDevice (id : string)
| ADial (url : string)
| ASleep (d : Duration)
| ANewTicker (d : Duration)
| AGo (g : Goroutine)
| AUnregister (id : string)
| ARecv (ch : ChanName)
| ASendEvent (ch : ChanName) (e : Event)
| ASendExit (ch : ChanName) (v : bool)
| ASendError (err : websocket.error)
| ASetReadDeadline (c : option ConnId) (t : Time)
| ASetWriteDeadline (c : option ConnId) (t : Time)
| AWriteJSON (c : option ConnId) (e : Event)
| AClose (c : option ConnId)
| ALog (l : Level) (format : string).

Inductive BlockPoint : Type :=
| OnReadJSON
| OnSelect
| OnSend (ch : ChanName).

(** How far a goroutine gets: it returns, it waits, or it panics (an
    unrecovered panic takes the whole process down). *)
Inductive Status : Type :=
| Returned
| BlockedOn (p : BlockPoint)
| Panicked (msg : string).

Definition Result : Type := PumpingStation * list Action * Status.

Definition emit (acts : list Action) (res : Result) : Result :=
  let '(c, tr, st) := res in (c, acts ++ tr, st).

Inductive DialOutcome : Type :=
| DialOk (k : ConnId)
| DialErr (msg : string).

(** The answer of the device directory to [GetDevice]. *)
Inductive GetDeviceOutcome : Type :=
| DeviceOk (address : string)
| DeviceErr (msg : string).

(** What the [select] of [startPumper] takes: the ticker (with the two
    readings of the clock of its test), the error channel, the external
    send queue or the internal inbound queue (each with the reading of
    the clock that refreshes the deadline). *)
Inductive SelectCase : Type :=
| TakeTick (now1 now2 : Time)
| TakeError
| TakeSend (now : Time)
| TakeRead (now : Time).

(** What [ReadJSON] hands to the read pump.  A read that works comes
    with the reading of the clock that follows it.  A read that fails
    leaves the connection failed for good: the websocket connection
    keeps the error, and every later read returns that same error at
    once, without looking at the socket.  All the loop still takes from
    its environment after a failure is the clock, so a failure comes
    with the readings of the clock of the passes that follow it,
    [nows 0] being the first. *)
Inductive SocketRead : Type :=
| RJSON (e : Event) (now : Time)
| RFail (err : websocket.error) (nows : nat -> Time).

(** The websocket connection counts the reads made of it once it has
    failed, the failing read included, and panics at the read that
    brings the count to this. *)
Definition readErrLimit : nat := 1000.

Definition repeatedReadPanic : string :=
  "repeated read on failed websocket connection".

(** What the [select] of the write pump takes: the [writeChannel] case
    (with the result of [WriteJSON] and the reading of the clock that
    follows), or the [writeExit] case. *)
Inductive WriteSelect : Type :=
| WTakeWrite (werr : option websocket.error) (now : Time)
| WTakeExit.

(** [StartConnection] takes a proc number, and will build the buffers,
    return it while asyncronously starting the connection. *)
Definition StartConnection (proc room : string) (r0 : Repeater)
  : PumpingStation * option nerr.E * list Action :=
  let toreturn :=
    mkStation None proc room ""
              (make readBufferSize) (make writeBufferSize)
              (make 1) (make 1) (make 2)
              0 0
              (HubSendBuffer r0) (make writeBufferSize) r0 in
  (toreturn, None, [AGo Start]).

Definition buildFromConnection (proc room : string) (r0 : Repeater)
  (k : ConnId) (remote : string)
  : PumpingStation * option nerr.E * list Action :=
  let toreturn :=
    mkStation (Some k) proc room remote
              (make readBufferSize) (make writeBufferSize)
              (make 1) (make 1) (make 2)
              0 0
              (HubSendBuffer r0) (make writeBufferSize) r0 in
  (* we assume that the caller will start the pumper *)
  (toreturn, None, [AGo ReadPump; AGo WritePump]).

Definition dialURL (addr : string) : string :=
  ("ws://" ++ addr ++ ":" ++ translatorport ++ "/repeaterconn")%string.

Definition openConn (addr : string) (d : DialOutcome) (c : PumpingStation)
  : PumpingStation * list Action * option nerr.E :=
  let c := set_remoteaddr addr c in
  match d with
  | DialErr err =>
      (c,
       [ALog Debug "Starting connection with %v"; ADial (dialURL addr)],
       Some (nerr.Create
               ("failed opening websocket with " ++ addr ++ ": " ++ err)%string
               "connection-error"))
  | DialOk k =>
      (set_conn (Some k) c,
       [ALog Debug "Starting connection with %v"; ADial (dialURL addr);
        ALog Debug "Connection started with %v"],
       None)
  end.

(** The deferred function of [startPumper]. *)
Definition pumperCleanup (c : PumpingStation) : Result :=
  emit [AUnregister (ID c)] (
  match chan_send (writeExit c) true with
  | None => (c, [], BlockedOn (OnSend ChWriteExit))
  | Some we =>
      let c := set_writeExit we c in
      emit [ASendExit ChWriteExit true] (
      match chan_send (readExit c) true with
      | None => (c, [], BlockedOn (OnSend ChReadExit))
      | Some re =>
          let c := set_readExit re c in
          (c, [ASendExit ChReadExit true; ASleep TTL; AClose (conn c)],
           Returned)
      end)
  end).

(** [startPumper].  The [select] is not inside a loop: whatever case it
    takes, the function then runs off its end, and the deferred function
    runs.  [sel] lists the cases the environment has to offer, in order;
    only the first is ever looked at. *)
Definition startPumper (t0 t0' : Time) (sel : list SelectCase)
  (c : PumpingStation) : Result :=
  let c := set_readTimeout (time_Add t0 TTL) c in
  let c := set_writeTimeout (time_Add t0' TTL) c in
  (* start our ticker *)
  emit [ANewTicker TTL] (
  match sel with
  | [] => (c, [], BlockedOn OnSelect)
  | TakeTick now1 now2 :: _ =>
      (* check to see if read and write are after now *)
      if time_After now1 (readTimeout c) && time_After now2 (writeTimeout c)
      then (* time to leave *) pumperCleanup c
      else pumperCleanup c
  | TakeError :: _ =>
      match chan_recv (errorChan c) with
      | None => (c, [], BlockedOn OnSelect)
      | Some (_, q) =>
          (* there was an error *)
          emit [ARecv ChErrorChan; ALog Info "[%v] error: %v. Closing.."]
               (pumperCleanup (set_errorChan q c))
      end
  | TakeSend now :: _ =>
      match chan_recv (SendChannel c) with
      | None => (c, [], BlockedOn OnSelect)
      | Some (e, q) =>
          let c := set_SendChannel q c in
          let c := set_writeTimeout (time_Add now TTL) c in
          match chan_send (writeChannel c) e with
          | None => (c, [ARecv ChSendChannel], BlockedOn (OnSend ChWriteChannel))
          | Some wq =>
              emit [ARecv ChSendChannel; ASendEvent ChWriteChannel e]
                   (pumperCleanup (set_writeChannel wq c))
          end
      end
  | TakeRead now :: _ =>
      match chan_recv (readChannel c) with
      | None => (c, [], BlockedOn OnSelect)
      | Some (e, q) =>
          let c := set_readChannel q c in
          let c := set_readTimeout (time_Add now TTL) c in
          match chan_send (ReceiveChannel c) e with
          | None =>
              (c, [ARecv ChReadChannel], BlockedOn (OnSend ChReceiveChannel))
          | Some rq =>
              emit [ARecv ChReadChannel; ASendEvent ChReceiveChannel e]
                   (pumperCleanup (set_ReceiveChannel rq c))
          end
      end
  end).

(** [start], the goroutine [StartConnection] leaves behind. *)
Definition start (dev : GetDeviceOutcome) (d : DialOutcome) (t0 t0' : Time)
  (sel : list SelectCase) (c : PumpingStation) : Result :=
  (* we need to get the address of the processor I want to talk to a *)
  emit [AGetDevice (ID c)] (
  match dev with
  | DeviceErr _ =>
      (c,
       [ALog Error "Couldn't retrieve device %v from database: %v";
        AUnregister (ID c)],
       Returned)
  | DeviceOk address =>
      let '(c', tr, err) := openConn address d c in
      match err with
      | Some _ =>
          (c',
           tr ++ [ALog Error "couldn't initializle for %v: %v";
                  AUnregister (ID c')],
           Returned)
      | None =>
          emit (tr ++ [AGo ReadPump; AGo WritePump])
               (startPumper t0 t0' sel c')
      end
  end).

(** The end of the read pump on a fatal error: report it and return. *)
Definition reportReadError (err : websocket.error) (c : PumpingStation)
  : Result :=
  match chan_send (errorChan c) err with
  | None => (c, [ALog Debug "[%v] Returning"], BlockedOn (OnSend ChErrorChan))
  | Some q =>
      (set_errorChan q c, [ALog Debug "[%v] Returning"; ASendError err],
       Returned)
  end.

(** The body of the [for] loop of [startReadPump] on a read that
    returned [err]; [continue] is the loop from its next pass. *)
Definition onReadError (err : websocket.error) (now : Time)
  (continue : PumpingStation -> Result) (c : PumpingStation) : Result :=
  if websocket.IsUnexpectedCloseError err [websocket.CloseGoingAway] then
    emit [ALog Error "[%v] Websocket closing: %v"] (reportReadError err c)
  else if websocket.isTimeout err then
    match chan_recv (readExit c) with
    | Some (_, q) => (set_readExit q c, [ARecv ChReadExit], Returned)
    | None =>
        emit [ASetReadDeadline (conn c) (time_Add now TTL)] (continue c)
    end
  else reportReadError err c.

(** The [for] loop of [startReadPump] from a read that fails with [err]:
    that read and the [left - 1] reads after it return [err], and the
    read after those brings the count of reads of the failed connection
    to [readErrLimit], and panics. *)
Fixpoint readFailed (left : nat) (err : websocket.error) (nows : nat -> Time)
  (c : PumpingStation) : Result :=
  match left with
  | O => (c, [], Panicked repeatedReadPanic)
  | S left' =>
      onReadError err (nows 0%nat)
                  (readFailed left' err (fun i => nows (S i))) c
  end.

(** The [for] loop of [startReadPump]. *)
Fixpoint readLoop (evs : list SocketRead) (c : PumpingStation) : Result :=
  match evs with
  | [] => (c, [], BlockedOn OnReadJSON)
  | RFail err nows :: _ =>
      (* what the socket holds after a failed read is never read *)
      readFailed (readErrLimit - 1) err nows c
  | RJSON e now :: rest =>
      match chan_send (readChannel c) e with
      | None => (c, [], BlockedOn (OnSend ChReadChannel))
      | Some q =>
          emit [ASendEvent ChReadChannel e;
                ASetReadDeadline (conn c) (time_Add now TTL)]
               (readLoop rest (set_readChannel q c))
      end
  end.

(** We don't try to re-establish this one, nor do we worry about
    ping/pong joy - we're alive until one of us closes it - hopefully 5
    seconds of inactivity *)
Definition startReadPump (now : Time) (evs : list SocketRead)
  (c : PumpingStation) : Result :=
  emit [ASetReadDeadline (conn c) (time_Add now TTL)] (readLoop evs c).

(** The [for { select { ... } }] of [startWritePump]. *)
Fixpoint writeLoop (evs : list WriteSelect) (c : PumpingStation) : Result :=
  match evs with
  | [] => (c, [], BlockedOn OnSelect)
  | WTakeWrite werr now :: rest =>
      match chan_recv (writeChannel c) with
      | None => (c, [], BlockedOn OnSelect)
      | Some (msg, q) =>
          let c := set_writeChannel q c in
          (* in the case of the write channel we just write it down the socket *)
          emit [ARecv ChWriteChannel; AWriteJSON (conn c) msg] (
          match werr with
          | Some err =>
              match chan_send (errorChan c) err with
              | None =>
                  (c, [ALog Warn "[%v} Problem writing message: %v"],
                   BlockedOn (OnSend ChErrorChan))
              | Some eq =>
                  (set_errorChan eq c,
                   [ALog Warn "[%v} Problem writing message: %v";
                    ASendError err],
                   Returned)
              end
          | None =>
              emit [ASetWriteDeadline (conn c) (time_Add now TTL)]
                   (writeLoop rest c)
          end)
      end
  | WTakeExit :: _ =>
      match chan_recv (writeExit c) with
      | None => (c, [], BlockedOn OnSelect)
      | Some (_, q) => (set_writeExit q c, [ARecv ChWriteExit], Returned)
      end
  end.

Definition startWritePump (now : Time) (evs : list WriteSelect)
  (c : PumpingStation) : Result :=
  emit [ASetWriteDeadline (conn c) (time_Add now TTL)] (writeLoop evs c).

(** The goroutines a trace starts. *)
Definition spawned (tr : list Action) : list Goroutine :=
  flat_map (fun a => match a with AGo g => [g] | _ => [] end) tr.

(** What the deferred function of [startPumper] does when nothing holds
    it up. *)
Definition cleanupActions (c : PumpingStation) : list Action :=
  [AUnregister (ID c); ASendExit ChWriteExit true; ASendExit ChReadExit true;
   ASleep TTL; AClose (conn c)].




Definition is_log (a : Action) : bool :=
  match a with ALog _ _ => true | _ => false end.

Definition trace_of (res : Result) : list Action := snd (fst res).
Definition status_of (res : Result) : Status := snd res.

(** The failure of the dial that [start] makes for the station that
    [StartConnection] built reaches the caller of [StartConnection]. *)
Definition reported_to_caller (proc room : string) (r0 : Repeater)
  (address : string) (d : DialOutcome) : Prop :=
  forall e,
    snd (openConn address d (fst (fst (StartConnection proc room r0))))
    = Some e ->
    snd (fst (StartConnection proc room r0)) = Some e.

(** *** Sample values *)

Definition sampleRepeater : Repeater := mkRepeater (make 16).

(** A station as [StartConnection] builds it, connected, with two events
    waiting on its external send queue. *)
Definition sampleStation : PumpingStation :=
  set_SendChannel (mkChan [[x61]; [x62]] writeBufferSize)
    (set_conn (Some 7%nat)
       (fst (fst (StartConnection "proc1" "room1" sampleRepeater)))).

(** *** The call of the user of a pumping station *)

(** [SendEvent]: queue an event on the external send queue; [None] when
    the call has to wait for room. *)
Definition SendEvent (e : Event) (c : PumpingStation) : option PumpingStation :=
  match chan_send (SendChannel c) e with
  | Some q => Some (set_SendChannel q c)
  | None => None
  end.

(** [SendEvent] called once for each event of [es], in order. *)
Fixpoint sendAll (es : list Event) (c : PumpingStation)
  : option PumpingStation :=
  match es with
  | [] => Some c
  | e :: rest =>
      match SendEvent e c with
      | Some c' => sendAll rest c'
      | None => None
      end
  end.

Definition hub_of (res : Result) : PumpingStation := fst (fst res).

(** The errors a trace sends on the error channel. *)
Definition error_reports (tr : list Action) : list websocket.error :=
  flat_map (fun a => match a with ASendError e => [e] | _ => [] end) tr.

(** The connections a trace unregisters. *)
Definition unregisters (tr : list Action) : list string :=
  flat_map (fun a => match a with AUnregister id => [id] | _ => [] end) tr.

(** The dials of a trace. *)
Definition dials_made (tr : list Action) : list string :=
  flat_map (fun a => match a with ADial u => [u] | _ => [] end) tr.

(** The events a trace queues on the inbound queue. *)
Definition deliveries (tr : list Action) : list Event :=
  flat_map (fun a => match a with
                     | ASendEvent ChReadChannel e => [e]
                     | _ => []
                     end) tr.

(** The renewals of the read deadline that follow a read timeout, one
    for each of [n] passes of the loop. *)
Definition renewals (k : option ConnId) (nows : nat -> Time) (n : nat)
  : list Action :=
  map (fun i => ASetReadDeadline k (time_Add (nows i) TTL)) (seq 0 n).

(** What the read pump does for one event read off the socket at time
    [snd it]. *)
Definition readStep (k : option ConnId) (it : Event * Time) : list Action :=
  [ASendEvent ChReadChannel (fst it);
   ASetReadDeadline k (time_Add (snd it) TTL)].

(** What the write pump does for one event taken off its queue, written
    at time [snd it]. *)
Definition writeStep (k : option ConnId) (it : Event * Time) : list Action :=
  [ARecv ChWriteChannel; AWriteJSON k (fst it);
   ASetWriteDeadline k (time_Add (snd it) TTL)].

(** *** More sample values *)

(** The sample station with two events on the queue of its write pump. *)
Definition sampleWriting : PumpingStation :=
  set_writeChannel (mkChan [[x61]; [x62]] writeBufferSize) sampleStation.

End repeater.

(** * Properties of the hub connection *)

Module HubProofs.

Import hubconnection.

Lemma count_dials_app : forall a b,
  count_dials (a ++ b) = (count_dials a + count_dials b)%nat.
Proof.
  intros a b. unfold count_dials. now rewrite filter_app, length_app.
Qed.

Lemma state_writes_app : forall a b,
  state_writes (a ++ b) = state_writes a ++ state_writes b.
Proof. intros. unfold state_writes. now rewrite flat_map_app. Qed.

Lemma spawned_app : forall a b, spawned (a ++ b) = spawned a ++ spawned b.
Proof. intros. unfold spawned. now rewrite flat_map_app. Qed.

(** The retry loop against dials that all fail, then one that works. *)
Lemma retryLoop_fail_then_ok : forall errs k more h,
  retryLoop (map DialErr errs ++ DialOk k :: more) h
  = (set_state "good" (set_conn (Some k) h),
     flat_map (fun _ => retryRound (connectURL h)) errs
     ++ retryRound (connectURL h)
     ++ [ALog Info "[Retry] Retry success. Starting pumps";
         ASetState "good"; AGo ReadPump; AGo WritePump],
     Returned).
Proof.
  induction errs as [|e errs IH]; intros k more h.
  - reflexivity.
  - cbn [map app retryLoop openConnection flat_map].
    rewrite IH. reflexivity.
Qed.

(** The retry loop against dials that all fail. *)
Lemma retryLoop_all_fail : forall errs h,
  retryLoop (map DialErr errs) h
  = (h,
     flat_map (fun _ => retryRound (connectURL h)) errs
     ++ [logRetryFailed; ASleep retryInterval],
     BlockedOn OnDial).
Proof.
  induction errs as [|e errs IH]; intros h.
  - reflexivity.
  - cbn [map retryLoop openConnection flat_map]. rewrite IH. reflexivity.
Qed.

Lemma count_dials_rounds : forall (errs : list string) url,
  count_dials (flat_map (fun _ => retryRound url) errs) = List.length errs.
Proof.
  induction errs as [|e errs IH]; intros url; [reflexivity|].
  cbn [flat_map]. rewrite count_dials_app, IH. reflexivity.
Qed.

Lemma state_writes_rounds : forall (errs : list string) url,
  state_writes (flat_map (fun _ => retryRound url) errs) = [].
Proof.
  induction errs as [|e errs IH]; intros url; [reflexivity|].
  cbn [flat_map]. rewrite state_writes_app, IH. reflexivity.
Qed.

Lemma spawned_rounds : forall (errs : list string) url,
  spawned (flat_map (fun _ => retryRound url) errs) = [].
Proof.
  induction errs as [|e errs IH]; intros url; [reflexivity|].
  cbn [flat_map]. rewrite spawned_app, IH. reflexivity.
Qed.

Lemma rounds_comm : forall (errs : list string) url,
  flat_map (fun _ => retryRound url) errs ++ retryRound url
  = retryRound url ++ flat_map (fun _ => retryRound url) errs.
Proof.
  induction errs as [|e errs IH]; intros url.
  - now rewrite app_nil_r.
  - cbn [flat_map]. rewrite <- app_assoc, IH. reflexivity.
Qed.

(** [retryConnection] with both indicators posted, against [K] dials that
    fail and one that works. *)
Lemma retryConnection_run : forall errs k more h r rd w wd,
  buf (readDone h) = r :: rd ->
  buf (writeDone h) = w :: wd ->
  retryConnection (map DialErr errs ++ DialOk k :: more) h
  = (set_state "good" (set_conn (Some k)
       (set_writeDone (mkChan wd (closed (writeDone h)) (cap (writeDone h)))
          (set_readDone (mkChan rd (closed (readDone h)) (cap (readDone h)))
             (set_state (state h ++ " retrying")%string h)))),
     retryPrologue h
     ++ ADial (connectURL h)
     :: flat_map (fun _ => retryRound (connectURL h)) errs
     ++ retryEpilogue,
     Returned).
Proof.
  intros errs k more h r rd w wd Hr Hw.
  destruct h as [i ct wc rc c a [rdb rdc rdk] [wdb wdc wdk] lp s].
  cbn in Hr, Hw. subst rdb wdb.
  destruct errs as [|e errs].
  - reflexivity.
  - unfold retryConnection.
    cbn [set_state set_readDone set_writeDone readDone writeDone buf closed cap
         state map app openConnection].
    rewrite retryLoop_fail_then_ok.
    cbn [emit]. unfold retryPrologue, retryEpilogue.
    cbn [app flat_map state].
    rewrite (app_assoc (flat_map _ errs)), rounds_comm, <- app_assoc.
    reflexivity.
Qed.

(** [retryConnection] with both indicators posted, against dials that
    all fail. *)
Lemma retryConnection_failing : forall errs h r rd w wd,
  buf (readDone h) = r :: rd ->
  buf (writeDone h) = w :: wd ->
  exists h' tr,
    retryConnection (map DialErr errs) h = (h', tr, BlockedOn OnDial)
    /\ count_dials tr = List.length errs
    /\ state_writes tr = [(state h ++ " retrying")%string]
    /\ spawned tr = []
    /\ state h' = (state h ++ " retrying")%string.
Proof.
  intros errs h r rd w wd Hr Hw.
  destruct h as [i ct wc rc c a [rdb rdc rdk] [wdb wdc wdk] lp s].
  cbn in Hr, Hw. subst rdb wdb.
  set (h := mkHub i ct wc rc c a (mkChan (r :: rd) rdc rdk)
                  (mkChan (w :: wd) wdc wdk) lp s).
  destruct errs as [|e errs].
  - do 2 eexists. split; [reflexivity|]. repeat split.
  - unfold retryConnection.
    cbn [set_state set_readDone set_writeDone readDone writeDone buf closed cap
         state map openConnection h].
    rewrite retryLoop_all_fail.
    do 2 eexists. split; [reflexivity|].
    change (connectURL _) with (connectURL h).
    cbn [app state_writes spawned count_dials flat_map filter List.length].
    fold (state_writes (flat_map (fun _ => retryRound (connectURL h)) errs
                        ++ [logRetryFailed; ASleep retryInterval])).
    fold (spawned (flat_map (fun _ => retryRound (connectURL h)) errs
                        ++ [logRetryFailed; ASleep retryInterval])).
    fold (count_dials (flat_map (fun _ => retryRound (connectURL h)) errs
                        ++ [logRetryFailed; ASleep retryInterval])).
    rewrite state_writes_app, spawned_app, count_dials_app,
      state_writes_rounds, spawned_rounds, count_dials_rounds.
    cbn. repeat split. lia.
Qed.

(** [retryConnection] with an indicator missing. *)
Lemma retryConnection_blocked : forall dials h,
  buf (readDone h) = [] \/ buf (writeDone h) = [] ->
  exists h' tr p,
    retryConnection dials h = (h', tr, BlockedOn p)
    /\ (p = OnReadDone \/ p = OnWriteDone)
    /\ count_dials tr = 0%nat
    /\ spawned tr = []
    /\ state_writes tr = [(state h ++ " retrying")%string].
Proof.
  intros dials h Hb.
  destruct h as [i ct wc rc c a [rdb rdc rdk] [wdb wdc wdk] lp s].
  cbn in Hb. unfold retryConnection.
  cbn [set_state set_readDone set_writeDone readDone writeDone buf closed cap
       state].
  destruct rdb as [|r rd].
  - do 3 eexists. split; [reflexivity|]. repeat split. now left.
  - destruct Hb as [Hb|Hb]; [discriminate|]. subst wdb.
    do 3 eexists. split; [reflexivity|]. repeat split. now right.
Qed.

(** C3.  The retry supervisor of the hub connection first waits for the
    read-completion and the write-completion indicators: with either one
    missing it is blocked, having dialled nothing and started nothing.
    With both observed it dials; against [K] consecutive failed attempts
    followed by one success (for any [K]) it dials exactly [K + 1] times,
    sleeps the fixed 3 seconds before every attempt but the first, and
    only after the dial that works stores "good" in [state] and starts
    the read pump and the write pump; as long as the dials fail it keeps
    waiting, with "good" not stored and no pump started. *)
Theorem retryConnection_exact :
  forall (errs : list string) (k : ConnId) (more : list DialOutcome)
         (h : HubConnection) (r w : bool) (rd wd : list bool),
  buf (readDone h) = r :: rd ->
  buf (writeDone h) = w :: wd ->
  (forall dials h0,
     buf (readDone h0) = [] \/ buf (writeDone h0) = [] ->
     exists h' tr p,
       retryConnection dials h0 = (h', tr, BlockedOn p)
       /\ (p = OnReadDone \/ p = OnWriteDone)
       /\ count_dials tr = 0%nat /\ spawned tr = []
       /\ state_writes tr = [(state h0 ++ " retrying")%string])
  /\ (exists h' tr,
       retryConnection (map DialErr errs ++ DialOk k :: more) h
       = (h', tr, Returned)
       /\ tr = retryPrologue h
               ++ ADial (connectURL h)
               :: flat_map (fun _ => [logRetryFailed; ASleep (3 * Second);
                                      ADial (connectURL h)]) errs
               ++ [ALog Info "[Retry] Retry success. Starting pumps";
                   ASetState "good"; AGo ReadPump; AGo WritePump]
       /\ count_dials tr = S (List.length errs)
       /\ state h' = "good"%string
       /\ conn h' = Some k)
  /\ (exists h' tr,
       retryConnection (map DialErr errs) h = (h', tr, BlockedOn OnDial)
       /\ count_dials tr = List.length errs
       /\ state_writes tr = [(state h ++ " retrying")%string]
       /\ spawned tr = []).
Proof.
  intros errs k more h r w rd wd Hr Hw.
  split; [exact retryConnection_blocked|]. split.
  - rewrite (retryConnection_run errs k more h r rd w wd Hr Hw).
    do 2 eexists. split; [reflexivity|]. split; [reflexivity|].
    split; [|split; reflexivity].
    rewrite count_dials_app. cbn [retryPrologue count_dials filter List.length].
    fold (count_dials (flat_map (fun _ => retryRound (connectURL h)) errs
                       ++ retryEpilogue)).
    rewrite count_dials_app, count_dials_rounds. cbn. lia.
  - destruct (retryConnection_failing errs h r rd w wd Hr Hw)
      as (h' & tr & E & Hc & Hs & Hg & _).
    exists h', tr. repeat split; assumption.
Qed.

Lemma retryConnection_exact_witness :
  exists h' tr,
    retryConnection (map DialErr ["refused"; "refused"]%string
                     ++ DialOk 2%nat :: [])
      (set_writeDone (mkChan [true] false 1)
         (set_readDone (mkChan [true] false 1) (set_state "down" sampleHub)))
    = (h', tr, Returned)
    /\ count_dials tr = 3%nat
    /\ state h' = "good"%string.
Proof.
  destruct (retryConnection_exact ["refused"; "refused"]%string 2%nat []
              (set_writeDone (mkChan [true] false 1)
                 (set_readDone (mkChan [true] false 1)
                    (set_state "down" sampleHub)))
              true true [] [] eq_refl eq_refl)
    as (_ & (h' & tr & E & _ & Hc & Hs & _) & _).
  exists h', tr. repeat split; assumption.
Defined.

(** *** The read pump *)

Lemma hub_chan_send_room : forall A (ch : chan A) (v : A),
  (List.length (buf ch) < cap ch)%nat ->
  chan_send ch v = Some (mkChan (buf ch ++ [v]) (closed ch) (cap ch)).
Proof.
  intros A ch v H. unfold chan_send.
  apply Nat.ltb_lt in H. now rewrite H.
Qed.

Lemma hub_chan_send_full : forall A (ch : chan A) (v : A),
  (cap ch <= List.length (buf ch))%nat ->
  chan_send ch v = None.
Proof.
  intros A ch v H. unfold chan_send.
  apply Nat.ltb_ge in H. now rewrite H.
Qed.

Lemma status_emit : forall a r, status_of (emit a r) = status_of r.
Proof. now intros a [[h tr] st]. Qed.

Lemma trace_emit : forall a r, trace_of (emit a r) = a ++ trace_of r.
Proof. now intros a [[h tr] st]. Qed.

Lemma hub_emit : forall a r, hub_of (emit a r) = hub_of r.
Proof. now intros a [[h tr] st]. Qed.

Section ReadPump.

Variable ParseMessage : list byte -> option base.EventWrapper.
Variables PingWait WriteWait : Duration.

Local Abbreviation readLoop := (readLoop ParseMessage PingWait WriteWait).
Local Abbreviation startReadPump :=
  (startReadPump ParseMessage PingWait WriteWait).

Lemma deliveries_map : forall ms, deliveries (map ADeliver ms) = ms.
Proof.
  induction ms as [|m ms IH]; [reflexivity|]. cbn. now f_equal.
Qed.

(** The read loop over frames that all decode, with room for their
    events on the inbound queue. *)
Lemma readLoop_valid : forall frames ms,
  Forall2 (fun b m => ParseMessage b = Some m) frames ms ->
  forall h,
  (List.length (buf (readChannel h)) + List.length ms
   <= cap (readChannel h))%nat ->
  readLoop (map (RMessage websocket.BinaryMessage) frames) h
  = (set_readChannel
       (mkChan (buf (readChannel h) ++ ms) (closed (readChannel h))
               (cap (readChannel h))) h,
     map ADeliver ms,
     BlockedOn OnReadMessage).
Proof.
  induction 1 as [|b m frames ms Hb _ IH]; intros h Hroom.
  - cbn. rewrite app_nil_r. now destruct h as [? ? ? [? ? ?] ? ? ? ? ? ?].
  - cbn [map hubconnection.readLoop]. cbn [Z.eqb websocket.BinaryMessage
      Pos.eqb negb]. rewrite Hb.
    rewrite hub_chan_send_room by (cbn [List.length] in Hroom; lia).
    rewrite IH.
    + cbn [emit app map]. destruct h as [? ? ? [rb rc rk] ? ? ? ? ? ?].
      cbn. now rewrite <- app_assoc.
    + destruct h as [? ? ? [rb rc rk] ? ? ? ? ? ?].
      cbn in Hroom |- *. rewrite length_app. cbn. lia.
Qed.

Lemma readLoop_wrong_kind : forall t b rest h,
  t <> websocket.BinaryMessage ->
  readLoop (RMessage t b :: rest) h
  = emit [ALog Warn "Unknown message type %v"] (readLoop rest h).
Proof.
  intros t b rest h Ht. cbn [hubconnection.readLoop].
  destruct (Z.eqb_spec t websocket.BinaryMessage) as [E|_]; [contradiction|].
  reflexivity.
Qed.

Lemma readLoop_undecodable : forall b rest h,
  ParseMessage b = None ->
  readLoop (RMessage websocket.BinaryMessage b :: rest) h
  = emit [ALog Warn "Poorly formed message %s: %v"] (readLoop rest h).
Proof.
  intros b rest h Hb. cbn [hubconnection.readLoop].
  cbn [Z.eqb websocket.BinaryMessage Pos.eqb negb]. now rewrite Hb.
Qed.

Lemma readLoop_full : forall b m rest h,
  ParseMessage b = Some m ->
  (cap (readChannel h) <= List.length (buf (readChannel h)))%nat ->
  readLoop (RMessage websocket.BinaryMessage b :: rest) h
  = (h, [], BlockedOn (OnSend ChReadChannel)).
Proof.
  intros b m rest h Hb Hf. cbn [hubconnection.readLoop].
  cbn [Z.eqb websocket.BinaryMessage Pos.eqb negb]. rewrite Hb.
  now rewrite hub_chan_send_full.
Qed.

(** C7.  The read loop of the hub connection does not end on malformed
    or wrong-kind input.  A message that is not binary is dropped with a
    warning and the loop goes on with the next frame; a binary message
    that does not decode is dropped with a warning and the loop goes on.
    One corrupt frame followed by [N] frames that decode delivers exactly
    the [N] decoded events, in order, to the inbound queue, as long as
    the queue has room for them, and leaves the pump reading: nothing of
    its cleanup has run.  With the queue full the loop waits at the send
    of the next decoded event; it neither drops the event nor ends. *)
Theorem readPump_skips_malformed :
  forall (now : Time) (t : Z) (b : list byte) (frames : list (list byte))
         (ms : list base.EventWrapper) (h : HubConnection),
  t <> websocket.BinaryMessage \/ ParseMessage b = None ->
  Forall2 (fun f m => ParseMessage f = Some m) frames ms ->
  (List.length (buf (readChannel h)) + List.length ms
   <= cap (readChannel h))%nat ->
  (forall t0 b0 rest h0,
     t0 <> websocket.BinaryMessage ->
     readLoop (RMessage t0 b0 :: rest) h0
     = emit [ALog Warn "Unknown message type %v"] (readLoop rest h0))
  /\ (forall b0 rest h0,
     ParseMessage b0 = None ->
     readLoop (RMessage websocket.BinaryMessage b0 :: rest) h0
     = emit [ALog Warn "Poorly formed message %s: %v"] (readLoop rest h0))
  /\ (exists warning,
       startReadPump now
         (RMessage t b :: map (RMessage websocket.BinaryMessage) frames) h
       = (set_readChannel
            (mkChan (buf (readChannel h) ++ ms) (closed (readChannel h))
                    (cap (readChannel h))) h,
          ASetReadDeadline (conn h) (time_Add now PingWait)
          :: ALog Warn warning :: map ADeliver ms,
          BlockedOn OnReadMessage)
       /\ deliveries
            (ASetReadDeadline (conn h) (time_Add now PingWait)
             :: ALog Warn warning :: map ADeliver ms) = ms)
  /\ (forall b0 m rest h0,
        ParseMessage b0 = Some m ->
        (cap (readChannel h0) <= List.length (buf (readChannel h0)))%nat ->
        readLoop (RMessage websocket.BinaryMessage b0 :: rest) h0
        = (h0, [], BlockedOn (OnSend ChReadChannel))).
Proof.
  intros now t b frames ms h Hbad Hok Hroom.
  split; [exact readLoop_wrong_kind|].
  split; [exact readLoop_undecodable|].
  split; [|exact readLoop_full].
  assert (Hloop : exists warning,
    readLoop (RMessage t b :: map (RMessage websocket.BinaryMessage) frames) h
    = emit [ALog Warn warning]
           (readLoop (map (RMessage websocket.BinaryMessage) frames) h)).
  { destruct (Z.eq_dec t websocket.BinaryMessage) as [E|N].
    - destruct Hbad as [Hbad|Hbad]; [contradiction|]. subst t.
      eexists. now apply readLoop_undecodable.
    - eexists. now apply readLoop_wrong_kind. }
  destruct Hloop as [warning Hloop]. exists warning.
  unfold hubconnection.startReadPump. rewrite Hloop.
  rewrite (readLoop_valid frames ms Hok h Hroom). cbn [emit app].
  split; [reflexivity|].
  cbn [deliveries flat_map app]. apply deliveries_map.
Qed.

Lemma readLoop_pongs : forall evs h,
  status_of (readLoop evs h) <> BlockedOn (OnSend ChReadChannel) ->
  List.length (filter is_pong (snd (fst (readLoop evs h)))) = pings_served evs.
Proof.
  induction evs as [|ev evs IH]; intros h Hs; [reflexivity|].
  destruct ev as [d t1 t2 t3|t b|err].
  - cbn [hubconnection.readLoop pingHandler pings_served] in Hs |- *.
    rewrite status_emit in Hs.
    specialize (IH (set_lastPingTime t3 h) Hs).
    destruct (readLoop evs (set_lastPingTime t3 h)) as [[h' tr] st].
    cbn in IH |- *. now rewrite IH.
  - cbn [hubconnection.readLoop pings_served] in Hs |- *.
    destruct (negb (t =? websocket.BinaryMessage)).
    + rewrite status_emit in Hs. specialize (IH h Hs).
      destruct (readLoop evs h) as [[h' tr] st]. exact IH.
    + destruct (ParseMessage b) as [m|].
      * destruct (chan_send (readChannel h) m) as [q|];
          [|now contradiction Hs].
        rewrite status_emit in Hs.
        specialize (IH (set_readChannel q h) Hs).
        destruct (readLoop evs _) as [[h' tr] st]. exact IH.
      * rewrite status_emit in Hs. specialize (IH h Hs).
        destruct (readLoop evs h) as [[h' tr] st]. exact IH.
  - cbn [hubconnection.readLoop pings_served fst snd].
    destruct (websocket.IsUnexpectedCloseError _ _); reflexivity.
Qed.

Lemma readLoop_pongs_le : forall evs h,
  (List.length (filter is_pong (snd (fst (readLoop evs h))))
   <= pings_served evs)%nat.
Proof.
  induction evs as [|ev evs IH]; intros h; [apply Nat.le_refl|].
  destruct ev as [d t1 t2 t3|t b|err].
  - cbn [hubconnection.readLoop pingHandler pings_served].
    specialize (IH (set_lastPingTime t3 h)).
    destruct (readLoop evs (set_lastPingTime t3 h)) as [[h' tr] st].
    cbn in IH |- *. lia.
  - cbn [hubconnection.readLoop pings_served].
    destruct (negb (t =? websocket.BinaryMessage)).
    + specialize (IH h). destruct (readLoop evs h) as [[h' tr] st]. exact IH.
    + destruct (ParseMessage b) as [m|].
      * destruct (chan_send (readChannel h) m) as [q|]; [|cbn; lia].
        specialize (IH (set_readChannel q h)).
        destruct (readLoop evs _) as [[h' tr] st]. exact IH.
      * specialize (IH h). destruct (readLoop evs h) as [[h' tr] st].
        exact IH.
  - cbn [hubconnection.readLoop pings_served fst snd].
    destruct (websocket.IsUnexpectedCloseError _ _); apply Nat.le_refl.
Qed.

(** C8.  A ping handed to the read loop is served on the spot: the read
    deadline is set to the clock plus the keepalive window, one pong
    control frame with an empty payload is written, the time of the ping
    is recorded, and the loop goes on reading.  Over any run of the loop
    that is not held up at the inbound queue, the pongs written are as
    many as the pings served; over any run at all they are never more. *)
Theorem ping_acknowledged :
  forall (appData : string) (t1 t2 t3 : Time) (rest : list SocketRead)
         (h : HubConnection),
  readLoop (RPing appData t1 t2 t3 :: rest) h
  = emit [ALog Info "[%v] Ping!";
          ASetReadDeadline (conn h) (t1 + PingWait);
          AWriteControl (conn h) websocket.PongMessage [] (t2 + WriteWait)]
         (readLoop rest (set_lastPingTime t3 h))
  /\ filter is_pong
       [ALog Info "[%v] Ping!";
        ASetReadDeadline (conn h) (t1 + PingWait);
        AWriteControl (conn h) websocket.PongMessage [] (t2 + WriteWait)]
     = [AWriteControl (conn h) websocket.PongMessage [] (t2 + WriteWait)]
  /\ lastPingTime (set_lastPingTime t3 h) = t3
  /\ (forall evs h0,
        status_of (readLoop evs h0) <> BlockedOn (OnSend ChReadChannel) ->
        List.length (filter is_pong (snd (fst (readLoop evs h0))))
        = pings_served evs)
  /\ (forall evs h0,
        (List.length (filter is_pong (snd (fst (readLoop evs h0))))
         <= pings_served evs)%nat).
Proof.
  intros appData t1 t2 t3 rest h.
  split; [reflexivity|]. split; [reflexivity|]. split; [reflexivity|].
  split; [exact readLoop_pongs|exact readLoop_pongs_le].
Qed.

End ReadPump.

Lemma ping_acknowledged_witness :
  status_of (readLoop sampleParse (90 * Second) (10 * Second)
               [RPing "" 1 2 3;
                RMessage websocket.BinaryMessage [x72; x31; x0a; x41];
                RPing "" 4 5 6]
               sampleHub)
  <> BlockedOn (OnSend ChReadChannel)
  /\ List.length
       (filter is_pong
          (snd (fst (readLoop sampleParse (90 * Second) (10 * Second)
                       [RPing "" 1 2 3;
                        RMessage websocket.BinaryMessage [x72; x31; x0a; x41];
                        RPing "" 4 5 6]
                       sampleHub))))
     = 2%nat.
Proof.
  assert (Hs : status_of (readLoop sampleParse (90 * Second) (10 * Second)
                            [RPing "" 1 2 3;
                             RMessage websocket.BinaryMessage
                                      [x72; x31; x0a; x41];
                             RPing "" 4 5 6]
                            sampleHub)
               <> BlockedOn (OnSend ChReadChannel)) by (vm_compute; discriminate).
  split; [exact Hs|].
  destruct (ping_acknowledged sampleParse (90 * Second) (10 * Second)
              "" 1 2 3 [] sampleHub) as (_ & _ & _ & P & _).
  exact (P _ _ Hs).
Defined.

Lemma readPump_skips_malformed_witness :
  exists tr,
    snd (fst (startReadPump sampleParse (90 * Second) (10 * Second) 0
                [RMessage websocket.TextMessage [x68; x69];
                 RMessage websocket.BinaryMessage [x72; x31; x0a; x41];
                 RMessage websocket.BinaryMessage [x72; x32; x0a; x42]]
                sampleHub)) = tr
    /\ deliveries tr
       = [base.mkEventWrapper "r1" [x41]; base.mkEventWrapper "r2" [x42]].
Proof.
  assert (Hbad : websocket.TextMessage <> websocket.BinaryMessage
                 \/ sampleParse [x68; x69] = None) by (left; discriminate).
  assert (Hok : Forall2 (fun f m => sampleParse f = Some m)
                  [[x72; x31; x0a; x41]; [x72; x32; x0a; x42]]
                  [base.mkEventWrapper "r1" [x41];
                   base.mkEventWrapper "r2" [x42]])
    by (repeat constructor).
  destruct (readPump_skips_malformed sampleParse (90 * Second) (10 * Second)
              0 websocket.TextMessage [x68; x69]
              [[x72; x31; x0a; x41]; [x72; x32; x0a; x42]]
              [base.mkEventWrapper "r1" [x41]; base.mkEventWrapper "r2" [x42]]
              sampleHub Hbad Hok ltac:(apply Nat.leb_le; reflexivity))
    as (_ & _ & (warning & E & D) & _).
  eexists. split; [reflexivity|]. cbn [map] in E.
  rewrite E. exact D.
Defined.

(** *** The write pump *)

Lemma retryLoop_no_socket_write : forall dials h,
  filter is_socket_write (trace_of (retryLoop dials h)) = [].
Proof.
  induction dials as [|d dials IH]; intros h; [reflexivity|].
  cbn [retryLoop]. destruct d as [k|msg]; cbn [openConnection].
  - reflexivity.
  - specialize (IH h). destruct (retryLoop dials h) as [[h' tr] st].
    exact IH.
Qed.

Lemma retryConnection_no_socket_write : forall dials h,
  filter is_socket_write (trace_of (retryConnection dials h)) = [].
Proof.
  intros dials h.
  destruct h as [i ct wc rc c a [rdb rdc rdk] [wdb wdc wdk] lp s].
  unfold retryConnection.
  cbn [set_state set_readDone set_writeDone readDone writeDone buf closed cap
       state].
  destruct rdb as [|r rd]; [reflexivity|].
  destruct wdb as [|w wd]; [reflexivity|].
  destruct dials as [|d dials]; [reflexivity|].
  destruct d as [k|msg]; cbn [openConnection]; [reflexivity|].
  match goal with |- context [retryLoop dials ?h0] =>
    pose proof (retryLoop_no_socket_write dials h0) as IH;
    destruct (retryLoop dials h0) as [[h' tr] st] end.
  exact IH.
Qed.

Section WritePump.

Variable PrepareMessage : base.EventWrapper -> list byte.
Variable WriteWait : Duration.

Local Abbreviation writeLoop := (writeLoop PrepareMessage WriteWait).
Local Abbreviation startWritePump :=
  (startWritePump PrepareMessage WriteWait).

(** A close frame is the last thing the write loop does. *)
Lemma writeLoop_close_last : forall evs h h' tr ex pre a post,
  writeLoop evs h = (h', tr, ex) ->
  tr = pre ++ a :: post ->
  is_close_frame a = true ->
  post = [] /\ ex = Returned.
Proof.
  induction evs as [|ev evs IH]; intros h h' tr ex pre a post E T C;
    subst tr.
  - cbn in E. injection E as _ Htr _. now destruct pre.
  - destruct ev as [werr now|]; cbn [hubconnection.writeLoop] in E.
    + destruct (buf (writeChannel h)) as [|m q].
      * destruct (closed (writeChannel h)); injection E as _ Htr Hex.
        -- destruct pre as [|x [|y pre]]; [|discriminate..].
           injection Htr as _ Hp. now subst.
        -- now destruct pre.
      * destruct werr as [err|].
        -- injection E as _ Htr _.
           destruct pre as [|x [|y [|z pre]]]; try discriminate;
             injection Htr; intros; subst; discriminate.
        -- destruct (writeLoop evs _) as [[h1 tr1] ex1] eqn:E1.
           cbn [emit app] in E.
           injection E as _ Htr Hex. subst ex1.
           destruct pre as [|x pre];
             injection Htr as Hx Ht; [subst; discriminate|].
           eapply IH; eauto.
    + destruct (buf (readDone h)) as [|v rd];
        [injection E as _ Htr _; now destruct pre|].
      destruct (chan_send _ true) as [rd'|]; injection E as _ Htr _.
      * destruct pre as [|x [|y [|z pre]]]; try discriminate;
          injection Htr; intros; subst; discriminate.
      * destruct pre as [|x [|y pre]]; try discriminate;
          injection Htr; intros; subst; discriminate.
Qed.

(** C9.  When the write loop finds its queue closed and drained, it
    writes one close control frame that carries the normal-closure code
    (1000, big endian) and no reason text, and leaves the loop: what
    follows is the cleanup of the pump (which posts the write pump's
    completion indicator as soon as its channel has room) and the retry
    supervisor, neither of which writes to the socket.  In any run of
    the loop a close frame is the last thing the loop does, so no data
    write comes after it. *)
Theorem writePump_close_on_closed_queue :
  forall (werr : option websocket.error) (now : Time)
         (rest : list WriteSelect) (dials : list DialOutcome)
         (h : HubConnection),
  buf (writeChannel h) = [] ->
  closed (writeChannel h) = true ->
  websocket.FormatCloseMessage websocket.CloseNormalClosure "" = [x03; xe8]
  /\ writeLoop (WTakeWrite werr now :: rest) h
     = (h,
        [AWriteControl (conn h) websocket.CloseMessage [x03; xe8]
                       (now + WriteWait)],
        Returned)
  /\ (exists h' post st,
        startWritePump (WTakeWrite werr now :: rest) dials h
        = (h',
           AWriteControl (conn h) websocket.CloseMessage [x03; xe8]
                         (now + WriteWait)
           :: AClose (conn h)
           :: ALog Warn "Connection to hub %v is dying. Trying to resurrect."
           :: ASetState "down"
           :: post,
           st)
        /\ filter is_socket_write post = []
        /\ ((List.length (buf (writeDone h)) < cap (writeDone h))%nat ->
            exists post', post = ASend ChWriteDone true :: post'))
  /\ (forall evs h0 h' tr ex pre a post,
        writeLoop evs h0 = (h', tr, ex) ->
        tr = pre ++ a :: post ->
        is_close_frame a = true ->
        post = [] /\ ex = Returned).
Proof.
  intros werr now rest dials h Hb Hc.
  split; [reflexivity|].
  assert (Hloop : writeLoop (WTakeWrite werr now :: rest) h
     = (h, [AWriteControl (conn h) websocket.CloseMessage [x03; xe8]
                          (now + WriteWait)], Returned)).
  { cbn [hubconnection.writeLoop]. now rewrite Hb, Hc. }
  split; [exact Hloop|]. split; [|exact writeLoop_close_last].
  unfold hubconnection.startWritePump. rewrite Hloop.
  unfold writePumpCleanup, chan_send.
  replace (writeDone (set_state "down" h)) with (writeDone h)
    by (now destruct h).
  destruct (Nat.ltb_spec (List.length (buf (writeDone h)))
                         (cap (writeDone h))) as [Hroom|Hfull].
  - match goal with |- context [retryConnection dials ?h0] =>
      pose proof (retryConnection_no_socket_write dials h0) as Hn;
      destruct (retryConnection dials h0) as [[h' tr] st] end.
    exists h', (ASend ChWriteDone true :: tr), st.
    split; [reflexivity|]. split; [exact Hn|].
    intros _. now exists tr.
  - eexists _, [], _. split; [reflexivity|]. split; [reflexivity|].
    intros Hroom. lia.
Qed.

End WritePump.

Lemma writePump_close_on_closed_queue_witness :
  exists h' post st,
    startWritePump samplePrepare (10 * Second) [WTakeWrite None 5]
      [DialOk 2%nat]
      (set_writeChannel (mkChan [] true 1) sampleHub)
    = (h',
       AWriteControl (Some 1%nat) websocket.CloseMessage [x03; xe8]
                     (5 + 10 * Second)
       :: AClose (Some 1%nat)
       :: ALog Warn "Connection to hub %v is dying. Trying to resurrect."
       :: ASetState "down"
       :: ASend ChWriteDone true
       :: post,
       st)
    /\ filter is_socket_write (ASend ChWriteDone true :: post) = [].
Proof.
  destruct (writePump_close_on_closed_queue samplePrepare (10 * Second)
              None 5 [] [DialOk 2%nat]
              (set_writeChannel (mkChan [] true 1) sampleHub)
              eq_refl eq_refl)
    as (_ & _ & (h' & post & st & E & N & R) & _).
  destruct (R ltac:(apply Nat.ltb_lt; reflexivity)) as (post' & P).
  subst post. exists h', post', st. split; [exact E|exact N].
Defined.

(** *** The state field *)

Lemma ends_with_app : forall s suffix, ends_with suffix (s ++ suffix) = true.
Proof.
  induction s as [|ch s IH]; intros suffix.
  - cbn [String.append]. destruct suffix; cbn [ends_with];
      now rewrite String.eqb_refl.
  - cbn [String.append ends_with]. rewrite IH. apply orb_true_r.
Qed.

Lemma length_append : forall s t,
  String.length (s ++ t) = (String.length s + String.length t)%nat.
Proof.
  induction s as [|ch s IH]; intros t; [reflexivity|].
  cbn [String.append String.length]. now rewrite IH.
Qed.

Lemma classify_retrying : forall s,
  classify (s ++ " retrying") = Some Retrying.
Proof.
  intros s. unfold classify.
  assert (L : (9 <= String.length (s ++ " retrying"))%nat)
    by (rewrite length_append; cbn; lia).
  destruct (String.eqb_spec (s ++ " retrying") "") as [E|_];
    [rewrite E in L; cbn in L; lia|].
  destruct (String.eqb_spec (s ++ " retrying") "good") as [E|_];
    [rewrite E in L; cbn in L; lia|].
  destruct (String.eqb_spec (s ++ " retrying") "down") as [E|_];
    [rewrite E in L; cbn in L; lia|].
  now rewrite ends_with_app.
Qed.

Lemma stored_ok_classified : forall s, stored_ok s -> classify s <> None.
Proof.
  intros s [E|[E|[s0 E]]]; subst; try discriminate.
  now rewrite classify_retrying.
Qed.

Lemma retryLoop_states : forall dials h,
  (state_writes (trace_of (retryLoop dials h)) = []
   /\ status_of (retryLoop dials h) = BlockedOn OnDial
   /\ state (hub_of (retryLoop dials h)) = state h)
  \/ (state_writes (trace_of (retryLoop dials h)) = ["good"%string]
      /\ status_of (retryLoop dials h) = Returned
      /\ state (hub_of (retryLoop dials h)) = "good"%string).
Proof.
  induction dials as [|d dials IH]; intros h; [now left|].
  cbn [retryLoop]. destruct d as [k|msg]; cbn [openConnection].
  - now right.
  - specialize (IH h). destruct (retryLoop dials h) as [[h' tr] st].
    exact IH.
Qed.

(** [retryConnection] is its first assignment followed by [retryAwait]. *)
Lemma retryConnection_unfold : forall dials h,
  retryConnection dials h
  = emit [ASetState (state h ++ " retrying")%string;
          ALog Info "[retry] Retrying connection, waiting for read and write pump to close before starting."]
         (retryAwait dials (set_state (state h ++ " retrying")%string h)).
Proof. reflexivity. Qed.

(** What [retryAwait] stores: "good" if and only if it returns. *)
Lemma retryAwait_states : forall dials h,
  (state_writes (trace_of (retryAwait dials h)) = []
   /\ (status_of (retryAwait dials h) = BlockedOn OnReadDone
       \/ status_of (retryAwait dials h) = BlockedOn OnWriteDone
       \/ status_of (retryAwait dials h) = BlockedOn OnDial)
   /\ state (hub_of (retryAwait dials h)) = state h)
  \/ (state_writes (trace_of (retryAwait dials h)) = ["good"%string]
      /\ status_of (retryAwait dials h) = Returned
      /\ state (hub_of (retryAwait dials h)) = "good"%string).
Proof.
  intros dials h.
  destruct h as [i ct wc rc c a [rdb rdc rdk] [wdb wdc wdk] lp s].
  unfold retryAwait.
  cbn [set_state set_readDone set_writeDone readDone writeDone buf closed cap
       state].
  destruct rdb as [|r rd]; [left; split; [|split]; auto|].
  destruct wdb as [|w wd]; [left; split; [|split]; auto|].
  destruct dials as [|d dials]; [left; split; [|split]; auto|].
  destruct d as [k|msg]; cbn [openConnection]; [now right|].
  match goal with |- context [retryLoop dials ?h0] =>
    pose proof (retryLoop_states dials h0) as IH;
    destruct (retryLoop dials h0) as [[h' tr] st] end.
  unfold trace_of, status_of, hub_of in *. cbn [fst snd emit app] in *.
  cbn [state_writes flat_map app] in *.
  fold (state_writes tr).
  destruct IH as [(W & S1 & F)|(W & S1 & F)]; rewrite W, S1, F.
  - left. split; [|split]; auto.
  - right. repeat split.
Qed.

(** What [retryConnection] stores: the old value with " retrying"
    appended, then "good" if and only if it returns. *)
Lemma retryConnection_states : forall dials h,
  (state_writes (trace_of (retryConnection dials h))
   = [(state h ++ " retrying")%string]
   /\ status_of (retryConnection dials h) <> Returned
   /\ state (hub_of (retryConnection dials h))
      = (state h ++ " retrying")%string)
  \/ (state_writes (trace_of (retryConnection dials h))
      = [(state h ++ " retrying")%string; "good"%string]
      /\ status_of (retryConnection dials h) = Returned
      /\ state (hub_of (retryConnection dials h)) = "good"%string).
Proof.
  intros dials h. rewrite retryConnection_unfold.
  rewrite trace_emit, status_emit, hub_emit.
  cbn [app state_writes flat_map].
  fold (state_writes (trace_of (retryAwait dials
          (set_state (state h ++ " retrying")%string h)))).
  destruct (retryAwait_states dials
              (set_state (state h ++ " retrying")%string h))
    as [(W & S1 & F)|(W & S1 & F)]; rewrite W, F.
  - left. repeat split.
    destruct S1 as [S1|[S1|S1]]; rewrite S1; discriminate.
  - right. repeat split. exact S1.
Qed.

Section StateField.

Variable ParseMessage : list byte -> option base.EventWrapper.
Variable PrepareMessage : base.EventWrapper -> list byte.
Variables PingWait WriteWait : Duration.

Local Abbreviation readLoop := (readLoop ParseMessage PingWait WriteWait).
Local Abbreviation startReadPump :=
  (startReadPump ParseMessage PingWait WriteWait).
Local Abbreviation writeLoop := (writeLoop PrepareMessage WriteWait).
Local Abbreviation startWritePump :=
  (startWritePump PrepareMessage WriteWait).

Lemma readLoop_states : forall evs h,
  state_writes (trace_of (readLoop evs h)) = []
  /\ state (hub_of (readLoop evs h)) = state h.
Proof.
  induction evs as [|ev evs IH]; intros h; [now split|].
  destruct ev as [d t1 t2 t3|t b|err]; cbn [hubconnection.readLoop].
  - cbn [pingHandler]. specialize (IH (set_lastPingTime t3 h)).
    destruct (readLoop evs _) as [[h' tr] st]. exact IH.
  - destruct (negb (t =? websocket.BinaryMessage)).
    + specialize (IH h). destruct (readLoop evs h) as [[h' tr] st].
      exact IH.
    + destruct (ParseMessage b) as [m|].
      * destruct (chan_send (readChannel h) m) as [q|]; [|now split].
        specialize (IH (set_readChannel q h)).
        destruct (readLoop evs _) as [[h' tr] st]. exact IH.
      * specialize (IH h). destruct (readLoop evs h) as [[h' tr] st].
        exact IH.
  - destruct (websocket.IsUnexpectedCloseError _ _); now split.
Qed.

(** What [startReadPump] stores: nothing while it is in its loop, "down"
    once it has left it. *)
Lemma startReadPump_states : forall now evs h,
  (state_writes (trace_of (startReadPump now evs h)) = []
   /\ status_of (startReadPump now evs h) <> Returned
   /\ state (hub_of (startReadPump now evs h)) = state h)
  \/ (state_writes (trace_of (startReadPump now evs h)) = ["down"%string]
      /\ (status_of (startReadPump now evs h) = Returned
          \/ status_of (startReadPump now evs h)
             = BlockedOn (OnSend ChReadDone))
      /\ state (hub_of (startReadPump now evs h)) = "down"%string).
Proof.
  intros now evs h. unfold hubconnection.startReadPump.
  pose proof (readLoop_states evs h) as [W F].
  destruct (readLoop evs h) as [[h1 tr] st].
  unfold trace_of, status_of, hub_of in *. cbn [fst snd] in *.
  destruct st as [|p].
  - right. unfold readPumpCleanup.
    destruct (chan_send _ true) as [rd|]; cbn [emit fst snd app];
      cbn [state_writes flat_map app];
      match goal with |- context [flat_map ?f (tr ++ ?l)] =>
        change (flat_map f (tr ++ l)) with (state_writes (tr ++ l)) end;
      rewrite state_writes_app, W; repeat split; auto.
  - left. cbn [emit fst snd app state_writes flat_map].
    fold (state_writes tr).
    rewrite W. repeat split; [discriminate|exact F].
Qed.

Lemma writeLoop_states : forall evs h,
  state_writes (trace_of (writeLoop evs h)) = []
  /\ state (hub_of (writeLoop evs h)) = state h
  /\ (status_of (writeLoop evs h) = Returned
      \/ status_of (writeLoop evs h) = BlockedOn OnSelect
      \/ status_of (writeLoop evs h) = BlockedOn (OnSend ChReadDone)).
Proof.
  induction evs as [|ev evs IH]; intros h; [split; [|split]; auto|].
  destruct ev as [werr now|]; cbn [hubconnection.writeLoop].
  - destruct (buf (writeChannel h)) as [|m q].
    + destruct (closed (writeChannel h)); split; [|split|split|split]; auto.
    + destruct werr as [err|]; [split; [|split]; auto|].
      match goal with |- context [writeLoop evs ?h0] =>
        specialize (IH h0); destruct (writeLoop evs h0) as [[h' tr] ex] end.
      exact IH.
  - destruct (buf (readDone h)); [split; [|split]; auto|].
    destruct (chan_send _ true); split; [|split|split|split]; auto.
Qed.

(** What [startWritePump] stores: nothing while it is in its loop; "down"
    once it has left the loop; "down retrying" once its cleanup has
    posted the write pump's indicator and entered the retry supervisor;
    and then "good" if and only if that supervisor returns. *)
Lemma startWritePump_states : forall evs dials h,
  (state_writes (trace_of (startWritePump evs dials h)) = []
   /\ (status_of (startWritePump evs dials h) = BlockedOn OnSelect
       \/ status_of (startWritePump evs dials h)
          = BlockedOn (OnSend ChReadDone))
   /\ state (hub_of (startWritePump evs dials h)) = state h)
  \/ (state_writes (trace_of (startWritePump evs dials h)) = ["down"%string]
      /\ status_of (startWritePump evs dials h)
         = BlockedOn (OnSend ChWriteDone)
      /\ state (hub_of (startWritePump evs dials h)) = "down"%string)
  \/ (state_writes (trace_of (startWritePump evs dials h))
      = ["down"%string; "down retrying"%string]
      /\ (status_of (startWritePump evs dials h) = BlockedOn OnReadDone
          \/ status_of (startWritePump evs dials h) = BlockedOn OnWriteDone
          \/ status_of (startWritePump evs dials h) = BlockedOn OnDial)
      /\ state (hub_of (startWritePump evs dials h))
         = "down retrying"%string)
  \/ (state_writes (trace_of (startWritePump evs dials h))
      = ["down"%string; "down retrying"%string; "good"%string]
      /\ status_of (startWritePump evs dials h) = Returned
      /\ state (hub_of (startWritePump evs dials h)) = "good"%string).
Proof.
  intros evs dials h. unfold hubconnection.startWritePump.
  pose proof (writeLoop_states evs h) as (W & F & S).
  destruct (writeLoop evs h) as [[h1 tr] ex].
  unfold trace_of, status_of, hub_of in *. cbn [fst snd] in W, F, S.
  destruct ex as [|p].
  - right. unfold writePumpCleanup.
    destruct (chan_send _ true) as [wd|].
    + right.
      match goal with |- context [retryConnection dials ?h0] =>
        rewrite (retryConnection_unfold dials h0);
        pose proof (retryAwait_states dials
                      (set_state (state h0 ++ " retrying")%string h0)) as A;
        destruct (retryAwait dials _) as [[h' tr'] st] end.
      unfold trace_of, status_of, hub_of in *.
      cbn [fst snd emit set_state set_writeDone state app] in *.
      rewrite state_writes_app, W. cbn [app state_writes flat_map] in *.
      fold (state_writes tr') in *.
      destruct A as [(W' & S' & F')|(W' & S' & F')]; rewrite W', F'.
      * left. repeat split. exact S'.
      * right. repeat split. exact S'.
    + left. cbn [emit fst snd app]. rewrite state_writes_app, W.
      repeat split.
  - left. cbn [fst snd].
    destruct S as [S|[S|S]]; [discriminate| |]; rewrite S;
      split; [|split| |split]; auto.
Qed.

(** C4, as the code has it.  The [state] field is a free-form string.
    Connect, retry and both pump-termination paths store in it only
    "good" (a connect or a retry that worked), "down" (the cleanup of
    either pump) or the current value with " retrying" appended (the
    entry of the retry supervisor); these read as Active, Down and
    Retrying, and the empty string the field starts with reads as
    Connecting.  The hub does not move along Connecting, Active,
    Retrying, Active: every pump termination stores Down first.  When
    the read pump ends first, the field goes Active, Down, Down,
    Retrying, Active.  When the write pump ends first and its retry
    supervisor is waiting for the read pump, the cleanup of the read
    pump stores Down over Retrying, and the field goes Active, Down,
    Retrying, Down, Active once the supervisor is taken up again and a
    dial works.  When the cleanup of the write pump finds no room to post
    its indicator, the field stays at Down and the retry supervisor is
    not entered.  From Connecting a connect that works moves to Active;
    a retry moves to Retrying and, once a dial works, to Active. *)
Theorem state_field_values_and_moves :
  (* the values stored *)
  (forall addr d h s,
     In s (state_writes (snd (fst (ConnectToHub addr d h)))) ->
     classify s <> None)
  /\ (forall dials h s,
     In s (state_writes (trace_of (retryConnection dials h))) ->
     classify s <> None)
  /\ (forall now evs h s,
     In s (state_writes (trace_of (startReadPump now evs h))) ->
     classify s <> None)
  /\ (forall evs dials h s,
     In s (state_writes (trace_of (startWritePump evs dials h))) ->
     classify s <> None)
  (* from Connecting *)
  /\ (forall addr k h,
     state h = ""%string ->
     map classify
       (lifetime_states h (snd (fst (ConnectToHub addr (DialOk k) h))))
     = [Some Connecting; Some Active])
  /\ (forall dials h,
     state h = ""%string ->
     status_of (retryConnection dials h) = Returned ->
     map classify
       (lifetime_states h (trace_of (retryConnection dials h)))
     = [Some Connecting; Some Retrying; Some Active])
  (* the read pump ends first *)
  /\ (forall now revs wevs dials h,
     state h = "good"%string ->
     status_of (startReadPump now revs h) = Returned ->
     status_of (startWritePump wevs dials
                  (hub_of (startReadPump now revs h))) = Returned ->
     map classify
       (lifetime_states h
          (trace_of (startReadPump now revs h)
           ++ trace_of (startWritePump wevs dials
                          (hub_of (startReadPump now revs h)))))
     = [Some Active; Some Down; Some Down; Some Retrying; Some Active])
  (* the write pump ends first *)
  /\ (forall wevs dials now revs h,
     state h = "good"%string ->
     status_of (startWritePump wevs dials h) = BlockedOn OnReadDone ->
     status_of (startReadPump now revs
                  (hub_of (startWritePump wevs dials h))) = Returned ->
     status_of (retryAwait dials
                  (hub_of (startReadPump now revs
                             (hub_of (startWritePump wevs dials h)))))
     = Returned ->
     map classify
       (lifetime_states h
          (trace_of (startWritePump wevs dials h)
           ++ trace_of (startReadPump now revs
                          (hub_of (startWritePump wevs dials h)))
           ++ trace_of (retryAwait dials
                          (hub_of (startReadPump now revs
                                     (hub_of (startWritePump wevs dials h)))))))
     = [Some Active; Some Down; Some Retrying; Some Down; Some Active])
  (* the cleanup of the write pump is held up *)
  /\ (forall wevs dials h,
     state h = "good"%string ->
     status_of (startWritePump wevs dials h)
     = BlockedOn (OnSend ChWriteDone) ->
     map classify
       (lifetime_states h (trace_of (startWritePump wevs dials h)))
     = [Some Active; Some Down])
  (* [retryAwait] is [retryConnection] after its first assignment *)
  /\ (forall dials h,
     retryConnection dials h
     = emit [ASetState (state h ++ " retrying")%string;
             ALog Info "[retry] Retrying connection, waiting for read and write pump to close before starting."]
            (retryAwait dials (set_state (state h ++ " retrying")%string h))).
Proof.
  repeat apply conj.
  - intros addr d h s. unfold ConnectToHub.
    destruct d as [k|msg]; cbn [openConnection].
    + cbn. intros [E|[]]. subst; discriminate.
    + destruct (chan_send _ true) as [rd|]; [|cbn; intros []].
      cbn [set_readDone writeDone].
      destruct (chan_send _ true) as [wd|]; cbn; intros [].
  - intros dials h s Hin. apply stored_ok_classified.
    destruct (retryConnection_states dials h) as [(W & _)|(W & _)];
      rewrite W in Hin; cbn in Hin;
      repeat (destruct Hin as [E|Hin]; [subst s|]); try contradiction;
      unfold stored_ok; eauto.
  - intros now evs h s Hin. apply stored_ok_classified.
    destruct (startReadPump_states now evs h) as [(W & _)|(W & _)];
      rewrite W in Hin; cbn in Hin;
      repeat (destruct Hin as [E|Hin]; [subst s|]); try contradiction;
      unfold stored_ok; eauto.
  - intros evs dials h s Hin. apply stored_ok_classified.
    destruct (startWritePump_states evs dials h)
      as [(W & _)|[(W & _)|[(W & _)|(W & _)]]];
      rewrite W in Hin; cbn in Hin;
      repeat (destruct Hin as [E|Hin]; [subst s|]); try contradiction;
      unfold stored_ok; eauto;
      right; right; exists "down"%string; reflexivity.
  - intros addr k h Hs. unfold lifetime_states, ConnectToHub.
    cbn. now rewrite Hs.
  - intros dials h Hs Hret. unfold lifetime_states.
    destruct (retryConnection_states dials h) as [(_ & N & _)|(W & _)];
      [contradiction|].
    rewrite W, Hs. reflexivity.
  - intros now revs wevs dials h Hs R1 R2. unfold lifetime_states.
    rewrite state_writes_app.
    destruct (startReadPump_states now revs h) as [(_ & N & _)|(W1 & _)];
      [contradiction|].
    destruct (startWritePump_states wevs dials
                (hub_of (startReadPump now revs h)))
      as [(_ & [N|N] & _)|[(_ & N & _)|[(_ & [N|[N|N]] & _)|(W2 & _)]]];
      try (rewrite N in R2; discriminate).
    rewrite W1, W2, Hs. reflexivity.
  - intros wevs dials now revs h Hs B1 R2 R3. unfold lifetime_states.
    rewrite !state_writes_app.
    destruct (startWritePump_states wevs dials h)
      as [(_ & [N|N] & _)|[(_ & N & _)|[(W1 & _)|(_ & N & _)]]];
      try (rewrite N in B1; discriminate).
    destruct (startReadPump_states now revs
                (hub_of (startWritePump wevs dials h)))
      as [(_ & N & _)|(W2 & _)]; [contradiction|].
    destruct (retryAwait_states dials
                (hub_of (startReadPump now revs
                           (hub_of (startWritePump wevs dials h)))))
      as [(_ & [N|[N|N]] & _)|(W3 & _)];
      try (rewrite N in R3; discriminate).
    rewrite W1, W2, W3, Hs. reflexivity.
  - intros wevs dials h Hs B. unfold lifetime_states.
    destruct (startWritePump_states wevs dials h)
      as [(_ & [N|N] & _)|[(W & _)|[(_ & [N|[N|N]] & _)|(_ & N & _)]]];
      try (rewrite N in B; discriminate).
    rewrite W, Hs. reflexivity.
  - exact retryConnection_unfold.
Qed.

End StateField.

Lemma state_field_values_and_moves_witness :
  map classify
    (lifetime_states (set_writeChannel (mkChan [] true 1) sampleHub)
       (trace_of (startWritePump samplePrepare (10 * Second)
                    [WTakeWrite None 5] [DialOk 2%nat]
                    (set_writeChannel (mkChan [] true 1) sampleHub))
        ++ trace_of (startReadPump sampleParse (90 * Second) (10 * Second) 6
                       [RError (websocket.CloseError 1006 "unexpected EOF")]
                       (hub_of (startWritePump samplePrepare (10 * Second)
                                  [WTakeWrite None 5] [DialOk 2%nat]
                                  (set_writeChannel (mkChan [] true 1)
                                     sampleHub))))
        ++ trace_of (retryAwait [DialOk 2%nat]
                       (hub_of (startReadPump sampleParse (90 * Second)
                                  (10 * Second) 6
                                  [RError (websocket.CloseError 1006
                                             "unexpected EOF")]
                                  (hub_of (startWritePump samplePrepare
                                             (10 * Second)
                                             [WTakeWrite None 5]
                                             [DialOk 2%nat]
                                             (set_writeChannel
                                                (mkChan [] true 1)
                                                sampleHub))))))))
  = [Some Active; Some Down; Some Retrying; Some Down; Some Active].
Proof.
  destruct (state_field_values_and_moves sampleParse samplePrepare
              (90 * Second) (10 * Second))
    as (_ & _ & _ & _ & _ & _ & _ & M & _).
  exact (M [WTakeWrite None 5] [DialOk 2%nat] 6
           [RError (websocket.CloseError 1006 "unexpected EOF")]
           (set_writeChannel (mkChan [] true 1) sampleHub)
           eq_refl eq_refl eq_refl eq_refl).
Defined.

(** C4, as stated, fails.  The run that the machine of the specification
    does not allow: the receiver is connected ("good"), its outbound
    queue is closed, and the write pump goes through its cleanup into the
    retry supervisor, which waits for the read pump.  The field goes
    "good", "down", "down retrying". *)
Lemma hub_passes_through_down :
  lifetime_states (set_writeChannel (mkChan [] true 1) sampleHub)
    (trace_of (startWritePump samplePrepare (10 * Second)
                 [WTakeWrite None 5] [DialOk 2%nat]
                 (set_writeChannel (mkChan [] true 1) sampleHub)))
  = ["good"; "down"; "down retrying"]%string
  /\ ~ moves_along_spec_machine
         (lifetime_states (set_writeChannel (mkChan [] true 1) sampleHub)
            (trace_of (startWritePump samplePrepare (10 * Second)
                         [WTakeWrite None 5] [DialOk 2%nat]
                         (set_writeChannel (mkChan [] true 1) sampleHub)))).
Proof.
  split; [reflexivity|].
  intros (cs & E & F).
  change (lifetime_states _ _)
    with ["good"; "down"; "down retrying"]%string in E.
  cbn in E.
  destruct cs as [|c1 [|c2 [|c3 [|c4 cs]]]]; try discriminate.
  injection E as E1 E2 E3. subst. discriminate.
Qed.

End HubProofs.

(** * Properties of the pumping station *)

Module PeerProofs.

Import repeater.

(** ** The liveness supervisor *)





(** C1, on the code.  The [select] of the liveness supervisor is not
    inside a loop, so the supervisor never looks past the first case its
    [select] takes.  With two events waiting on the external send queue
    it forwards the first, refreshes the write deadline, and then goes
    through its teardown and returns: the second event is never
    forwarded, and the connection is closed although neither a tick nor
    an error occurred.  A tick at which the deadlines have not passed
    ends the supervisor just the same. *)
Theorem pumper_stops_after_first_case :
  (forall t0 t0' s rest rest' c,
     startPumper t0 t0' (s :: rest) c = startPumper t0 t0' (s :: rest') c)
  /\ (exists c',
        startPumper 0 0 [TakeSend Second; TakeSend (2 * Second)] sampleStation
        = (c',
           [ANewTicker TTL;
            ARecv ChSendChannel; ASendEvent ChWriteChannel [x61];
            AUnregister "proc1";
            ASendExit ChWriteExit true; ASendExit ChReadExit true;
            ASleep TTL; AClose (Some 7%nat)],
           Returned)
        /\ writeTimeout c' = Second + TTL
        /\ buf (writeChannel c') = [[x61]]
        /\ buf (SendChannel c') = [[x62]])
  /\ (time_After Second (readTimeout (set_readTimeout (0 + TTL) sampleStation))
      = false
      /\ status_of (startPumper 0 0 [TakeTick Second Second] sampleStation)
         = Returned
      /\ trace_of (startPumper 0 0 [TakeTick Second Second] sampleStation)
         = ANewTicker TTL :: cleanupActions sampleStation).
Proof.
  split; [|split].
  - intros t0 t0' s rest rest' c. unfold startPumper.
    destruct s; reflexivity.
  - eexists. split; [reflexivity|]. repeat split.
  - repeat split.
Qed.

(** ** The constructor *)

(** C2, as stated, fails: the dial fails with a connection error, and
    the caller of [StartConnection] has long been handed a nil error. *)
Lemma dial_failure_not_reported :
  snd (openConn "10.0.0.9" (DialErr "connection refused")
         (fst (fst (StartConnection "proc1" "room1" sampleRepeater))))
  = Some (nerr.Create
            "failed opening websocket with 10.0.0.9: connection refused"
            "connection-error")
  /\ snd (fst (StartConnection "proc1" "room1" sampleRepeater)) = None
  /\ ~ reported_to_caller "proc1" "room1" sampleRepeater "10.0.0.9"
         (DialErr "connection refused").
Proof.
  split; [reflexivity|]. split; [reflexivity|].
  intros H. specialize (H _ eq_refl). discriminate.
Qed.

(** C2, as the code has it.  [StartConnection] hands its caller the
    station and a nil error, whatever happens later: the dial is made by
    the goroutine [start] that it leaves behind.  When that dial fails,
    [start] logs the connection error, unregisters the connection, and
    returns: the socket is never set, and neither pump nor the
    supervisor is ever started. *)
Theorem StartConnection_dial_failure :
  forall (proc room : string) (r0 : Repeater) (address msg : string)
         (t0 t0' : Time) (sel : list SelectCase),
  exists c,
    StartConnection proc room r0 = (c, None, [AGo Start])
    /\ snd (openConn address (DialErr msg) c)
       = Some (nerr.Create
                 ("failed opening websocket with " ++ address ++ ": " ++ msg)
                 "connection-error")
    /\ start (DeviceOk address) (DialErr msg) t0 t0' sel c
       = (set_remoteaddr address c,
          [AGetDevice proc;
           ALog Debug "Starting connection with %v";
           ADial (dialURL address);
           ALog Error "couldn't initializle for %v: %v";
           AUnregister proc],
          Returned)
    /\ conn (set_remoteaddr address c) = None
    /\ spawned (snd (fst (start (DeviceOk address) (DialErr msg) t0 t0' sel c)))
       = [].
Proof.
  intros. eexists. split; [reflexivity|]. repeat split.
Qed.

(** ** The read pump *)

Lemma timeout_not_close : forall err codes,
  websocket.isTimeout err = true ->
  websocket.IsUnexpectedCloseError err codes = false.
Proof. intros [code text|t msg|msg] codes H; [discriminate|reflexivity..]. Qed.

Lemma readFailed_S : forall left err nows c,
  readFailed (S left) err nows c
  = onReadError err (nows 0%nat) (readFailed left err (fun i => nows (S i))) c.
Proof. reflexivity. Qed.

Lemma renewals_S : forall k nows n,
  renewals k nows (S n)
  = ASetReadDeadline k (time_Add (nows 0%nat) TTL)
    :: renewals k (fun i => nows (S i)) n.
Proof.
  intros k nows n. unfold renewals. cbn [seq map].
  now rewrite <- seq_shift, map_map.
Qed.

(** A timeout with no exit signal posted: every pass renews the deadline
    and reads again, up to the read that panics. *)
Lemma readFailed_spins : forall left err nows c,
  websocket.isTimeout err = true ->
  buf (readExit c) = [] ->
  readFailed left err nows c
  = (c, renewals (conn c) nows left, Panicked repeatedReadPanic).
Proof.
  induction left as [|left IH]; intros err nows c Ht Hb; [reflexivity|].
  rewrite readFailed_S, renewals_S. unfold onReadError.
  rewrite (timeout_not_close _ _ Ht), Ht.
  unfold chan_recv. rewrite Hb.
  now rewrite (IH err _ c Ht Hb).
Qed.

Lemma readFailed_exit : forall left err nows c v q,
  websocket.isTimeout err = true ->
  buf (readExit c) = v :: q ->
  readFailed (S left) err nows c
  = (set_readExit (mkChan q (cap (readExit c))) c, [ARecv ChReadExit],
     Returned).
Proof.
  intros left err nows c v q Ht Hb.
  rewrite readFailed_S. unfold onReadError.
  rewrite (timeout_not_close _ _ Ht), Ht.
  unfold chan_recv. now rewrite Hb.
Qed.

Lemma readFailed_fatal : forall left err nows c,
  websocket.isTimeout err = false ->
  readFailed (S left) err nows c
  = if websocket.IsUnexpectedCloseError err [websocket.CloseGoingAway]
    then emit [ALog Error "[%v] Websocket closing: %v"]
              (reportReadError err c)
    else reportReadError err c.
Proof.
  intros left err nows c Ht. rewrite readFailed_S. unfold onReadError.
  now rewrite Ht.
Qed.

Lemma readLoop_fail : forall err nows rest c,
  readLoop (RFail err nows :: rest) c
  = readFailed (S (readErrLimit - 2)) err nows c.
Proof. reflexivity. Qed.

Lemma renewals_quiet : forall k nows n,
  deliveries (renewals k nows n) = []
  /\ error_reports (renewals k nows n) = []
  /\ List.length (renewals k nows n) = n.
Proof.
  intros k nows n. unfold renewals. split; [|split].
  - induction (seq 0 n) as [|i l IH]; [reflexivity|exact IH].
  - induction (seq 0 n) as [|i l IH]; [reflexivity|exact IH].
  - now rewrite length_map, length_seq.
Qed.

(** C10.  In the read loop of the pumping station a read that ends in a
    network timeout, with no exit signal posted, makes the loop set the
    read deadline to the clock plus TTL and read again.  But the
    connection has failed for good: whatever the socket would have
    delivered next, the next read returns the same timeout, and so does
    every read after it; the loop renews the deadline 999 times, queues
    nothing on the inbound queue and sends nothing on the error channel,
    and the 1000th read of the failed connection panics.  With the exit
    signal posted the loop takes it and returns, and nothing is sent on
    the error channel.  Every read error that is not a timeout is sent
    on the error channel (which holds two errors, one for each pump) and
    ends the loop. *)
Theorem read_timeout_never_recovers :
  forall (err : websocket.error) (nows : nat -> Time)
         (rest : list SocketRead) (c : PumpingStation),
  (websocket.isTimeout err = true ->
   buf (readExit c) = [] ->
   readLoop (RFail err nows :: rest) c
   = (c, renewals (conn c) nows 999, Panicked repeatedReadPanic)
   /\ renewals (conn c) nows 999
      = ASetReadDeadline (conn c) (nows 0%nat + TTL)
        :: renewals (conn c) (fun i => nows (S i)) 998
   /\ List.length (renewals (conn c) nows 999) = 999%nat
   /\ deliveries (renewals (conn c) nows 999) = []
   /\ error_reports (renewals (conn c) nows 999) = [])
  /\ (websocket.isTimeout err = true ->
      forall v q,
      buf (readExit c) = v :: q ->
      readLoop (RFail err nows :: rest) c
      = (set_readExit (mkChan q (cap (readExit c))) c,
         [ARecv ChReadExit], Returned)
      /\ errorChan (set_readExit (mkChan q (cap (readExit c))) c)
         = errorChan c)
  /\ (websocket.isTimeout err = false ->
      (List.length (buf (errorChan c)) < cap (errorChan c))%nat ->
      exists logs,
        readLoop (RFail err nows :: rest) c
        = (set_errorChan
             (mkChan (buf (errorChan c) ++ [err]) (cap (errorChan c))) c,
           logs ++ [ASendError err],
           Returned)
        /\ filter is_log logs = logs).
Proof.
  intros err nows rest c. repeat apply conj.
  - intros Ht Hb. rewrite readLoop_fail.
    change (S (readErrLimit - 2)) with 999%nat.
    rewrite (readFailed_spins 999 err nows c Ht Hb).
    destruct (renewals_quiet (conn c) nows 999) as (D & E & L).
    split; [reflexivity|]. split; [apply renewals_S|].
    split; [exact L|]. split; [exact D|exact E].
  - intros Ht v q Hb. rewrite readLoop_fail.
    rewrite (readFailed_exit _ err nows c v q Ht Hb). split; reflexivity.
  - intros Ht Hroom. rewrite readLoop_fail.
    rewrite (readFailed_fatal _ err nows c Ht).
    apply Nat.ltb_lt in Hroom.
    unfold reportReadError, chan_send. rewrite Hroom.
    destruct (websocket.IsUnexpectedCloseError err
                [websocket.CloseGoingAway]).
    + exists [ALog Error "[%v] Websocket closing: %v";
              ALog Debug "[%v] Returning"].
      split; reflexivity.
    + exists [ALog Debug "[%v] Returning"]. split; reflexivity.
Qed.

Lemma read_timeout_never_recovers_witness :
  (status_of
     (readLoop [RFail (websocket.NetError true "i/o timeout")
                      (fun i => 7 * Second + Z.of_nat i);
                RJSON [x61] (8 * Second)]
               sampleStation)
   = Panicked repeatedReadPanic
   /\ hub_of
        (readLoop [RFail (websocket.NetError true "i/o timeout")
                         (fun i => 7 * Second + Z.of_nat i);
                   RJSON [x61] (8 * Second)]
                  sampleStation)
      = sampleStation
   /\ deliveries
        (trace_of
           (readLoop [RFail (websocket.NetError true "i/o timeout")
                            (fun i => 7 * Second + Z.of_nat i);
                      RJSON [x61] (8 * Second)]
                     sampleStation))
      = [])
  /\ readLoop [RFail (websocket.NetError true "i/o timeout")
                     (fun i => 7 * Second + Z.of_nat i)]
       (set_readExit (mkChan [true] 1) sampleStation)
     = (sampleStation, [ARecv ChReadExit], Returned)
  /\ exists logs,
       readLoop [RFail (websocket.CloseError 1006 "unexpected EOF")
                       (fun _ => 0)]
                sampleStation
       = (set_errorChan
            (mkChan [websocket.CloseError 1006 "unexpected EOF"] 2)
            sampleStation,
          logs ++ [ASendError (websocket.CloseError 1006 "unexpected EOF")],
          Returned).
Proof.
  split; [|split].
  - destruct (read_timeout_never_recovers
                (websocket.NetError true "i/o timeout")
                (fun i => 7 * Second + Z.of_nat i)
                [RJSON [x61] (8 * Second)] sampleStation) as (A & _ & _).
    destruct (A eq_refl eq_refl) as (E & _ & _ & D & _).
    rewrite E. split; [reflexivity|]. split; [reflexivity|exact D].
  - destruct (read_timeout_never_recovers
                (websocket.NetError true "i/o timeout")
                (fun i => 7 * Second + Z.of_nat i)
                [] (set_readExit (mkChan [true] 1) sampleStation))
      as (_ & B & _).
    destruct (B eq_refl true [] eq_refl) as [E _]. rewrite E. reflexivity.
  - destruct (read_timeout_never_recovers
                (websocket.CloseError 1006 "unexpected EOF") (fun _ => 0)
                [] sampleStation) as (_ & _ & C).
    destruct (C eq_refl ltac:(apply Nat.ltb_lt; reflexivity))
      as (logs & E & _).
    exists logs. exact E.
Defined.

End PeerProofs.

(** * Further properties of the hub connection *)

Module HubExtra.

Import hubconnection.

Lemma set_writeChannel_same : forall h,
  set_writeChannel
    (mkChan (buf (writeChannel h)) (closed (writeChannel h))
            (cap (writeChannel h))) h
  = h.
Proof. now intros [i ct [wb wc wk] rc c a rd wd lp s]. Qed.

Lemma hub_sendAll_room : forall ms h,
  closed (writeChannel h) = false ->
  (List.length (buf (writeChannel h)) + List.length ms
   <= cap (writeChannel h))%nat ->
  sendAll ms h
  = Sent (set_writeChannel
            (mkChan (buf (writeChannel h) ++ ms) false
                    (cap (writeChannel h))) h).
Proof.
  induction ms as [|m ms IH]; intros h Hc Hroom.
  - cbn [sendAll]. rewrite app_nil_r, <- Hc. now rewrite set_writeChannel_same.
  - cbn [sendAll]. unfold SendEvent. rewrite Hc.
    rewrite HubProofs.hub_chan_send_room by (cbn [List.length] in Hroom; lia).
    rewrite IH.
    + f_equal. destruct h as [i ct [wb wc wk] rc c a rd wd lp s]. cbn.
      cbn in Hc. subst wc. now rewrite <- app_assoc.
    + destruct h as [i ct [wb wc wk] rc c a rd wd lp s]. exact Hc.
    + destruct h as [i ct [wb wc wk] rc c a rd wd lp s].
      cbn in Hroom |- *. rewrite length_app. cbn. lia.
Qed.

Lemma closes_app : forall a b, closes (a ++ b) = closes a ++ closes b.
Proof. intros. unfold closes. now rewrite flat_map_app. Qed.

Lemma data_writes_app : forall a b,
  data_writes (a ++ b) = data_writes a ++ data_writes b.
Proof. intros. unfold data_writes. now rewrite flat_map_app. Qed.

Lemma flat_map_rounds_nil :
  forall (B : Type) (f : Action -> list B) (errs : list string) url,
  f logRetryFailed = [] -> f (ASleep (3 * Second)) = [] ->
  f (ADial url) = [] ->
  flat_map f (flat_map (fun _ => retryRound url) errs) = [].
Proof.
  intros B f errs url H1 H2 H3.
  induction errs as [|e errs IH]; [reflexivity|].
  cbn [flat_map retryRound app]. rewrite H1, H2, H3. exact IH.
Qed.

Lemma dial_urls_rounds : forall (errs : list string) url,
  dial_urls (flat_map (fun _ => retryRound url) errs)
  = repeat url (List.length errs).
Proof.
  induction errs as [|e errs IH]; intros url; [reflexivity|].
  cbn [flat_map retryRound app dial_urls List.length repeat].
  fold (dial_urls (flat_map (fun _ => retryRound url) errs)).
  now rewrite IH.
Qed.

(** The retry supervisor with both indicators posted, against dials that
    fail and then one that works: where it leaves the connection. *)
Lemma retry_returns : forall errs k more h r rd w wd,
  buf (readDone h) = r :: rd ->
  buf (writeDone h) = w :: wd ->
  exists hf trR,
    retryConnection (map DialErr errs ++ DialOk k :: more) h
    = (hf, trR, Returned)
    /\ state hf = "good"%string
    /\ conn hf = Some k
    /\ writeChannel hf = writeChannel h
    /\ readChannel hf = readChannel h
    /\ buf (readDone hf) = rd
    /\ buf (writeDone hf) = wd
    /\ count_dials trR = S (List.length errs)
    /\ spawned trR = [ReadPump; WritePump]
    /\ data_writes trR = []
    /\ closes trR = []
    /\ dial_urls trR = repeat (connectURL h) (S (List.length errs))
    /\ filter is_socket_write trR = [].
Proof.
  intros errs k more h r rd w wd Hr Hw.
  pose proof (HubProofs.retryConnection_no_socket_write
                (map DialErr errs ++ DialOk k :: more) h) as Hsw.
  rewrite (HubProofs.retryConnection_run errs k more h r rd w wd Hr Hw)
    in Hsw |- *.
  do 2 eexists. split; [reflexivity|].
  repeat (split; [reflexivity|]).
  split.
  { rewrite HubProofs.count_dials_app.
    cbn [retryPrologue count_dials filter List.length].
    fold (count_dials (flat_map (fun _ => retryRound (connectURL h)) errs
                       ++ retryEpilogue)).
    rewrite HubProofs.count_dials_app, HubProofs.count_dials_rounds.
    cbn. lia. }
  split.
  { rewrite HubProofs.spawned_app. cbn [retryPrologue spawned flat_map app].
    fold (spawned (flat_map (fun _ => retryRound (connectURL h)) errs
                   ++ retryEpilogue)).
    now rewrite HubProofs.spawned_app, HubProofs.spawned_rounds. }
  split.
  { unfold data_writes. rewrite flat_map_app.
    cbn [retryPrologue flat_map app]. rewrite flat_map_app.
    now rewrite flat_map_rounds_nil. }
  split.
  { unfold closes. rewrite flat_map_app.
    cbn [retryPrologue flat_map app]. rewrite flat_map_app.
    now rewrite flat_map_rounds_nil. }
  split; [|exact Hsw].
  unfold dial_urls. rewrite flat_map_app.
  cbn [retryPrologue flat_map app]. rewrite flat_map_app.
  fold (dial_urls (flat_map (fun _ => retryRound (connectURL h)) errs)).
  rewrite dial_urls_rounds. cbn [retryEpilogue flat_map app].
  now rewrite app_nil_r.
Qed.

(** The cleanup of the write pump when there is room for its indicator. *)
Lemma writePumpCleanup_room : forall dials h,
  (List.length (buf (writeDone h)) < cap (writeDone h))%nat ->
  writePumpCleanup dials h
  = emit [AClose (conn h);
          ALog Warn "Connection to hub %v is dying. Trying to resurrect.";
          ASetState "down";
          ASend ChWriteDone true]
         (retryConnection dials
            (set_writeDone
               (mkChan (buf (writeDone h) ++ [true]) (closed (writeDone h))
                       (cap (writeDone h)))
               (set_state "down" h))).
Proof.
  intros dials h Hroom. unfold writePumpCleanup.
  replace (writeDone (set_state "down" h)) with (writeDone h)
    by (now destruct h).
  rewrite HubProofs.hub_chan_send_room by exact Hroom.
  now destruct (retryConnection dials _) as [[h' tr] st].
Qed.

(** The cleanup of the read pump when there is room for its indicator. *)
Lemma readPumpCleanup_room : forall h,
  (List.length (buf (readDone h)) < cap (readDone h))%nat ->
  readPumpCleanup h
  = (set_readDone
       (mkChan (buf (readDone h) ++ [true]) (closed (readDone h))
               (cap (readDone h)))
       (set_state "down" h),
     [AClose (conn h);
      ALog Warn "Connection to hub %v is dying.";
      ASetState "down";
      ASend ChReadDone true],
     Returned).
Proof.
  intros h Hroom. unfold readPumpCleanup.
  replace (readDone (set_state "down" h)) with (readDone h)
    by (now destruct h).
  now rewrite HubProofs.hub_chan_send_room by exact Hroom.
Qed.

Section Outbound.

Variable PrepareMessage : base.EventWrapper -> list byte.
Variable WriteWait : Duration.

Local Abbreviation writeLoop := (writeLoop PrepareMessage WriteWait).
Local Abbreviation startWritePump :=
  (startWritePump PrepareMessage WriteWait).

Lemma writeLoop_drains_then : forall nows ms q rest h,
  buf (writeChannel h) = ms ++ q ->
  List.length nows = List.length ms ->
  writeLoop (map (WTakeWrite None) nows ++ rest) h
  = emit (map (fun m => AWriteMessage (conn h) websocket.BinaryMessage
                                      (PrepareMessage m)) ms)
         (writeLoop rest
            (set_writeChannel
               (mkChan q (closed (writeChannel h)) (cap (writeChannel h)))
               h)).
Proof.
  induction nows as [|n nows IH]; intros ms q rest h Hb Hl.
  - destruct ms; [|discriminate]. cbn in Hb. subst q.
    rewrite set_writeChannel_same. cbn [map app].
    now destruct (writeLoop rest h) as [[h' tr] ex].
  - destruct ms as [|m ms]; [discriminate|].
    cbn [map app hubconnection.writeLoop]. rewrite Hb. cbn [app].
    rewrite (IH ms q rest); [|reflexivity|cbn in Hl; congruence].
    destruct h as [i ct [wb wc wk] rc c a rd wd lp s].
    cbn [set_writeChannel writeChannel closed cap conn ID ConnectionType
         readChannel hubAddr readDone writeDone lastPingTime state].
    now destruct (writeLoop rest _) as [[h' tr] ex].
Qed.

(** The write loop against writes that all work: it takes the events off
    the queue oldest first. *)
Lemma writeLoop_drains : forall nows ms q h,
  buf (writeChannel h) = ms ++ q ->
  List.length nows = List.length ms ->
  writeLoop (map (WTakeWrite None) nows) h
  = (set_writeChannel
       (mkChan q (closed (writeChannel h)) (cap (writeChannel h))) h,
     map (fun m => AWriteMessage (conn h) websocket.BinaryMessage
                                 (PrepareMessage m)) ms,
     BlockedOn OnSelect).
Proof.
  intros nows ms q h Hb Hl.
  rewrite <- (app_nil_r (map (WTakeWrite None) nows)).
  rewrite (writeLoop_drains_then nows ms q [] h Hb Hl).
  cbn [hubconnection.writeLoop emit]. now rewrite app_nil_r.
Qed.

Lemma data_writes_map : forall (f : base.EventWrapper -> list byte) c ms,
  data_writes (map (fun m => AWriteMessage c websocket.BinaryMessage (f m)) ms)
  = map (fun m => (c, f m)) ms.
Proof.
  induction ms as [|m ms IH]; [reflexivity|]. cbn. now f_equal.
Qed.

(** X1.  Events handed to [SendEvent] on an open, empty outbound queue
    that has room for them are written to the socket by the write pump
    in the order of the calls, one binary message each, framed by
    [PrepareMessage]; when the last one is written the queue is empty
    again and the pump is still in its loop.  On a full queue
    [SendEvent] waits, and queues nothing. *)
Theorem outbound_fifo :
  forall (ms : list base.EventWrapper) (nows : list Time) (h : HubConnection),
  buf (writeChannel h) = [] ->
  closed (writeChannel h) = false ->
  List.length nows = List.length ms ->
  (List.length ms <= cap (writeChannel h))%nat ->
  (exists h1,
    sendAll ms h = Sent h1
    /\ buf (writeChannel h1) = ms
    /\ writeLoop (map (WTakeWrite None) nows) h1
       = (h,
          map (fun m => AWriteMessage (conn h) websocket.BinaryMessage
                                      (PrepareMessage m)) ms,
          BlockedOn OnSelect)
    /\ data_writes (snd (fst (writeLoop (map (WTakeWrite None) nows) h1)))
       = map (fun m => (conn h, PrepareMessage m)) ms)
  /\ (forall b h0,
        closed (writeChannel h0) = false ->
        (cap (writeChannel h0) <= List.length (buf (writeChannel h0)))%nat ->
        SendEvent b h0 = SendWaits).
Proof.
  intros ms nows h Hb Hc Hl Hroom. split.
  - rewrite (hub_sendAll_room ms h Hc) by (rewrite Hb; cbn; lia).
    rewrite Hb. cbn [app].
    eexists. split; [reflexivity|]. split; [reflexivity|].
    assert (E : writeLoop (map (WTakeWrite None) nows)
                  (set_writeChannel
                     (mkChan ms false (cap (writeChannel h))) h)
                = (h,
                   map (fun m => AWriteMessage (conn h)
                                   websocket.BinaryMessage
                                   (PrepareMessage m)) ms,
                   BlockedOn OnSelect)).
    { rewrite (writeLoop_drains nows ms [] _);
        [|cbn; now rewrite app_nil_r|exact Hl].
      destruct h as [i ct [wb wc wk] rc c a rd wd lp s]. cbn in Hb, Hc.
      subst. reflexivity. }
    rewrite E. split; [reflexivity|]. apply data_writes_map.
  - intros b h0 Hc0 Hf. unfold SendEvent. rewrite Hc0.
    now rewrite HubProofs.hub_chan_send_full.
Qed.

(** X2.  A message whose write fails is gone: the write loop has taken
    it off the queue and leaves without writing it again.  The events
    queued behind it stay queued through the cleanup and the retry, and
    the write pump started after the reconnection writes them, in order,
    to the new socket. *)
Theorem write_failure_drops_one :
  forall (err : websocket.error) (now : Time) (rest : list WriteSelect)
         (errs : list string) (k : ConnId) (more : list DialOutcome)
         (m : base.EventWrapper) (q : list base.EventWrapper)
         (r : bool) (rd : list bool) (h : HubConnection),
  buf (writeChannel h) = m :: q ->
  buf (readDone h) = r :: rd ->
  (List.length (buf (writeDone h)) < cap (writeDone h))%nat ->
  exists h' tr,
    startWritePump (WTakeWrite (Some err) now :: rest)
                   (map DialErr errs ++ DialOk k :: more) h
    = (h', tr, Returned)
    /\ data_writes tr = [(conn h, PrepareMessage m)]
    /\ buf (writeChannel h') = q
    /\ state h' = "good"%string
    /\ conn h' = Some k
    /\ (forall nows,
          List.length nows = List.length q ->
          data_writes (snd (fst (writeLoop (map (WTakeWrite None) nows) h')))
          = map (fun x => (Some k, PrepareMessage x)) q).
Proof.
  intros err now rest errs k more m q r rd h Hb Hr Hroom.
  unfold hubconnection.startWritePump.
  cbn [hubconnection.writeLoop]. rewrite Hb.
  rewrite writePumpCleanup_room by (now destruct h).
  destruct h as [i ct [wb wc wk] rc c a [rdb rdc rdk] [wdb wdc wdk] lp s].
  cbn in Hb, Hr. subst wb rdb.
  unfold set_state, set_writeDone, set_writeChannel.
  cbn [ID ConnectionType writeChannel readChannel conn hubAddr readDone
       writeDone lastPingTime state buf closed cap].
  destruct (wdb ++ [true]) as [|w wd] eqn:Hw;
    [now destruct wdb|].
  match goal with |- context [retryConnection _ ?h0] =>
    destruct (retry_returns errs k more h0 r rd w wd eq_refl eq_refl)
      as (hf & trR & R & Hs & Hk & Hwc & _ & _ & _ & _ & _ & Hd & _) end.
  rewrite R. cbn [emit]. do 2 eexists. split; [reflexivity|].
  split.
  { cbn [app data_writes flat_map]. fold (data_writes trR).
    now rewrite Hd. }
  split; [now rewrite Hwc|]. split; [exact Hs|]. split; [exact Hk|].
  intros nows Hl.
  rewrite (writeLoop_drains nows q [] hf);
    [|rewrite Hwc; cbn; now rewrite app_nil_r|exact Hl].
  cbn [fst snd]. rewrite Hk. apply data_writes_map.
Qed.

(** What the write loop leaves alone. *)
Lemma writeLoop_keeps : forall evs h,
  conn (hub_of (writeLoop evs h)) = conn h
  /\ state (hub_of (writeLoop evs h)) = state h
  /\ writeDone (hub_of (writeLoop evs h)) = writeDone h
  /\ (buf (readDone h) = [] -> readDone (hub_of (writeLoop evs h)) = readDone h)
  /\ count_dials (trace_of (writeLoop evs h)) = 0%nat
  /\ spawned (trace_of (writeLoop evs h)) = []
  /\ closes (trace_of (writeLoop evs h)) = [].
Proof.
  induction evs as [|ev evs IH]; intros h; [now repeat split|].
  destruct ev as [werr now|]; cbn [hubconnection.writeLoop].
  - destruct (buf (writeChannel h)) as [|m q].
    + destruct (closed (writeChannel h)); now repeat split.
    + destruct werr as [err|]; [now repeat split|].
      match goal with |- context [writeLoop evs ?h0] =>
        specialize (IH h0); destruct (writeLoop evs h0) as [[h' tr] ex] end.
      exact IH.
  - destruct (buf (readDone h)) as [|v rd] eqn:E;
      [now repeat split|].
    destruct (chan_send _ true) as [rd'|]; cbn;
      repeat split; intros; discriminate.
Qed.

(** X17.  Closing the outbound queue loses none of the events already
    queued: the write loop first writes every queued event, in order,
    and only when the queue is drained sends its one close frame and
    leaves. *)
Theorem close_after_drain :
  forall (ms : list base.EventWrapper) (nows : list Time)
         (werr : option websocket.error) (now : Time)
         (rest : list WriteSelect) (h : HubConnection),
  buf (writeChannel h) = ms ->
  closed (writeChannel h) = true ->
  List.length nows = List.length ms ->
  writeLoop (map (WTakeWrite None) nows ++ WTakeWrite werr now :: rest) h
  = (set_writeChannel (mkChan [] true (cap (writeChannel h))) h,
     map (fun m => AWriteMessage (conn h) websocket.BinaryMessage
                                 (PrepareMessage m)) ms
     ++ [AWriteControl (conn h) websocket.CloseMessage [x03; xe8]
                       (now + WriteWait)],
     Returned).
Proof.
  intros ms nows werr now rest h Hb Hc Hl.
  rewrite (writeLoop_drains_then nows ms [] _ h);
    [|now rewrite app_nil_r|exact Hl].
  rewrite Hc. reflexivity.
Qed.

(** The write pump that finds the read pump's indicator, against dials
    that fail and then one that works. *)
Lemma writePump_handoff :
  forall (rest : list WriteSelect) (errs : list string) (k : ConnId)
         (more : list DialOutcome) (v : bool) (rd : list bool)
         (h : HubConnection),
  buf (readDone h) = v :: rd ->
  (List.length (buf (readDone h)) <= cap (readDone h))%nat ->
  (List.length (buf (writeDone h)) < cap (writeDone h))%nat ->
  exists h' tr,
    startWritePump (WTakeReadDone :: rest)
                   (map DialErr errs ++ DialOk k :: more) h
    = (h', tr, Returned)
    /\ state h' = "good"%string
    /\ conn h' = Some k
    /\ buf (readDone h') = tl (rd ++ [true])
    /\ buf (writeDone h') = tl (buf (writeDone h) ++ [true])
    /\ closes tr = [conn h]
    /\ data_writes tr = []
    /\ spawned tr = [ReadPump; WritePump]
    /\ count_dials tr = S (List.length errs)
    /\ filter is_socket_write tr = []
    /\ readChannel h' = readChannel h.
Proof.
  intros rest errs k more v rd h Hr Hwf Hroom.
  unfold hubconnection.startWritePump.
  cbn [hubconnection.writeLoop]. rewrite Hr.
  rewrite HubProofs.hub_chan_send_room
    by (destruct h as [i ct wch rc c a [rdb rdc rdk] wdn lp s];
        cbn in Hr, Hwf |- *; subst rdb; cbn in Hwf; lia).
  rewrite writePumpCleanup_room by (now destruct h).
  destruct h as [i ct wch rc c a [rdb rdc rdk] [wdb wdc wdk] lp s].
  cbn in Hr. subst rdb.
  unfold set_state, set_writeDone, set_readDone.
  cbn [ID ConnectionType writeChannel readChannel conn hubAddr readDone
       writeDone lastPingTime state buf closed cap].
  destruct (rd ++ [true]) as [|r1 rd1] eqn:Er; [now destruct rd|].
  destruct (wdb ++ [true]) as [|w1 wd1] eqn:Ew; [now destruct wdb|].
  match goal with |- context [retryConnection _ ?h0] =>
    destruct (retry_returns errs k more h0 r1 rd1 w1 wd1 eq_refl eq_refl)
      as (hf & trR & R & Hs & Hk & _ & Hrc & Hrd & Hwd & Hc & Hsp & Hd
          & Hcl & _ & Hsw)
  end.
  rewrite R. cbn [emit app]. do 2 eexists. split; [reflexivity|].
  split; [exact Hs|]. split; [exact Hk|].
  split; [exact Hrd|]. split; [exact Hwd|].
  split; [cbn [closes flat_map app]; fold (closes trR); now rewrite Hcl|].
  split; [cbn [data_writes flat_map app]; fold (data_writes trR);
          now rewrite Hd|].
  split; [cbn [spawned flat_map app]; fold (spawned trR); exact Hsp|].
  split; [cbn [count_dials filter]; exact Hc|].
  split; [cbn [filter is_socket_write]; exact Hsw|exact Hrc].
Qed.

(** X4.  When the write pump finds the read pump's completion indicator
    it takes it, puts it back, and leaves; its cleanup posts the write
    pump's own indicator and enters the retry supervisor, which then
    finds both indicators at once and is never held up: it closes the old
    socket once, writes nothing more, dials until a dial works, and
    starts the two pumps on the new socket. *)
Theorem readDone_handoff :
  forall (rest : list WriteSelect) (errs : list string) (k : ConnId)
         (more : list DialOutcome) (v : bool) (rd : list bool)
         (h : HubConnection),
  buf (readDone h) = v :: rd ->
  (List.length (buf (readDone h)) <= cap (readDone h))%nat ->
  (List.length (buf (writeDone h)) < cap (writeDone h))%nat ->
  exists h' tr,
    startWritePump (WTakeReadDone :: rest)
                   (map DialErr errs ++ DialOk k :: more) h
    = (h', tr, Returned)
    /\ state h' = "good"%string
    /\ conn h' = Some k
    /\ buf (readDone h') = tl (rd ++ [true])
    /\ buf (writeDone h') = tl (buf (writeDone h) ++ [true])
    /\ closes tr = [conn h]
    /\ data_writes tr = []
    /\ spawned tr = [ReadPump; WritePump]
    /\ count_dials tr = S (List.length errs)
    /\ filter is_socket_write tr = [].
Proof.
  intros rest errs k more v rd h Hr Hwf Hroom.
  destruct (writePump_handoff rest errs k more v rd h Hr Hwf Hroom)
    as (h' & tr & E & A1 & A2 & A3 & A4 & A5 & A6 & A7 & A8 & A9 & _).
  exists h', tr. repeat split; assumption.
Qed.

(** X5.  When the write pump is the first to go (a failed write, or a
    closed queue) while the read pump has not posted its completion
    indicator, the retry supervisor its cleanup enters waits for the read
    pump: the socket is closed, "down retrying" is stored, the write
    pump's indicator is posted, and no dial is made and no pump started. *)
Theorem retry_waits_for_read_pump :
  forall (evs : list WriteSelect) (dials : list DialOutcome)
         (h : HubConnection),
  buf (readDone h) = [] ->
  status_of (writeLoop evs h) = Returned ->
  (List.length (buf (writeDone h)) < cap (writeDone h))%nat ->
  exists h' tr,
    startWritePump evs dials h = (h', tr, BlockedOn OnReadDone)
    /\ count_dials tr = 0%nat
    /\ spawned tr = []
    /\ closes tr = [conn h]
    /\ state h' = "down retrying"%string
    /\ buf (writeDone h') = buf (writeDone h) ++ [true].
Proof.
  intros evs dials h Hr Hex Hroom.
  unfold hubconnection.startWritePump.
  destruct (writeLoop_keeps evs h) as (Kc & Ks & Kw & Kr & Kd & Ksp & Kcl).
  specialize (Kr Hr).
  destruct (writeLoop evs h) as [[h1 tr1] ex].
  unfold hub_of, trace_of, status_of in *. cbn [fst snd] in *. subst ex.
  rewrite writePumpCleanup_room by (now rewrite Kw).
  assert (Hr1 : buf (readDone h1) = []) by (now rewrite Kr).
  destruct h1 as [i ct wch rc c a [rdb rdc rdk] [wdb wdc wdk] lp s].
  cbn in Hr1, Kc, Kw. subst rdb.
  unfold retryConnection, set_state, set_writeDone, set_readDone.
  cbn [ID ConnectionType writeChannel readChannel conn hubAddr readDone
       writeDone lastPingTime state buf closed cap emit app String.append].
  do 2 eexists. split; [reflexivity|].
  rewrite HubProofs.count_dials_app, HubProofs.spawned_app, closes_app.
  rewrite Kd, Ksp, Kcl, <- Kw, <- Kc. now repeat split.
Qed.

End Outbound.

Lemma close_after_drain_witness :
  data_writes
    (snd (fst (writeLoop samplePrepare (10 * Second)
                 (map (WTakeWrite None) [1; 2] ++ [WTakeWrite None 3])
                 (set_writeChannel
                    (mkChan [sampleEvent1; sampleEvent2] true 2) sampleHub))))
  = [(Some 1%nat, [x72; x31; x0a; x41]); (Some 1%nat, [x72; x32; x0a; x42])]
  /\ snd (writeLoop samplePrepare (10 * Second)
            (map (WTakeWrite None) [1; 2] ++ [WTakeWrite None 3])
            (set_writeChannel
               (mkChan [sampleEvent1; sampleEvent2] true 2) sampleHub))
     = Returned.
Proof.
  rewrite (close_after_drain samplePrepare (10 * Second)
             [sampleEvent1; sampleEvent2] [1; 2] None 3 []
             (set_writeChannel
                (mkChan [sampleEvent1; sampleEvent2] true 2) sampleHub)
             eq_refl eq_refl eq_refl).
  split; reflexivity.
Defined.

Lemma outbound_fifo_witness :
  exists h1,
    sendAll [sampleEvent1; sampleEvent2] sampleHub = Sent h1
    /\ data_writes
         (snd (fst (writeLoop samplePrepare (10 * Second)
                      (map (WTakeWrite None) [1; 2]) h1)))
       = [(Some 1%nat, [x72; x31; x0a; x41]);
          (Some 1%nat, [x72; x32; x0a; x42])].
Proof.
  destruct (outbound_fifo samplePrepare (10 * Second)
              [sampleEvent1; sampleEvent2] [1; 2] sampleHub
              eq_refl eq_refl eq_refl
              ltac:(apply Nat.leb_le; reflexivity))
    as ((h1 & S & _ & _ & D) & _).
  exists h1. split; [exact S|exact D].
Defined.

Lemma write_failure_drops_one_witness :
  exists h' tr,
    startWritePump samplePrepare (10 * Second)
      [WTakeWrite (Some (websocket.OtherError "broken pipe")) 5]
      (map DialErr ["refused"%string] ++ [DialOk 2%nat]) sampleHubQueued
    = (h', tr, Returned)
    /\ data_writes tr = [(Some 1%nat, [x72; x31; x0a; x41])]
    /\ buf (writeChannel h') = [sampleEvent2].
Proof.
  destruct (write_failure_drops_one samplePrepare (10 * Second)
              (websocket.OtherError "broken pipe") 5 []
              ["refused"%string] 2%nat [] sampleEvent1 [sampleEvent2]
              true [] sampleHubQueued eq_refl eq_refl
              ltac:(apply Nat.ltb_lt; reflexivity))
    as (h' & tr & E & D & B & _).
  exists h', tr. split; [exact E|]. split; [exact D|exact B].
Defined.

Lemma readDone_handoff_witness :
  exists h' tr,
    startWritePump samplePrepare (10 * Second) [WTakeReadDone]
      (map DialErr [] ++ [DialOk 2%nat]) sampleHubQueued
    = (h', tr, Returned)
    /\ conn h' = Some 2%nat
    /\ buf (readDone h') = []
    /\ buf (writeDone h') = [].
Proof.
  destruct (readDone_handoff samplePrepare (10 * Second) [] [] 2%nat []
              true [] sampleHubQueued eq_refl
              ltac:(apply Nat.leb_le; reflexivity)
              ltac:(apply Nat.ltb_lt; reflexivity))
    as (h' & tr & E & _ & K & R & W & _).
  exists h', tr. split; [exact E|]. split; [exact K|].
  split; [exact R|exact W].
Defined.

Lemma retry_waits_for_read_pump_witness :
  exists h' tr,
    startWritePump samplePrepare (10 * Second)
      [WTakeWrite (Some (websocket.OtherError "broken pipe")) 5]
      [DialOk 2%nat]
      (set_writeChannel (mkChan [sampleEvent1] false 2) sampleHub)
    = (h', tr, BlockedOn OnReadDone)
    /\ count_dials tr = 0%nat
    /\ state h' = "down retrying"%string.
Proof.
  destruct (retry_waits_for_read_pump samplePrepare (10 * Second)
              [WTakeWrite (Some (websocket.OtherError "broken pipe")) 5]
              [DialOk 2%nat]
              (set_writeChannel (mkChan [sampleEvent1] false 2) sampleHub)
              eq_refl eq_refl ltac:(apply Nat.ltb_lt; reflexivity))
    as (h' & tr & E & C & _ & _ & S & _).
  exists h', tr. split; [exact E|]. split; [exact C|exact S].
Defined.

(** ** The retry supervisor and the first connection *)

Lemma retryLoop_keeps : forall dials h,
  writeChannel (hub_of (retryLoop dials h)) = writeChannel h
  /\ readChannel (hub_of (retryLoop dials h)) = readChannel h
  /\ hubAddr (hub_of (retryLoop dials h)) = hubAddr h
  /\ ConnectionType (hub_of (retryLoop dials h)) = ConnectionType h
  /\ ID (hub_of (retryLoop dials h)) = ID h
  /\ lastPingTime (hub_of (retryLoop dials h)) = lastPingTime h
  /\ Forall (eq (connectURL h)) (dial_urls (trace_of (retryLoop dials h)))
  /\ closes (trace_of (retryLoop dials h)) = []
  /\ data_writes (trace_of (retryLoop dials h)) = [].
Proof.
  induction dials as [|d dials IH]; intros h.
  - repeat split. constructor.
  - cbn [retryLoop]. destruct d as [k|msg]; cbn [openConnection].
    + repeat split. repeat constructor.
    + specialize (IH h). destruct (retryLoop dials h) as [[h' tr] st].
      unfold hub_of, trace_of in *. cbn [fst snd emit app] in *.
      destruct IH as (A & B & C & D & E & F & G & H1 & H2).
      repeat split; try assumption.
      cbn [dial_urls flat_map app]. constructor; [reflexivity|exact G].
Qed.

(** X7.  Whatever the dials give, the retry supervisor leaves the two
    event queues, the hub address, the connection type, the identifier
    and the time of the last ping as they are, closes nothing and writes
    nothing, and makes every one of its dials to the one URL built from
    the hub address and the connection type. *)
Theorem retry_keeps_queues_and_target :
  forall (dials : list DialOutcome) (h : HubConnection),
  writeChannel (hub_of (retryConnection dials h)) = writeChannel h
  /\ readChannel (hub_of (retryConnection dials h)) = readChannel h
  /\ hubAddr (hub_of (retryConnection dials h)) = hubAddr h
  /\ ConnectionType (hub_of (retryConnection dials h)) = ConnectionType h
  /\ ID (hub_of (retryConnection dials h)) = ID h
  /\ lastPingTime (hub_of (retryConnection dials h)) = lastPingTime h
  /\ Forall (eq ("ws://" ++ hubAddr h ++ "/connect/" ++ ConnectionType h)%string)
            (dial_urls (trace_of (retryConnection dials h)))
  /\ closes (trace_of (retryConnection dials h)) = []
  /\ data_writes (trace_of (retryConnection dials h)) = [].
Proof.
  intros dials h.
  destruct h as [i ct wch rc c a [rdb rdc rdk] [wdb wdc wdk] lp s].
  unfold retryConnection, set_state, set_readDone, set_writeDone.
  cbn [ID ConnectionType writeChannel readChannel conn hubAddr readDone
       writeDone lastPingTime state buf closed cap].
  destruct rdb as [|r rd]; [repeat split; constructor|].
  destruct wdb as [|w wd]; [repeat split; constructor|].
  destruct dials as [|d dials]; [repeat split; constructor|].
  destruct d as [k|msg]; cbn [openConnection].
  - repeat split. repeat constructor.
  - match goal with |- context [retryLoop dials ?h0] =>
      pose proof (retryLoop_keeps dials h0) as IH;
      destruct (retryLoop dials h0) as [[h' tr] st] end.
    unfold hub_of, trace_of in *. cbn [fst snd emit app] in *.
    destruct IH as (A & B & C & D & E & F & G & H1 & H2).
    repeat split; try assumption.
    cbn [dial_urls flat_map app]. constructor; [reflexivity|exact G].
Qed.

(** X6.  When the first dial fails and both completion channels have
    room, [ConnectToHub] posts both indicators, starts the retry
    supervisor instead of the pumps, and hands its caller a connection
    error that names the hub address, leaving [state] and the socket as
    they were.  Having found both indicators posted, that supervisor is
    not held up: against dials that fail and then one that works it
    returns with the connection "good" on the new socket, and together
    they have dialled the one URL of that address, once more than there
    were failures.  With no room for the read pump's indicator,
    [ConnectToHub] is held up at its first post: it does not return, and
    starts nothing. *)
Theorem first_connect_failure_retries :
  forall (hubAddress msg : string) (errs : list string) (k : ConnId)
         (more : list DialOutcome) (h : HubConnection),
  (List.length (buf (readDone h)) < cap (readDone h))%nat ->
  (List.length (buf (writeDone h)) < cap (writeDone h))%nat ->
  (exists h1 tr1 h2 tr2,
    ConnectToHub hubAddress (DialErr msg) h
    = (h1, tr1,
       Returns
         (Some (nerr.Create
                  ("failed to open connection to hub " ++ hubAddress
                   ++ ". retrying connection...")
                  "connection-error")))
    /\ state h1 = state h
    /\ conn h1 = conn h
    /\ spawned tr1 = [RetryConnection]
    /\ retryConnection (map DialErr errs ++ DialOk k :: more) h1
       = (h2, tr2, Returned)
    /\ state h2 = "good"%string
    /\ conn h2 = Some k
    /\ spawned tr2 = [ReadPump; WritePump]
    /\ dial_urls (tr1 ++ tr2)
       = repeat ("ws://" ++ hubAddress ++ "/connect/" ++ ConnectionType h)%string
                (S (S (List.length errs))))
  /\ (forall h0,
        (cap (readDone h0) <= List.length (buf (readDone h0)))%nat ->
        exists h1 tr1,
          ConnectToHub hubAddress (DialErr msg) h0
          = (h1, tr1, Blocks (OnSend ChReadDone))
          /\ spawned tr1 = []
          /\ readDone h1 = readDone h0
          /\ writeDone h1 = writeDone h0).
Proof.
  intros hubAddress msg errs k more h Hrr Hwr. split.
  - destruct h as [i ct wch rc c a [rdb rdc rdk] [wdb wdc wdk] lp s].
    cbn in Hrr, Hwr. apply Nat.ltb_lt in Hrr, Hwr.
    unfold ConnectToHub, chan_send, set_hubAddr, set_readDone, set_writeDone.
    cbn [openConnection ID ConnectionType writeChannel readChannel conn
         hubAddr readDone writeDone lastPingTime state buf closed cap].
    rewrite Hrr, Hwr.
    destruct (rdb ++ [true]) as [|r1 rd1] eqn:Er; [now destruct rdb|].
    destruct (wdb ++ [true]) as [|w1 wd1] eqn:Ew; [now destruct wdb|].
    destruct (retry_returns errs k more
                (mkHub i ct wch rc c hubAddress (mkChan (r1 :: rd1) rdc rdk)
                       (mkChan (w1 :: wd1) wdc wdk) lp s)
                r1 rd1 w1 wd1 eq_refl eq_refl)
      as (hf & trR & R & Hs & Hk & _ & _ & _ & _ & _ & Hsp & _ & _ & Hu & _).
    do 4 eexists. split; [reflexivity|].
    split; [reflexivity|]. split; [reflexivity|]. split; [reflexivity|].
    split; [exact R|]. split; [exact Hs|]. split; [exact Hk|].
    split; [exact Hsp|].
    cbn [app dial_urls flat_map]. fold (dial_urls trR). rewrite Hu.
    reflexivity.
  - intros h0 Hf. unfold ConnectToHub. cbn [openConnection].
    rewrite HubProofs.hub_chan_send_full by (now destruct h0).
    do 2 eexists. split; [reflexivity|]. now repeat split.
Qed.

Lemma first_connect_failure_retries_witness :
  exists h1 tr1 h2 tr2,
    ConnectToHub "hub:7100" (DialErr "refused") (set_state "" sampleHub)
    = (h1, tr1,
       Returns
         (Some (nerr.Create
                  "failed to open connection to hub hub:7100. retrying connection..."
                  "connection-error")))
    /\ retryConnection (map DialErr ["refused"%string] ++ [DialOk 2%nat]) h1
       = (h2, tr2, Returned)
    /\ state h2 = "good"%string.
Proof.
  destruct (first_connect_failure_retries "hub:7100" "refused"
              ["refused"%string] 2%nat [] (set_state "" sampleHub)
              ltac:(apply Nat.ltb_lt; reflexivity)
              ltac:(apply Nat.ltb_lt; reflexivity))
    as ((h1 & tr1 & h2 & tr2 & E & _ & _ & _ & R & S & _) & _).
  exists h1, tr1, h2, tr2. split; [exact E|]. split; [exact R|exact S].
Defined.

(** ** The read pump *)

Section Inbound.

Variable ParseMessage : list byte -> option base.EventWrapper.
Variables PingWait WriteWait : Duration.

Local Abbreviation readLoop := (readLoop ParseMessage PingWait WriteWait).
Local Abbreviation startReadPump :=
  (startReadPump ParseMessage PingWait WriteWait).

(** What the read loop leaves alone. *)
Lemma readLoop_keeps : forall evs h,
  conn (hub_of (readLoop evs h)) = conn h
  /\ state (hub_of (readLoop evs h)) = state h
  /\ readDone (hub_of (readLoop evs h)) = readDone h
  /\ writeDone (hub_of (readLoop evs h)) = writeDone h
  /\ writeChannel (hub_of (readLoop evs h)) = writeChannel h
  /\ closed (readChannel (hub_of (readLoop evs h))) = closed (readChannel h)
  /\ cap (readChannel (hub_of (readLoop evs h))) = cap (readChannel h)
  /\ closes (trace_of (readLoop evs h)) = []
  /\ state_writes (trace_of (readLoop evs h)) = [].
Proof.
  induction evs as [|ev evs IH]; intros h; [now repeat split|].
  destruct ev as [d t1 t2 t3|t b|err]; cbn [hubconnection.readLoop].
  - cbn [pingHandler]. specialize (IH (set_lastPingTime t3 h)).
    destruct (readLoop evs _) as [[h' tr] st]. exact IH.
  - destruct (negb (t =? websocket.BinaryMessage)).
    + specialize (IH h). destruct (readLoop evs h) as [[h' tr] st].
      exact IH.
    + destruct (ParseMessage b) as [m|].
      * unfold chan_send.
        destruct (Nat.ltb _ _); [|now repeat split].
        match goal with |- context [readLoop evs ?h0] =>
          specialize (IH h0); destruct (readLoop evs h0) as [[h' tr] st] end.
        exact IH.
      * specialize (IH h). destruct (readLoop evs h) as [[h' tr] st].
        exact IH.
  - unfold hub_of, trace_of. cbn [fst snd]. unfold closes, state_writes.
    rewrite !flat_map_app.
    destruct (websocket.IsUnexpectedCloseError _ _); now repeat split.
Qed.

(** What the read loop queues, when the inbound queue has room for it. *)
Lemma readLoop_delivers : forall evs h,
  (List.length (buf (readChannel h))
   + List.length (flat_map (decoded ParseMessage) (before_error evs))
   <= cap (readChannel h))%nat ->
  buf (readChannel (hub_of (readLoop evs h)))
  = buf (readChannel h) ++ flat_map (decoded ParseMessage) (before_error evs)
  /\ deliveries (trace_of (readLoop evs h))
     = flat_map (decoded ParseMessage) (before_error evs)
  /\ status_of (readLoop evs h)
     = if no_error evs then BlockedOn OnReadMessage else Returned.
Proof.
  induction evs as [|ev evs IH]; intros h Hroom.
  - cbn. rewrite app_nil_r. now repeat split.
  - destruct ev as [d t1 t2 t3|t b|err];
      cbn [hubconnection.readLoop before_error flat_map decoded no_error
           forallb andb app] in Hroom |- *.
    + cbn [pingHandler]. specialize (IH (set_lastPingTime t3 h) Hroom).
      destruct (readLoop evs _) as [[h' tr] st].
      unfold hub_of, trace_of, status_of in *. cbn [fst snd emit app] in *.
      exact IH.
    + destruct (t =? websocket.BinaryMessage); cbn [negb].
      * destruct (ParseMessage b) as [m|].
        -- cbn [app List.length] in Hroom.
           rewrite HubProofs.hub_chan_send_room by lia.
           match goal with |- context [readLoop evs ?h0] =>
             assert (Hroom' :
               (List.length (buf (readChannel h0))
                + List.length (flat_map (decoded ParseMessage)
                                        (before_error evs))
                <= cap (readChannel h0))%nat)
               by (destruct h as [? ? ? [rb rc rk] ? ? ? ? ? ?];
                   cbn in Hroom |- *; rewrite length_app; cbn; lia);
             specialize (IH h0 Hroom');
             destruct (readLoop evs h0) as [[h' tr] st] end.
           unfold hub_of, trace_of, status_of in *.
           cbn [fst snd emit app] in *.
           destruct IH as (G & H1 & H4).
           repeat split; try assumption.
           ++ rewrite G. destruct h as [? ? ? [rb rc rk] ? ? ? ? ? ?]. cbn.
              now rewrite <- app_assoc.
           ++ cbn [deliveries flat_map app]. fold (deliveries tr).
              now rewrite H1.
        -- specialize (IH h Hroom). destruct (readLoop evs h) as [[h' tr] st].
           unfold hub_of, trace_of, status_of in *.
           cbn [fst snd emit app] in *. exact IH.
      * specialize (IH h Hroom). destruct (readLoop evs h) as [[h' tr] st].
        unfold hub_of, trace_of, status_of in *.
        cbn [fst snd emit app] in *. exact IH.
    + unfold hub_of, trace_of, status_of. cbn [fst snd].
      rewrite app_nil_r. unfold deliveries. rewrite flat_map_app.
      destruct (websocket.IsUnexpectedCloseError _ _); now repeat split.
Qed.

Lemma readUpTo_buf : forall ds q h,
  buf (readChannel h) = ds ++ q ->
  readUpTo (List.length ds) h
  = (ds,
     set_readChannel
       (mkChan q (closed (readChannel h)) (cap (readChannel h))) h).
Proof.
  induction ds as [|d ds IH]; intros q h Hb.
  - cbn in Hb |- *. subst q.
    now destruct h as [i ct wch [rb rc rk] c a rd wd lp s].
  - cbn [List.length readUpTo]. unfold ReadEvent. rewrite Hb. cbn [app].
    rewrite (IH q); [|reflexivity].
    now destruct h as [i ct wch [rb rc rk] c a rd wd lp s].
Qed.

(** X8.  Whatever mix of pings, wrong-kind messages, undecodable
    messages and good messages the socket hands to the read loop, what
    the loop queues on the inbound queue, as long as the queue has room
    for it, is exactly the events of the binary messages that decode, in
    the order of the wire, up to the first read error.  [ReadEvent] hands
    them to the user in that same order, and the call after the last one
    waits.  With the queue full, the loop waits at the send of the next
    decoded event, before anything is queued. *)
Theorem inbound_fifo :
  forall (evs : list SocketRead) (h : HubConnection),
  buf (readChannel h) = [] ->
  closed (readChannel h) = false ->
  (List.length (flat_map (decoded ParseMessage) (before_error evs))
   <= cap (readChannel h))%nat ->
  deliveries (trace_of (readLoop evs h))
  = flat_map (decoded ParseMessage) (before_error evs)
  /\ buf (readChannel (hub_of (readLoop evs h)))
     = flat_map (decoded ParseMessage) (before_error evs)
  /\ fst (readUpTo
            (List.length (flat_map (decoded ParseMessage) (before_error evs)))
            (hub_of (readLoop evs h)))
     = flat_map (decoded ParseMessage) (before_error evs)
  /\ ReadEvent
       (snd (readUpTo
               (List.length
                  (flat_map (decoded ParseMessage) (before_error evs)))
               (hub_of (readLoop evs h))))
     = None
  /\ (forall b m rest h0,
        ParseMessage b = Some m ->
        (cap (readChannel h0) <= List.length (buf (readChannel h0)))%nat ->
        readLoop (RMessage websocket.BinaryMessage b :: rest) h0
        = (h0, [], BlockedOn (OnSend ChReadChannel))).
Proof.
  intros evs h Hb Hc Hroom.
  destruct (readLoop_keeps evs h)
    as (_ & _ & _ & _ & _ & Hcl & _).
  destruct (readLoop_delivers evs h) as (Hbuf & Hdel & _);
    [rewrite Hb; cbn; lia|].
  rewrite Hb in Hbuf. cbn [app] in Hbuf. rewrite Hc in Hcl.
  split; [exact Hdel|]. split; [exact Hbuf|].
  rewrite (readUpTo_buf _ [] (hub_of (readLoop evs h)))
    by (now rewrite app_nil_r).
  split; [reflexivity|]. split.
  - cbn [snd]. unfold ReadEvent. cbn. now rewrite Hcl.
  - exact (HubProofs.readLoop_full ParseMessage PingWait WriteWait).
Qed.

Lemma readLoop_app : forall pre rest h,
  status_of (readLoop pre h) = BlockedOn OnReadMessage ->
  readLoop (pre ++ rest) h
  = emit (trace_of (readLoop pre h)) (readLoop rest (hub_of (readLoop pre h))).
Proof.
  induction pre as [|ev pre IH]; intros rest h Hn.
  - cbn. now destruct (readLoop rest h) as [[h' tr] st].
  - destruct ev as [d t1 t2 t3|t b|err];
      cbn [app hubconnection.readLoop] in Hn |- *.
    + cbn [pingHandler] in Hn |- *. rewrite HubProofs.status_emit in Hn.
      rewrite (IH rest _ Hn).
      destruct (readLoop pre _) as [[h1 tr1] st1].
      unfold hub_of, trace_of. cbn [fst snd emit].
      destruct (readLoop rest h1) as [[h2 tr2] st2]. reflexivity.
    + destruct (negb (t =? websocket.BinaryMessage)).
      * rewrite HubProofs.status_emit in Hn. rewrite (IH rest _ Hn).
        destruct (readLoop pre _) as [[h1 tr1] st1].
        unfold hub_of, trace_of. cbn [fst snd emit].
        destruct (readLoop rest h1) as [[h2 tr2] st2]. reflexivity.
      * destruct (ParseMessage b) as [m|].
        -- destruct (chan_send (readChannel h) m) as [q|];
             [|discriminate Hn].
           rewrite HubProofs.status_emit in Hn. rewrite (IH rest _ Hn).
           destruct (readLoop pre _) as [[h1 tr1] st1].
           unfold hub_of, trace_of. cbn [fst snd emit].
           destruct (readLoop rest h1) as [[h2 tr2] st2]. reflexivity.
        -- rewrite HubProofs.status_emit in Hn. rewrite (IH rest _ Hn).
           destruct (readLoop pre _) as [[h1 tr1] st1].
           unfold hub_of, trace_of. cbn [fst snd emit].
           destruct (readLoop rest h1) as [[h2 tr2] st2]. reflexivity.
    + unfold status_of in Hn. cbn in Hn. discriminate.
Qed.

(** The read pump up to and through its first read error. *)
Lemma startReadPump_ends :
  forall (now : Time) (pre : list SocketRead) (err : websocket.error)
         (rest : list SocketRead) (h : HubConnection),
  no_error pre = true ->
  (List.length (buf (readChannel h))
   + List.length (flat_map (decoded ParseMessage) pre)
   <= cap (readChannel h))%nat ->
  (List.length (buf (readDone h)) < cap (readDone h))%nat ->
  exists h',
    startReadPump now (pre ++ RError err :: rest) h
    = (h',
       ASetReadDeadline (conn h) (now + PingWait)
       :: trace_of (readLoop pre h)
       ++ readErrorLogs err
       ++ [AClose (conn h);
           ALog Warn "Connection to hub %v is dying.";
           ASetState "down";
           ASend ChReadDone true],
       Returned)
    /\ state h' = "down"%string
    /\ buf (readDone h') = buf (readDone h) ++ [true]
    /\ buf (readChannel h')
       = buf (readChannel h) ++ flat_map (decoded ParseMessage) pre
    /\ closes (trace_of (startReadPump now (pre ++ RError err :: rest) h))
       = [conn h]
    /\ state_writes
         (trace_of (startReadPump now (pre ++ RError err :: rest) h))
       = ["down"%string].
Proof.
  intros now pre err rest h Hn Hroom Hrd.
  assert (Hbe : before_error pre = pre).
  { clear - Hn. induction pre as [|ev pre IH]; [reflexivity|].
    destruct ev; cbn in Hn |- *; try discriminate; now rewrite IH. }
  destruct (readLoop_keeps pre h)
    as (Kc & Ks & Krd & _ & _ & _ & _ & Kcl & Ksw).
  destruct (readLoop_delivers pre h) as (Kbuf & _ & Kst);
    [now rewrite Hbe|].
  rewrite Hbe in Kbuf. rewrite Hn in Kst.
  unfold hubconnection.startReadPump.
  rewrite (readLoop_app pre (RError err :: rest) h Kst).
  destruct (readLoop pre h) as [[h1 tr1] st1].
  unfold hub_of, trace_of in *. cbn [fst snd] in *.
  cbn [hubconnection.readLoop emit].
  rewrite readPumpCleanup_room by (now rewrite Krd).
  fold (readErrorLogs err). rewrite Kc. cbn [emit].
  eexists. split; [rewrite <- !app_assoc; reflexivity|].
  split; [reflexivity|].
  split; [cbn; now rewrite Krd|].
  split; [exact Kbuf|].
  cbn [fst snd app closes state_writes flat_map].
  rewrite !flat_map_app. fold (closes tr1). fold (state_writes tr1).
  rewrite Kcl, Ksw. unfold readErrorLogs.
  destruct (websocket.IsUnexpectedCloseError _ _); split; reflexivity.
Qed.

(** X3.  The first read error ends the read pump, whatever the error:
    the frames after it are never looked at; the events decoded before
    it stay queued; the pump logs the error (a close of the peer other
    than a going-away close is logged twice), closes the socket once,
    stores "down", and posts its completion indicator once. *)
Theorem read_error_ends_pump :
  forall (now : Time) (pre : list SocketRead) (err : websocket.error)
         (rest : list SocketRead) (h : HubConnection),
  no_error pre = true ->
  (List.length (buf (readChannel h))
   + List.length (flat_map (decoded ParseMessage) pre)
   <= cap (readChannel h))%nat ->
  (List.length (buf (readDone h)) < cap (readDone h))%nat ->
  exists h',
    startReadPump now (pre ++ RError err :: rest) h
    = (h',
       ASetReadDeadline (conn h) (now + PingWait)
       :: trace_of (readLoop pre h)
       ++ readErrorLogs err
       ++ [AClose (conn h);
           ALog Warn "Connection to hub %v is dying.";
           ASetState "down";
           ASend ChReadDone true],
       Returned)
    /\ state h' = "down"%string
    /\ buf (readDone h') = buf (readDone h) ++ [true]
    /\ buf (readChannel h')
       = buf (readChannel h) ++ flat_map (decoded ParseMessage) pre
    /\ closes (trace_of (startReadPump now (pre ++ RError err :: rest) h))
       = [conn h]
    /\ state_writes
         (trace_of (startReadPump now (pre ++ RError err :: rest) h))
       = ["down"%string].
Proof. exact startReadPump_ends. Qed.

Lemma startReadPump_keeps : forall now evs h,
  conn (hub_of (startReadPump now evs h)) = conn h
  /\ writeDone (hub_of (startReadPump now evs h)) = writeDone h
  /\ writeChannel (hub_of (startReadPump now evs h)) = writeChannel h
  /\ cap (readDone (hub_of (startReadPump now evs h))) = cap (readDone h).
Proof.
  intros now evs h. unfold hubconnection.startReadPump.
  destruct (readLoop_keeps evs h) as (Kc & _ & Kr & Kw & Kq & _).
  destruct (readLoop evs h) as [[h1 tr1] st1].
  unfold hub_of in *. cbn [fst] in *.
  destruct st1; [|cbn; rewrite Kr; now repeat split].
  unfold readPumpCleanup, chan_send.
  replace (readDone (set_state "down" h1)) with (readDone h)
    by (rewrite <- Kr; now destruct h1).
  destruct (Nat.ltb _ _); cbn; rewrite ?Kr; now repeat split.
Qed.

End Inbound.

Lemma inbound_fifo_witness :
  fst (readUpTo 2
         (hub_of (readLoop sampleParse (90 * Second) (10 * Second)
                    [RMessage websocket.BinaryMessage [x72; x31; x0a; x41];
                     RPing "" 1 2 3;
                     RMessage websocket.TextMessage [x68; x69];
                     RMessage websocket.BinaryMessage [x68; x69];
                     RMessage websocket.BinaryMessage [x72; x32; x0a; x42];
                     RError (websocket.CloseError 1006 "unexpected EOF");
                     RMessage websocket.BinaryMessage [x72; x33; x0a; x43]]
                    sampleHub)))
  = [sampleEvent1; sampleEvent2].
Proof.
  destruct (inbound_fifo sampleParse (90 * Second) (10 * Second)
              [RMessage websocket.BinaryMessage [x72; x31; x0a; x41];
               RPing "" 1 2 3;
               RMessage websocket.TextMessage [x68; x69];
               RMessage websocket.BinaryMessage [x68; x69];
               RMessage websocket.BinaryMessage [x72; x32; x0a; x42];
               RError (websocket.CloseError 1006 "unexpected EOF");
               RMessage websocket.BinaryMessage [x72; x33; x0a; x43]]
              sampleHub eq_refl eq_refl
              ltac:(apply Nat.leb_le; reflexivity)) as (_ & _ & R & _).
  exact R.
Defined.

Lemma read_error_ends_pump_witness :
  exists h',
    hub_of (startReadPump sampleParse (90 * Second) (10 * Second) 0
              ([RMessage websocket.BinaryMessage [x72; x31; x0a; x41]]
               ++ RError (websocket.CloseError 1006 "unexpected EOF")
               :: [RMessage websocket.BinaryMessage [x72; x32; x0a; x42]])
              sampleHub) = h'
    /\ state h' = "down"%string
    /\ buf (readDone h') = [true]
    /\ buf (readChannel h') = [sampleEvent1].
Proof.
  destruct (read_error_ends_pump sampleParse (90 * Second) (10 * Second) 0
              [RMessage websocket.BinaryMessage [x72; x31; x0a; x41]]
              (websocket.CloseError 1006 "unexpected EOF")
              [RMessage websocket.BinaryMessage [x72; x32; x0a; x42]]
              sampleHub eq_refl
              ltac:(apply Nat.leb_le; reflexivity)
              ltac:(apply Nat.ltb_lt; reflexivity))
    as (h' & E & S & R & B & _).
  exists h'. split; [now rewrite E|]. split; [exact S|].
  split; [exact R|exact B].
Defined.

(** ** A whole cycle *)

Section Cycle.

Variable ParseMessage : list byte -> option base.EventWrapper.
Variable PrepareMessage : base.EventWrapper -> list byte.
Variables PingWait WriteWait : Duration.

Local Abbreviation startReadPump :=
  (startReadPump ParseMessage PingWait WriteWait).
Local Abbreviation startWritePump :=
  (startWritePump PrepareMessage WriteWait).

(** X16.  One whole cycle of the hub connection, from two empty
    completion channels: the first connection works; the read pump meets
    a read error and goes; the write pump finds the read pump's
    indicator and goes, into the retry supervisor, which dials until a
    dial works.  At the end the connection is "good" on the new socket,
    both completion channels are empty again, as they were at the start,
    and the events read before the error are still on the inbound queue.
    The old socket has been closed twice, once by the cleanup of each
    pump. *)
Theorem connection_heals :
  forall (hubAddress : string) (k : ConnId) (now : Time)
         (pre : list SocketRead) (err : websocket.error)
         (rest : list SocketRead) (wrest : list WriteSelect)
         (errs : list string) (k2 : ConnId) (more : list DialOutcome)
         (h : HubConnection),
  buf (readDone h) = [] ->
  buf (writeDone h) = [] ->
  no_error pre = true ->
  (0 < cap (readDone h))%nat ->
  (0 < cap (writeDone h))%nat ->
  (List.length (buf (readChannel h))
   + List.length (flat_map (decoded ParseMessage) pre)
   <= cap (readChannel h))%nat ->
  exists h1 tr1 h2 tr2 h3 tr3,
    ConnectToHub hubAddress (DialOk k) h = (h1, tr1, Returns None)
    /\ startReadPump now (pre ++ RError err :: rest) h1 = (h2, tr2, Returned)
    /\ startWritePump (WTakeReadDone :: wrest)
                      (map DialErr errs ++ DialOk k2 :: more) h2
       = (h3, tr3, Returned)
    /\ state h3 = "good"%string
    /\ conn h3 = Some k2
    /\ buf (readDone h3) = []
    /\ buf (writeDone h3) = []
    /\ closes (tr1 ++ tr2 ++ tr3) = [Some k; Some k]
    /\ buf (readChannel h3)
       = buf (readChannel h) ++ flat_map (decoded ParseMessage) pre.
Proof.
  intros hubAddress k now pre err rest wrest errs k2 more h Hr Hw Hn
         Cr Cw Hroom.
  set (h1 := set_state "good" (set_conn (Some k) (set_hubAddr hubAddress h))).
  assert (Hroom1 : (List.length (buf (readChannel h1))
                    + List.length (flat_map (decoded ParseMessage) pre)
                    <= cap (readChannel h1))%nat) by exact Hroom.
  assert (Hrd1 : (List.length (buf (readDone h1)) < cap (readDone h1))%nat).
  { subst h1. cbn. rewrite Hr. exact Cr. }
  destruct (startReadPump_ends ParseMessage PingWait WriteWait now pre err
              rest h1 Hn Hroom1 Hrd1) as (h2 & E2 & S2 & R2 & B2 & C2 & _).
  destruct (startReadPump_keeps ParseMessage PingWait WriteWait now
              (pre ++ RError err :: rest) h1) as (K2c & K2w & _ & K2k).
  rewrite E2 in C2, K2c, K2w, K2k.
  match type of E2 with _ = (_, ?t, _) => set (tr2 := t) in * end.
  unfold hub_of, trace_of in *. cbn [fst snd] in C2, K2c, K2w, K2k.
  assert (R2' : buf (readDone h2) = true :: []).
  { rewrite R2. subst h1. cbn. now rewrite Hr. }
  assert (Hwf2 : (List.length (buf (readDone h2)) <= cap (readDone h2))%nat).
  { rewrite R2', K2k. subst h1. cbn. lia. }
  assert (Hwr2 : (List.length (buf (writeDone h2)) < cap (writeDone h2))%nat).
  { rewrite K2w. subst h1. cbn. rewrite Hw. exact Cw. }
  destruct (writePump_handoff PrepareMessage WriteWait wrest errs k2 more
              true [] h2 R2' Hwf2 Hwr2)
    as (h3 & tr3 & E3 & S3 & K3 & R3 & W3 & C3 & _ & _ & _ & _ & Q3).
  exists h1, [ADial (connectURL (set_hubAddr hubAddress h));
              ASetState "good";
              ALog Info "Successfully connected to hub %s. Starting pumps...";
              AGo ReadPump; AGo WritePump].
  exists h2, tr2, h3, tr3.
  split; [reflexivity|]. split; [exact E2|]. split; [exact E3|].
  split; [exact S3|]. split; [exact K3|]. split; [exact R3|].
  split.
  { rewrite W3, K2w. subst h1. cbn. now rewrite Hw. }
  split.
  { rewrite !closes_app, C2, C3, K2c. reflexivity. }
  rewrite Q3, B2. reflexivity.
Qed.

End Cycle.

Lemma connection_heals_witness :
  exists h3 tr3,
    startWritePump samplePrepare (10 * Second) [WTakeReadDone]
      (map DialErr ["refused"%string] ++ [DialOk 2%nat])
      (hub_of (startReadPump sampleParse (90 * Second) (10 * Second) 0
                 ([RMessage websocket.BinaryMessage [x72; x31; x0a; x41]]
                  ++ [RError (websocket.CloseError 1006 "unexpected EOF")])
                 (fst (fst (ConnectToHub "hub:7100" (DialOk 1%nat)
                              (set_state "" sampleHub))))))
    = (h3, tr3, Returned)
    /\ state h3 = "good"%string
    /\ conn h3 = Some 2%nat
    /\ buf (readDone h3) = []
    /\ buf (writeDone h3) = []
    /\ buf (readChannel h3) = [sampleEvent1].
Proof.
  destruct (connection_heals sampleParse samplePrepare (90 * Second)
              (10 * Second) "hub:7100" 1%nat 0
              [RMessage websocket.BinaryMessage [x72; x31; x0a; x41]]
              (websocket.CloseError 1006 "unexpected EOF") []
              [] ["refused"%string] 2%nat [] (set_state "" sampleHub)
              eq_refl eq_refl eq_refl
              ltac:(apply Nat.ltb_lt; reflexivity)
              ltac:(apply Nat.ltb_lt; reflexivity)
              ltac:(apply Nat.leb_le; reflexivity))
    as (h1 & tr1 & h2 & tr2 & h3 & tr3 & E1 & E2 & E3 & S & K & R & W & _ & B).
  exists h3, tr3. rewrite E1. cbn [fst]. rewrite E2.
  unfold hub_of. cbn [fst].
  split; [exact E3|]. split; [exact S|]. split; [exact K|].
  split; [exact R|]. split; [exact W|exact B].
Defined.

End HubExtra.

(** * Further properties of the pumping station *)

Module PeerExtra.

Import repeater.

Lemma chan_send_room : forall A (ch : chan A) (v : A),
  (List.length (buf ch) < cap ch)%nat ->
  chan_send ch v = Some (mkChan (buf ch ++ [v]) (cap ch)).
Proof.
  intros A ch v H. unfold chan_send.
  apply Nat.ltb_lt in H. now rewrite H.
Qed.

Lemma chan_send_full : forall A (ch : chan A) (v : A),
  (cap ch <= List.length (buf ch))%nat ->
  chan_send ch v = None.
Proof.
  intros A ch v H. unfold chan_send.
  apply Nat.ltb_ge in H. now rewrite H.
Qed.

Lemma sendAll_room : forall es c,
  (List.length (buf (SendChannel c)) + List.length es
   <= cap (SendChannel c))%nat ->
  sendAll es c
  = Some (set_SendChannel
            (mkChan (buf (SendChannel c) ++ es) (cap (SendChannel c))) c).
Proof.
  induction es as [|e es IH]; intros c H.
  - cbn [sendAll]. rewrite app_nil_r.
    now destruct c as [k i ro ra rc wc re we ec wt rt rcv [sb sc] r0].
  - cbn [sendAll]. unfold SendEvent.
    rewrite chan_send_room by (cbn [List.length] in H; lia).
    rewrite IH.
    + destruct c as [k i ro ra rc wc re we ec wt rt rcv [sb sc] r0].
      cbn. now rewrite <- app_assoc.
    + destruct c as [k i ro ra rc wc re we ec wt rt rcv [sb sc] r0].
      cbn in H |- *. rewrite length_app. cbn. lia.
Qed.

(** X9.  [SendEvent] queues events on the external send queue in the
    order of the calls as long as there is room, and waits, dropping
    nothing, when the queue is full.  A station made by
    [StartConnection] starts with an empty queue of 1024 places. *)
Theorem SendEvent_backpressure :
  forall (es : list Event) (c : PumpingStation),
  (List.length (buf (SendChannel c)) + List.length es
   <= cap (SendChannel c))%nat ->
  sendAll es c
  = Some (set_SendChannel
            (mkChan (buf (SendChannel c) ++ es) (cap (SendChannel c))) c)
  /\ (forall e c0,
        (cap (SendChannel c0) <= List.length (buf (SendChannel c0)))%nat ->
        SendEvent e c0 = None)
  /\ (forall proc room r0,
        buf (SendChannel (fst (fst (StartConnection proc room r0)))) = []
        /\ cap (SendChannel (fst (fst (StartConnection proc room r0))))
           = 1024%nat).
Proof.
  intros es c H. split; [now apply sendAll_room|]. split.
  - intros e c0 Hf. unfold SendEvent. now rewrite chan_send_full.
  - intros. split; reflexivity.
Qed.

(** X10.  The read pump queues the events it reads on the inbound queue
    in the order of the wire, and after each one sets the read deadline
    to the clock plus TTL; with the queue full it waits at the send,
    before anything is queued or any deadline moved, so that no event is
    dropped or reordered. *)
Theorem peer_inbound_fifo :
  forall (items : list (Event * Time)) (c : PumpingStation),
  (List.length (buf (readChannel c)) + List.length items
   <= cap (readChannel c))%nat ->
  readLoop (map (fun it => RJSON (fst it) (snd it)) items) c
  = (set_readChannel
       (mkChan (buf (readChannel c) ++ map fst items) (cap (readChannel c))) c,
     flat_map (readStep (conn c)) items,
     BlockedOn OnReadJSON)
  /\ (forall e now rest c0,
        (cap (readChannel c0) <= List.length (buf (readChannel c0)))%nat ->
        readLoop (RJSON e now :: rest) c0
        = (c0, [], BlockedOn (OnSend ChReadChannel))).
Proof.
  intros items c H. split.
  - revert c H. induction items as [|it items IH]; intros c H.
    + cbn. rewrite app_nil_r.
      now destruct c as [k i ro ra [rb rc] wc re we ec wt rt rcv sc r0].
    + cbn [map readLoop flat_map].
      rewrite chan_send_room by (cbn [List.length] in H; lia).
      rewrite IH.
      * destruct c as [k i ro ra [rb rc] wc re we ec wt rt rcv sc r0].
        cbn. now rewrite <- app_assoc.
      * destruct c as [k i ro ra [rb rc] wc re we ec wt rt rcv sc r0].
        cbn in H |- *. rewrite length_app. cbn. lia.
  - intros e now rest c0 Hf. cbn [readLoop]. now rewrite chan_send_full.
Qed.

(** X11.  The write pump takes the events off its queue oldest first,
    writes each to the socket as JSON, and after each write that works
    sets the write deadline to the clock plus TTL; the events it has not
    come to stay queued. *)
Theorem peer_outbound_fifo :
  forall (items : list (Event * Time)) (q : list Event) (c : PumpingStation),
  buf (writeChannel c) = map fst items ++ q ->
  writeLoop (map (fun it => WTakeWrite None (snd it)) items) c
  = (set_writeChannel (mkChan q (cap (writeChannel c))) c,
     flat_map (writeStep (conn c)) items,
     BlockedOn OnSelect).
Proof.
  induction items as [|it items IH]; intros q c Hb.
  - cbn in Hb |- *. subst q.
    now destruct c as [k i ro ra rc [wb wc] re we ec wt rt rcv sc r0].
  - cbn [map writeLoop flat_map]. unfold chan_recv. rewrite Hb.
    cbn [map app]. rewrite (IH q); [|reflexivity].
    now destruct c as [k i ro ra rc [wb wc] re we ec wt rt rcv sc r0].
Qed.

(** ** Reporting errors *)

Lemma readFailed_reports : forall n err nows c,
  (error_reports (trace_of (readFailed n err nows c)) = []
   /\ errorChan (hub_of (readFailed n err nows c)) = errorChan c)
  \/ (exists pre err',
        trace_of (readFailed n err nows c) = pre ++ [ASendError err']
        /\ error_reports pre = []
        /\ status_of (readFailed n err nows c) = Returned
        /\ buf (errorChan (hub_of (readFailed n err nows c)))
           = buf (errorChan c) ++ [err']).
Proof.
  induction n as [|n IH]; intros err nows c; [now left|].
  rewrite PeerProofs.readFailed_S. unfold onReadError.
  destruct (websocket.IsUnexpectedCloseError err _).
  - unfold reportReadError, chan_send.
    destruct (Nat.ltb _ _); [|now left].
    right. exists [ALog Error "[%v] Websocket closing: %v";
                   ALog Debug "[%v] Returning"], err.
    now repeat split.
  - destruct (websocket.isTimeout err).
    + destruct (chan_recv (readExit c)) as [[v q]|]; [now left|].
      specialize (IH err (fun i => nows (S i)) c).
      destruct (readFailed n err _ c) as [[c' tr] st].
      unfold trace_of, status_of, hub_of in *. cbn [fst snd emit] in *.
      destruct IH as [[E1 E2]|(pre & err' & T & P & S & B)].
      * left. split; [exact E1|exact E2].
      * right. exists ([ASetReadDeadline (conn c) (time_Add (nows 0%nat) TTL)]
                       ++ pre), err'.
        rewrite T. split; [now rewrite <- app_assoc|].
        split; [exact P|]. split; [exact S|exact B].
    + unfold reportReadError, chan_send.
      destruct (Nat.ltb _ _); [|now left].
      right. exists [ALog Debug "[%v] Returning"], err.
      now repeat split.
Qed.

Lemma readLoop_reports : forall evs c,
  (error_reports (trace_of (readLoop evs c)) = []
   /\ errorChan (hub_of (readLoop evs c)) = errorChan c)
  \/ (exists pre err,
        trace_of (readLoop evs c) = pre ++ [ASendError err]
        /\ error_reports pre = []
        /\ status_of (readLoop evs c) = Returned
        /\ buf (errorChan (hub_of (readLoop evs c)))
           = buf (errorChan c) ++ [err]).
Proof.
  induction evs as [|ev evs IH]; intros c; [now left|].
  destruct ev as [e now|err now]; cbn [readLoop].
  - destruct (chan_send (readChannel c) e) as [q|]; [|now left].
    specialize (IH (set_readChannel q c)).
    destruct (readLoop evs (set_readChannel q c)) as [[c' tr] st].
    unfold trace_of, status_of, hub_of in *. cbn [fst snd emit] in *.
    destruct IH as [[E1 E2]|(pre & err & T & P & S & B)].
    + left. split; [exact E1|exact E2].
    + right. exists ([ASendEvent ChReadChannel e;
                      ASetReadDeadline (conn c) (time_Add now TTL)] ++ pre), err.
      rewrite T. split; [now rewrite <- app_assoc|].
      split; [exact P|]. split; [exact S|exact B].
  - apply readFailed_reports.
Qed.

Lemma writeLoop_reports : forall evs c,
  (error_reports (trace_of (writeLoop evs c)) = []
   /\ errorChan (hub_of (writeLoop evs c)) = errorChan c)
  \/ (exists pre err,
        trace_of (writeLoop evs c) = pre ++ [ASendError err]
        /\ error_reports pre = []
        /\ status_of (writeLoop evs c) = Returned
        /\ buf (errorChan (hub_of (writeLoop evs c)))
           = buf (errorChan c) ++ [err]).
Proof.
  induction evs as [|ev evs IH]; intros c; [now left|].
  destruct ev as [werr now|]; cbn [writeLoop].
  - destruct (chan_recv (writeChannel c)) as [[msg q]|]; [|now left].
    destruct werr as [err|].
    + unfold chan_send. cbn [set_writeChannel errorChan].
      destruct (Nat.ltb _ _); [|now left].
      right. exists [ARecv ChWriteChannel;
                     AWriteJSON (conn (set_writeChannel q c)) msg;
                     ALog Warn "[%v} Problem writing message: %v"], err.
      now repeat split.
    + specialize (IH (set_writeChannel q c)).
      destruct (writeLoop evs (set_writeChannel q c)) as [[c' tr] st].
      unfold trace_of, status_of, hub_of in *. cbn [fst snd emit] in *.
      destruct IH as [[E1 E2]|(pre & err & T & P & S & B)].
      * left. split; [exact E1|exact E2].
      * right.
        exists ([ARecv ChWriteChannel;
                 AWriteJSON (conn (set_writeChannel q c)) msg]
                ++ [ASetWriteDeadline (conn (set_writeChannel q c))
                                      (time_Add now TTL)] ++ pre), err.
        rewrite T. split; [now rewrite <- !app_assoc|].
        split; [exact P|]. split; [exact S|exact B].
  - destruct (chan_recv (writeExit c)) as [[v q]|]; now left.
Qed.

(** X12.  Over any run, either pump sends at most one error on the error
    channel, and when it does, the send is the last thing it does before
    it returns. *)
Theorem pumps_report_at_most_once :
  forall (revs : list SocketRead) (wevs : list WriteSelect)
         (c : PumpingStation),
  ((error_reports (trace_of (readLoop revs c)) = []
    /\ errorChan (hub_of (readLoop revs c)) = errorChan c)
   \/ (exists pre err,
         trace_of (readLoop revs c) = pre ++ [ASendError err]
         /\ error_reports pre = []
         /\ status_of (readLoop revs c) = Returned
         /\ buf (errorChan (hub_of (readLoop revs c)))
            = buf (errorChan c) ++ [err]))
  /\ ((error_reports (trace_of (writeLoop wevs c)) = []
       /\ errorChan (hub_of (writeLoop wevs c)) = errorChan c)
      \/ (exists pre err,
            trace_of (writeLoop wevs c) = pre ++ [ASendError err]
            /\ error_reports pre = []
            /\ status_of (writeLoop wevs c) = Returned
            /\ buf (errorChan (hub_of (writeLoop wevs c)))
               = buf (errorChan c) ++ [err])).
Proof.
  intros revs wevs c. split;
    [apply readLoop_reports|apply writeLoop_reports].
Qed.

(** X13.  The error channel, made with two places, has room for the one
    error of each pump: with the channel empty, a read pump that meets a
    fatal read error and a write pump that meets a failed write both
    report and return, in either order, and neither is held up; the
    message whose write failed is off the queue, the ones behind it stay
    queued. *)
Theorem error_channel_holds_both :
  forall (err1 : websocket.error) (now1 : nat -> Time)
         (rest1 : list SocketRead)
         (err2 : websocket.error) (now2 : Time) (rest2 : list WriteSelect)
         (m : Event) (q : list Event) (c : PumpingStation),
  buf (errorChan c) = [] ->
  cap (errorChan c) = 2%nat ->
  websocket.isTimeout err1 = false ->
  buf (writeChannel c) = m :: q ->
  (exists c1 tr1 c2 tr2,
     readLoop (RFail err1 now1 :: rest1) c = (c1, tr1, Returned)
     /\ writeLoop (WTakeWrite (Some err2) now2 :: rest2) c1
        = (c2, tr2, Returned)
     /\ error_reports tr1 = [err1]
     /\ error_reports tr2 = [err2]
     /\ buf (errorChan c2) = [err1; err2]
     /\ buf (writeChannel c2) = q)
  /\ (exists c1 tr1 c2 tr2,
        writeLoop (WTakeWrite (Some err2) now2 :: rest2) c
        = (c1, tr1, Returned)
        /\ readLoop (RFail err1 now1 :: rest1) c1 = (c2, tr2, Returned)
        /\ error_reports tr1 = [err2]
        /\ error_reports tr2 = [err1]
        /\ buf (errorChan c2) = [err2; err1]
        /\ buf (writeChannel c2) = q).
Proof.
  intros err1 now1 rest1 err2 now2 rest2 m q c Hb Hc Ht Hw.
  destruct c as [k i ro ra rc [wb wc] re we [eb ecap] wt rt rcv sc r0].
  cbn in Hb, Hc, Hw. subst eb ecap wb.
  split.
  - rewrite PeerProofs.readLoop_fail, (PeerProofs.readFailed_fatal _ _ _ _ Ht).
    destruct (websocket.IsUnexpectedCloseError err1 _);
      do 4 eexists; (split; [reflexivity|]); (split; [reflexivity|]);
      now repeat split.
  - cbn [writeLoop]. unfold chan_recv, chan_send.
    cbn [writeChannel buf cap set_writeChannel errorChan List.length
         Nat.ltb Nat.leb conn emit app].
    eexists. eexists.
    destruct (websocket.IsUnexpectedCloseError err1
                [websocket.CloseGoingAway]) eqn:Hu;
      do 2 eexists; (split; [reflexivity|]);
      rewrite PeerProofs.readLoop_fail,
              (PeerProofs.readFailed_fatal _ _ _ _ Ht), Hu;
      (split; [reflexivity|]); now repeat split.
Qed.

(** ** The teardown, seen from the pumps *)

(** X14.  The exit signals that the teardown of the liveness supervisor
    posts on two empty exit channels are the ones the pumps wait for:
    after the teardown the write pump, taking the exit case of its
    [select], returns without writing anything, and the read pump
    returns at its next read timeout without reporting an error.  Before
    the teardown neither does: the write pump has no exit case to take,
    and the read pump renews its deadline and reads again. *)
Theorem teardown_stops_both_pumps :
  forall (c : PumpingStation),
  buf (writeExit c) = [] ->
  buf (readExit c) = [] ->
  (0 < cap (writeExit c))%nat ->
  (0 < cap (readExit c))%nat ->
  exists c',
    pumperCleanup c = (c', cleanupActions c, Returned)
    /\ (forall rest,
          writeLoop (WTakeExit :: rest) c'
          = (set_writeExit (mkChan [] (cap (writeExit c))) c',
             [ARecv ChWriteExit], Returned))
    /\ (forall err nows rest,
          websocket.isTimeout err = true ->
          readLoop (RFail err nows :: rest) c'
          = (set_readExit (mkChan [] (cap (readExit c))) c',
             [ARecv ChReadExit], Returned))
    /\ (forall rest,
          writeLoop (WTakeExit :: rest) c = (c, [], BlockedOn OnSelect))
    /\ (forall err nows rest,
          websocket.isTimeout err = true ->
          readLoop (RFail err nows :: rest) c
          = emit [ASetReadDeadline (conn c) (time_Add (nows 0%nat) TTL)]
                 (readFailed (readErrLimit - 2) err (fun i => nows (S i)) c)).
Proof.
  intros c Hw Hr Cw Cr.
  destruct c as [k i ro ra rc wc [reb rec] [web wec] ec wt rt rcv sc r0].
  cbn in Hw, Hr, Cw, Cr. subst reb web.
  unfold pumperCleanup, chan_send.
  cbn [writeExit readExit buf cap List.length set_writeExit set_readExit].
  apply Nat.ltb_lt in Cw, Cr. rewrite Cw. cbn [readExit buf cap List.length].
  rewrite Cr.
  eexists. split; [reflexivity|]. split; [reflexivity|].
  split.
  { intros err nows rest Ht.
    rewrite PeerProofs.readLoop_fail, PeerProofs.readFailed_S.
    unfold onReadError.
    rewrite (PeerProofs.timeout_not_close _ _ Ht), Ht. reflexivity. }
  split; [reflexivity|].
  intros err nows rest Ht.
  rewrite PeerProofs.readLoop_fail, PeerProofs.readFailed_S.
  unfold onReadError.
  rewrite (PeerProofs.timeout_not_close _ _ Ht), Ht. reflexivity.
Qed.

(** ** The goroutine left by the constructor *)

Lemma pumperCleanup_unregisters : forall c,
  unregisters (trace_of (pumperCleanup c)) = [ID c]
  /\ dials_made (trace_of (pumperCleanup c)) = []
  /\ spawned (trace_of (pumperCleanup c)) = [].
Proof.
  intros c. unfold pumperCleanup.
  destruct (chan_send (writeExit c) true) as [we|]; [|now repeat split].
  cbn [set_writeExit readExit].
  destruct (chan_send (readExit c) true) as [re|]; now repeat split.
Qed.

Lemma startPumper_unregisters : forall t0 t0' sel c,
  (unregisters (trace_of (startPumper t0 t0' sel c)) = [ID c]
   \/ (unregisters (trace_of (startPumper t0 t0' sel c)) = []
       /\ status_of (startPumper t0 t0' sel c) <> Returned))
  /\ dials_made (trace_of (startPumper t0 t0' sel c)) = []
  /\ spawned (trace_of (startPumper t0 t0' sel c)) = [].
Proof.
  intros t0 t0' sel c. unfold startPumper.
  destruct sel as [|s rest];
    [split; [right; split; [reflexivity|discriminate]|now split]|].
  destruct s as [n1 n2| |now|now].
  - match goal with |- context [if ?b then _ else _] => destruct b end;
      match goal with |- context [pumperCleanup ?c0] =>
        destruct (pumperCleanup_unregisters c0) as (U & D & S);
        destruct (pumperCleanup c0) as [[c' tr] st] end;
      unfold trace_of, status_of in *; cbn [fst snd emit app] in *;
      (split; [left; exact U|split; [exact D|exact S]]).
  - destruct (chan_recv _) as [[v q]|];
      [|split; [right; split; [reflexivity|discriminate]|now split]].
    match goal with |- context [pumperCleanup ?c0] =>
      destruct (pumperCleanup_unregisters c0) as (U & D & S);
      destruct (pumperCleanup c0) as [[c' tr] st] end.
    unfold trace_of, status_of in *. cbn [fst snd emit app] in *.
    split; [left; exact U|split; [exact D|exact S]].
  - destruct (chan_recv _) as [[v q]|];
      [|split; [right; split; [reflexivity|discriminate]|now split]].
    destruct (chan_send _ v) as [wq|];
      [|split; [right; split; [reflexivity|discriminate]|now split]].
    match goal with |- context [pumperCleanup ?c0] =>
      destruct (pumperCleanup_unregisters c0) as (U & D & S);
      destruct (pumperCleanup c0) as [[c' tr] st] end.
    unfold trace_of, status_of in *. cbn [fst snd emit app] in *.
    split; [left; exact U|split; [exact D|exact S]].
  - destruct (chan_recv _) as [[v q]|];
      [|split; [right; split; [reflexivity|discriminate]|now split]].
    destruct (chan_send _ v) as [wq|];
      [|split; [right; split; [reflexivity|discriminate]|now split]].
    match goal with |- context [pumperCleanup ?c0] =>
      destruct (pumperCleanup_unregisters c0) as (U & D & S);
      destruct (pumperCleanup c0) as [[c' tr] st] end.
    unfold trace_of, status_of in *. cbn [fst snd emit app] in *.
    split; [left; exact U|split; [exact D|exact S]].
Qed.

(** X15.  However [start] comes to return (the directory does not know
    the device, the dial fails, or the supervisor goes through its
    teardown), it has unregistered the connection from its registry
    exactly once, under the identifier the station was built with.  It
    dials at most once, and only when the directory gave an address; it
    starts the two pumps when that dial works, and nothing otherwise. *)
Theorem start_unregisters_once :
  forall (dev : GetDeviceOutcome) (d : DialOutcome) (t0 t0' : Time)
         (sel : list SelectCase) (c : PumpingStation),
  (status_of (start dev d t0 t0' sel c) = Returned ->
   unregisters (trace_of (start dev d t0 t0' sel c)) = [ID c])
  /\ dials_made (trace_of (start dev d t0 t0' sel c))
     = match dev with
       | DeviceOk address => [dialURL address]
       | DeviceErr _ => []
       end
  /\ spawned (trace_of (start dev d t0 t0' sel c))
     = match dev, d with
       | DeviceOk _, DialOk _ => [ReadPump; WritePump]
       | _, _ => []
       end.
Proof.
  intros dev d t0 t0' sel c. unfold start.
  destruct dev as [address|msg]; [|now repeat split].
  destruct d as [k|msg]; cbn [openConn]; [|now repeat split].
  match goal with |- context [startPumper t0 t0' sel ?c0] =>
    destruct (startPumper_unregisters t0 t0' sel c0) as (U & D & S);
    destruct (startPumper t0 t0' sel c0) as [[c' tr] st] end.
  unfold trace_of, status_of in *. cbn [fst snd emit app] in *.
  split.
  - intros R. destruct U as [U|[_ N]]; [|contradiction].
    cbn [unregisters flat_map app]. fold (unregisters tr). exact U.
  - split.
    + cbn [dials_made flat_map app]. fold (dials_made tr). now rewrite D.
    + cbn [spawned flat_map app]. fold (spawned tr). now rewrite S.
Qed.

Lemma SendEvent_backpressure_witness :
  exists c',
    sendAll [[x63]] sampleStation = Some c'
    /\ buf (SendChannel c') = [[x61]; [x62]; [x63]].
Proof.
  assert (H : (List.length (buf (SendChannel sampleStation))
               + List.length [[x63]] <= cap (SendChannel sampleStation))%nat)
    by (apply Nat.leb_le; reflexivity).
  destruct (SendEvent_backpressure [[x63]] sampleStation H) as (E & _).
  eexists. split; [exact E|reflexivity].
Defined.

Lemma peer_inbound_fifo_witness :
  exists c',
    readLoop [RJSON [x61] Second; RJSON [x62] (2 * Second)] sampleStation
    = (c',
       [ASendEvent ChReadChannel [x61];
        ASetReadDeadline (Some 7%nat) (Second + TTL);
        ASendEvent ChReadChannel [x62];
        ASetReadDeadline (Some 7%nat) (2 * Second + TTL)],
       BlockedOn OnReadJSON)
    /\ buf (readChannel c') = [[x61]; [x62]].
Proof.
  assert (H : (List.length (buf (readChannel sampleStation))
               + List.length [([x61], Second); ([x62], (2 * Second)%Z)]
               <= cap (readChannel sampleStation))%nat)
    by (apply Nat.leb_le; reflexivity).
  destruct (peer_inbound_fifo [([x61], Second); ([x62], 2 * Second)]
              sampleStation H) as (E & _).
  eexists. split; [exact E|reflexivity].
Defined.

Lemma peer_outbound_fifo_witness :
  exists c',
    writeLoop [WTakeWrite None Second] sampleWriting
    = (c',
       [ARecv ChWriteChannel; AWriteJSON (Some 7%nat) [x61];
        ASetWriteDeadline (Some 7%nat) (Second + TTL)],
       BlockedOn OnSelect)
    /\ buf (writeChannel c') = [[x62]].
Proof.
  eexists. split.
  - exact (peer_outbound_fifo [([x61], Second)] [[x62]] sampleWriting eq_refl).
  - reflexivity.
Defined.

Lemma error_channel_holds_both_witness :
  exists c1 tr1 c2 tr2,
    readLoop [RFail (websocket.CloseError 1006 "unexpected EOF") (fun _ => 0)]
             sampleWriting
    = (c1, tr1, Returned)
    /\ writeLoop [WTakeWrite (Some (websocket.OtherError "broken pipe")) 0] c1
       = (c2, tr2, Returned)
    /\ buf (errorChan c2)
       = [websocket.CloseError 1006 "unexpected EOF";
          websocket.OtherError "broken pipe"].
Proof.
  destruct (error_channel_holds_both
              (websocket.CloseError 1006 "unexpected EOF") (fun _ => 0) []
              (websocket.OtherError "broken pipe") 0 []
              [x61] [[x62]] sampleWriting eq_refl eq_refl eq_refl eq_refl)
    as ((c1 & tr1 & c2 & tr2 & R & W & _ & _ & B & _) & _).
  exists c1, tr1, c2, tr2. split; [exact R|]. split; [exact W|exact B].
Defined.

Lemma teardown_stops_both_pumps_witness :
  exists c',
    pumperCleanup sampleStation
    = (c', cleanupActions sampleStation, Returned)
    /\ status_of (writeLoop [WTakeExit] c') = Returned
    /\ status_of
         (readLoop [RFail (websocket.NetError true "i/o timeout")
                          (fun _ => 0)] c')
       = Returned.
Proof.
  assert (Cw : (0 < cap (writeExit sampleStation))%nat)
    by (apply Nat.ltb_lt; reflexivity).
  assert (Cr : (0 < cap (readExit sampleStation))%nat)
    by (apply Nat.ltb_lt; reflexivity).
  destruct (teardown_stops_both_pumps sampleStation eq_refl eq_refl Cw Cr)
    as (c' & E & W & R & _).
  exists c'. split; [exact E|]. split.
  - now rewrite (W []).
  - now rewrite (R (websocket.NetError true "i/o timeout") (fun _ => 0) []
                   eq_refl).
Defined.

Lemma start_unregisters_once_witness :
  unregisters
    (trace_of (start (DeviceOk "10.0.0.9") (DialOk 7%nat) 0 0
                 [TakeTick (6 * Second) (6 * Second)]
                 (fst (fst (StartConnection "proc1" "room1" sampleRepeater)))))
  = ["proc1"%string].
Proof.
  destruct (start_unregisters_once (DeviceOk "10.0.0.9") (DialOk 7%nat) 0 0
              [TakeTick (6 * Second) (6 * Second)]
              (fst (fst (StartConnection "proc1" "room1" sampleRepeater))))
    as (U & _).
  exact (U eq_refl).
Defined.

End PeerExtra.
